(** * Job-Application-Tracker: the client script [static/script.js]

    A shallow embedding of the browser script and the properties of its
    specification.

    Modelling conventions.
    - JavaScript values that travel through the script (JSON bodies, record
      fields, ids) are values of [jsval]; numbers are the integers.
    - JavaScript strings are Rocq strings; text outside ASCII is carried as
      its UTF-8 bytes.
    - Script globals, the DOM properties the script reads or writes and the
      log of observable actions (network requests, dialogs, console output,
      navigation, downloads) form the record [State].
    - A function of the script is a computation in the monad [M]: it
      threads the state and ends normally or by a thrown exception.
    - Each [await] is resolved on the spot with the outcome that the host
      supplies for the request, and an async function that is called
      without [await] runs to its end at the call: an event handler is
      finished before the next one starts. *)

From Stdlib Require Import String Ascii List ZArith Lia Bool DecimalString.
Import ListNotations.
Open Scope string_scope.
Set Warnings "-register-all".

(** ** JavaScript values *)

Inductive jsval : Type :=
| JUndefined
| JNull
| JBool (b : bool)
| JNum (n : Z)
| JStr (s : string)
| JArr (items : list jsval)
| JObj (props : list (string * jsval)).

(** Exceptions the script throws or receives from the host. *)
Inductive exn : Type :=
| JsError (message : string)       (* new Error(message) *)
| TypeError (message : string)     (* property access on null, call of a non-function, failed fetch *)
| SyntaxError (message : string).  (* response.json() on a body that is not JSON *)

(** How an evaluation ends: with a value, or with a thrown exception. *)
Inductive completion (A : Type) : Type :=
| Normal (a : A)
| Throw (e : exn).
Arguments Normal {A} a.
Arguments Throw {A} e.

Definition bindc {A B} (c : completion A) (k : A -> completion B) : completion B :=
  match c with
  | Normal a => k a
  | Throw e => Throw e
  end.

Declare Scope js_scope.
Delimit Scope js_scope with js.
Notation "x <~ c ;; k" := (bindc c (fun x => k))
  (at level 100, c at next level, right associativity) : js_scope.

(** The double quote character, and a string made of it. *)
Definition dquote : ascii := "034"%char.
Definition DQ : string := String dquote EmptyString.

(** ToBoolean. *)
Definition truthy (v : jsval) : bool :=
  match v with
  | JUndefined | JNull => false
  | JBool b => b
  | JNum n => negb (n =? 0)%Z
  | JStr s => negb (s =? "")
  | JArr _ | JObj _ => true
  end.

(** [a || b]. *)
Definition js_or (a b : jsval) : jsval := if truthy a then a else b.

(** Decimal digits of an integer. [String(n)] prints a number this way
    when it is a safe integer (at most 2^53 - 1 in size); larger numbers
    are not all held exactly and from 10^21 are printed with an exponent,
    so that a printed number is relied on for safe integers only. *)
Definition dec (n : Z) : string := NilZero.string_of_int (Z.to_int n).

Fixpoint join (sep : string) (l : list string) : string :=
  match l with
  | [] => ""
  | [x] => x
  | x :: rest => x ++ sep ++ join sep rest
  end.

(** ToString. An array prints its elements separated by commas, with null
    and undefined elements printed as nothing. *)
Fixpoint to_string (v : jsval) : string :=
  match v with
  | JUndefined => "undefined"
  | JNull => "null"
  | JBool true => "true"
  | JBool false => "false"
  | JNum n => dec n
  | JStr s => s
  | JArr items =>
      join "," (map (fun x => match x with
                              | JUndefined | JNull => ""
                              | _ => to_string x
                              end) items)
  | JObj _ => "[object Object]"
  end.

(** [a === b]. Arrays and objects compare by reference; a value received
    as an argument is never the same reference as a field of a fetched
    record, so they compare unequal here. *)
Definition strict_eq (a b : jsval) : bool :=
  match a, b with
  | JUndefined, JUndefined => true
  | JNull, JNull => true
  | JBool x, JBool y => Bool.eqb x y
  | JNum x, JNum y => (x =? y)%Z
  | JStr x, JStr y => (x =? y)
  | _, _ => false
  end.

(** Lookup in the property list of an object (first binding). *)
Fixpoint assoc (k : string) (props : list (string * jsval)) : jsval :=
  match props with
  | [] => JUndefined
  | (k', v) :: rest => if k' =? k then v else assoc k rest
  end.

(** [v.k] for the data property names the script reads ([id], [company],
    [error], [total], ...): none of them exists on a primitive or on an
    array, and reading a property of null or undefined throws. *)
Definition get_prop (v : jsval) (k : string) : completion jsval :=
  match v with
  | JUndefined => Throw (TypeError ("Cannot read properties of undefined (reading '" ++ k ++ "')"))
  | JNull => Throw (TypeError ("Cannot read properties of null (reading '" ++ k ++ "')"))
  | JObj props => Normal (assoc k props)
  | _ => Normal JUndefined
  end.

(** ** Strings *)

Fixpoint rev_string (acc s : string) : string :=
  match s with
  | EmptyString => acc
  | String c r => rev_string (String c acc) r
  end.

(** The white space and line terminators that [String.prototype.trim]
    removes, as UTF-8 byte sequences: U+0009..U+000D, U+0020, U+00A0,
    U+1680, U+2000..U+200A, U+2028, U+2029, U+202F, U+205F, U+3000,
    U+FEFF. *)
Definition code_is (c : ascii) (n : nat) : bool := Nat.eqb (nat_of_ascii c) n.

Definition code_in (c : ascii) (lo hi : nat) : bool :=
  Nat.leb lo (nat_of_ascii c) && Nat.leb (nat_of_ascii c) hi.

Definition ascii_space (c : ascii) : bool := code_in c 9 13 || code_is c 32.

Definition ws_start (s : string) : option string :=
  match s with
  | String c r =>
      if ascii_space c then Some r else
      match r with
      | String c2 r2 =>
          if code_is c 194 && code_is c2 160 then Some r2 else
          match r2 with
          | String c3 r3 =>
              if (code_is c 225 && code_is c2 154 && code_is c3 128)
                 || (code_is c 226 && code_is c2 128
                     && (code_in c3 128 138 || code_is c3 168 || code_is c3 169 || code_is c3 175))
                 || (code_is c 226 && code_is c2 129 && code_is c3 159)
                 || (code_is c 227 && code_is c2 128 && code_is c3 128)
                 || (code_is c 239 && code_is c2 187 && code_is c3 191)
              then Some r3 else None
          | EmptyString => None
          end
      | EmptyString => None
      end
  | EmptyString => None
  end.

(** The same test on a reversed string: the bytes of a sequence come in
    the opposite order. *)
Definition ws_end_rev (s : string) : option string :=
  match s with
  | String c r =>
      if ascii_space c then Some r else
      match r with
      | String c2 r2 =>
          if code_is c 160 && code_is c2 194 then Some r2 else
          match r2 with
          | String c3 r3 =>
              match ws_start (String c3 (String c2 (String c EmptyString))) with
              | Some EmptyString => Some r3
              | _ => None
              end
          | EmptyString => None
          end
      | EmptyString => None
      end
  | EmptyString => None
  end.

Fixpoint strip (step : string -> option string) (fuel : nat) (s : string) : string :=
  match fuel with
  | O => s
  | S fuel' =>
      match step s with
      | Some r => strip step fuel' r
      | None => s
      end
  end.

Definition trimStart (s : string) : string := strip ws_start (String.length s) s.

Definition trimEnd (s : string) : string :=
  rev_string "" (strip ws_end_rev (String.length s) (rev_string "" s)).

(** [s.trim()]. *)
Definition trim (s : string) : string := trimEnd (trimStart s).

(** [s.replace(/c/g, by)] for a one-character pattern and a replacement
    without [$]. *)
Fixpoint replace_all (c : ascii) (by_ : string) (s : string) : string :=
  match s with
  | EmptyString => EmptyString
  | String x r =>
      if Ascii.eqb x c then by_ ++ replace_all c by_ r
      else String x (replace_all c by_ r)
  end.

(** [s.split('T')[0]]: the text before the first [T]. *)
Fixpoint before_T (s : string) : string :=
  match s with
  | EmptyString => EmptyString
  | String c r => if Ascii.eqb c "T"%char then EmptyString else String c (before_T r)
  end.

Definition hex_digit (upper : bool) (n : nat) : ascii :=
  if Nat.ltb n 10 then ascii_of_nat (48 + n)
  else ascii_of_nat ((if upper then 55 else 87) + n).

Definition hex2 (upper : bool) (c : ascii) : string :=
  String (hex_digit upper (Nat.div (nat_of_ascii c) 16))
    (String (hex_digit upper (Nat.modulo (nat_of_ascii c) 16)) EmptyString).

Definition is_alnum (c : ascii) : bool :=
  code_in c 48 57 || code_in c 65 90 || code_in c 97 122.

(** The application/x-www-form-urlencoded byte serializer used by
    [URLSearchParams.prototype.toString]. *)
Fixpoint urlencode (s : string) : string :=
  match s with
  | EmptyString => EmptyString
  | String c r =>
      if is_alnum c || code_is c 42 || code_is c 45 || code_is c 46 || code_is c 95
      then String c (urlencode r)
      else if code_is c 32 then String "+"%char (urlencode r)
      else String "%"%char (hex2 true c ++ urlencode r)
  end.

Definition URLSearchParams_toString (params : list (string * string)) : string :=
  join "&" (map (fun kv => urlencode (fst kv) ++ "=" ++ urlencode (snd kv)) params).

(** QuoteJSONString of [JSON.stringify]. *)
Fixpoint json_escape (s : string) : string :=
  match s with
  | EmptyString => EmptyString
  | String c r =>
      let rest := json_escape r in
      if code_is c 34 then String "\"%char (String dquote rest)
      else if code_is c 92 then String "\"%char (String "\"%char rest)
      else if code_is c 8 then "\b" ++ rest
      else if code_is c 9 then "\t" ++ rest
      else if code_is c 10 then "\n" ++ rest
      else if code_is c 12 then "\f" ++ rest
      else if code_is c 13 then "\r" ++ rest
      else if code_in c 0 31 then "\u00" ++ hex2 false c ++ rest
      else String c rest
  end.

Definition json_string (s : string) : string := DQ ++ json_escape s ++ DQ.


(** ** The page: globals, DOM, observable actions *)

Inductive order : Type := asc | desc.

Definition order_name (o : order) : string :=
  match o with asc => "asc" | desc => "desc" end.

(** The element properties the script reads or assigns, named
    element_property after [document.getElementById(element).property]
    ([display] is [style.display], [text] is [textContent], [html] is
    [innerHTML]). The boolean [saveButton.disabled] is kept as the text
    [true] or [false]. *)
Inductive slot : Type :=
| company_value | position_value | status_value | appliedDate_value
| jobUrl_value | salary_value | notes_value
| statusFilter_value
| jobModal_display | modalTitle_text
| loading_display
| saveButton_disabled | btnText_display | btnLoading_display
| jobTableBody_html | emptyState_display
| totalApps_text | interviewCount_text.

Scheme Equality for slot.

Definition form_slots : list slot :=
  [company_value; position_value; status_value; appliedDate_value;
   jobUrl_value; salary_value; notes_value].

(** What is handed to [fetch]: the url and the members of the init
    object. *)
Record Request : Type := mkRequest {
  req_url : string;
  req_method : option string;
  req_headers : list (string * string);
  req_body : option string
}.

(** The method a request goes out with. *)
Definition method_of (r : Request) : string :=
  match req_method r with Some m => m | None => "GET" end.

(** A response body: JSON text, given by the value it parses to, or
    anything else. *)
Inductive Body : Type :=
| JsonBody (v : jsval)
| RawBody (text : string).

Record Response : Type := mkResponse {
  status : Z;
  body : Body
}.

(** [response.ok]. *)
Definition ok (r : Response) : bool := (200 <=? status r)%Z && (status r <=? 299)%Z.

Inductive FetchOutcome : Type :=
| Responded (r : Response)
| Failed (message : string).      (* no response: fetch rejects *)

Inductive Callback : Type := FocusCompany.

(** Observable actions, in the order the script performs them. *)
Inductive Event : Type :=
| Fetch (r : Request)
| Alert (message : string)
| Confirm (message : string)
| ConsoleError (label : string) (e : exn)
| Navigate (href : string)                 (* window.location.href = href *)
| SetTimeout (cb : Callback) (ms : Z)
| SetProp (k : slot) (v : string)          (* assignment to an element property *)
| FormReset                                (* jobForm.reset() *)
| PreventDefault
| Download (filename : string) (content : Body).

Record State : Type := mkState {
  jobs : jsval;
  sortColumn : string;
  sortOrder : order;
  editingJobId : jsval;
  dom : slot -> string;
  th_classes : list (list string);   (* classList of each th, in document order *)
  log : list Event                   (* newest first *)
}.

(** The state the script starts in, over a document [d] with header
    cells [ths]. *)
Definition initial (d : slot -> string) (ths : list (list string)) : State :=
  {| jobs := JArr [];
     sortColumn := "created_at";
     sortOrder := desc;
     editingJobId := JNull;
     dom := d;
     th_classes := ths;
     log := [] |}.

(** What the script does not decide: the outcome of the n-th [fetch]
    (counted from 0), the values the form controls return to after
    [reset()], and the library functions that depend on locale and Unicode
    tables. *)
Record Host : Type := mkHost {
  net : nat -> Request -> FetchOutcome;
  form_default : slot -> string;
  toLocaleDateString : jsval -> string;   (* new Date(v).toLocaleDateString('en-US', {year, month, day}) *)
  toUpperCase : string -> string          (* of one character outside ASCII *)
}.

Definition API_BASE : string := "/api".

(** ** The monad of script computations *)

Definition M (A : Type) : Type := State -> completion A * State.

Definition ret {A} (a : A) : M A := fun s => (Normal a, s).

Definition bind {A B} (m : M A) (k : A -> M B) : M B :=
  fun s => match m s with
           | (Normal a, s') => k a s'
           | (Throw e, s') => (Throw e, s')
           end.

Definition throw {A} (e : exn) : M A := fun s => (Throw e, s).

Notation "x <- m ;; k" := (bind m (fun x => k))
  (at level 100, m at next level, right associativity) : js_scope.
Notation "m ;; k" := (bind m (fun _ => k))
  (at level 100, right associativity) : js_scope.
Open Scope js_scope.

(** [try { body } catch (error) { handler error }]. *)
Definition try_catch {A} (body : M A) (handler : exn -> M A) : M A :=
  fun s => match body s with
           | (Normal a, s') => (Normal a, s')
           | (Throw e, s') => handler e s'
           end.

(** [try { body } finally { cleanup }]. *)
Definition try_finally {A} (body : M A) (cleanup : M unit) : M A :=
  fun s => match body s with
           | (r, s') =>
               match cleanup s' with
               | (Normal _, s'') => (r, s'')
               | (Throw e, s'') => (Throw e, s'')
               end
           end.

Definition lift {A} (c : completion A) : M A := fun s => (c, s).

Definition gets {A} (f : State -> A) : M A := fun s => (Normal (f s), s).

Definition emit (e : Event) : M unit :=
  fun s => (Normal tt,
            {| jobs := jobs s; sortColumn := sortColumn s; sortOrder := sortOrder s;
               editingJobId := editingJobId s; dom := dom s;
               th_classes := th_classes s; log := e :: log s |}).

Definition write (k : slot) (v : string) (d : slot -> string) : slot -> string :=
  fun k' => if slot_beq k k' then v else d k'.

Definition set_prop (k : slot) (v : string) : M unit :=
  fun s => (Normal tt,
            {| jobs := jobs s; sortColumn := sortColumn s; sortOrder := sortOrder s;
               editingJobId := editingJobId s; dom := write k v (dom s);
               th_classes := th_classes s; log := SetProp k v :: log s |}).

Definition prop (k : slot) : M string := gets (fun s => dom s k).

Definition set_jobs (v : jsval) : M unit :=
  fun s => (Normal tt,
            {| jobs := v; sortColumn := sortColumn s; sortOrder := sortOrder s;
               editingJobId := editingJobId s; dom := dom s;
               th_classes := th_classes s; log := log s |}).

Definition set_sort (c : string) (o : order) : M unit :=
  fun s => (Normal tt,
            {| jobs := jobs s; sortColumn := c; sortOrder := o;
               editingJobId := editingJobId s; dom := dom s;
               th_classes := th_classes s; log := log s |}).

Definition set_editingJobId (v : jsval) : M unit :=
  fun s => (Normal tt,
            {| jobs := jobs s; sortColumn := sortColumn s; sortOrder := sortOrder s;
               editingJobId := v; dom := dom s;
               th_classes := th_classes s; log := log s |}).

Definition set_th_classes (ths : list (list string)) : M unit :=
  fun s => (Normal tt,
            {| jobs := jobs s; sortColumn := sortColumn s; sortOrder := sortOrder s;
               editingJobId := editingJobId s; dom := dom s;
               th_classes := ths; log := log s |}).

Definition alert (message : string) : M unit := emit (Alert message).

Definition console_error (label : string) (e : exn) : M unit := emit (ConsoleError label e).

Definition navigate (href : string) : M unit := emit (Navigate href).

(** The requests made so far, newest first. *)
Fixpoint requests (l : list Event) : list Request :=
  match l with
  | [] => []
  | Fetch r :: rest => r :: requests rest
  | _ :: rest => requests rest
  end.

Fixpoint alerts (l : list Event) : list string :=
  match l with
  | [] => []
  | Alert m :: rest => m :: alerts rest
  | _ :: rest => alerts rest
  end.

(** ** Rendering helpers *)

(** [escapeHtml]: five replacements, one after the other. *)
Definition escape_text (s : string) : string :=
  replace_all "'"%char "&#039;"
    (replace_all dquote "&quot;"
       (replace_all ">"%char "&gt;"
          (replace_all "<"%char "&lt;"
             (replace_all "&"%char "&amp;" s)))).

Definition escapeHtml (unsafe : jsval) : completion string :=
  if negb (truthy unsafe) then Normal ""
  else match unsafe with
       | JStr s => Normal (escape_text s)
       | _ => Throw (TypeError "unsafe.replace is not a function")
       end.

(** The static text of a table row, between the interpolated values, as
    the template literal of [renderTable] spells it. *)
Definition row_open : string :=
  "
            <tr>
                <td>
                    <div>
                        <strong>".

Definition row_after_company : string :=
  "</strong>
                        ".

Definition row_after_link : string :=
  "
                    </div>
                </td>
                <td>".

Definition row_after_position : string :=
  "</td>
                <td><span class=" ++ DQ ++ "status ".

Definition row_after_status_class : string :=
  DQ ++ ">".

Definition row_after_status : string :=
  "</span></td>
                <td>".

Definition row_after_date : string :=
  "</td>
                <td>
                    <div class=" ++ DQ ++ "action-buttons" ++ DQ ++ ">
                        <button class=" ++ DQ ++ "btn btn-primary" ++ DQ ++ " onclick=" ++ DQ ++ "openModal(".

Definition row_after_edit_id : string :=
  ")" ++ DQ ++ " title=" ++ DQ ++ "Edit Application" ++ DQ ++ ">
                            ✏️ Edit
                        </button>
                        <button class=" ++ DQ ++ "btn btn-danger" ++ DQ ++ " onclick=" ++ DQ ++ "deleteJob(".

Definition row_close : string :=
  ")" ++ DQ ++ " title=" ++ DQ ++ "Delete Application" ++ DQ ++ ">
                            🗑️ Delete
                        </button>
                    </div>
                </td>
            </tr>
        ".

Definition link_open : string :=
  "<br><a href=" ++ DQ.

Definition link_close : string :=
  DQ ++ " target=" ++ DQ ++ "_blank" ++ DQ ++ " style=" ++ DQ ++ "font-size: 12px; color: #007bff;" ++ DQ ++ " title=" ++ DQ ++ "View Job Posting" ++ DQ ++ ">🔗 View Job</a>".


Section Script.

Variable h : Host.

(** [formatDate]. [new Date(v)] and [toLocaleDateString] do not throw on
    the values JSON can carry, so the [catch] is never entered. *)
Definition formatDate (dateString : jsval) : string :=
  if negb (truthy dateString) then "" else toLocaleDateString h dateString.

(** [str.charAt(0).toUpperCase() + str.slice(1)]: the first UTF-16 unit
    is an ASCII character (one byte), a character of two or three bytes,
    or half of a character of four bytes, which has no upper case. *)
Definition capitalizeFirst (str : jsval) : completion string :=
  if negb (truthy str) then Normal ""
  else match str with
       | JStr (String c r) =>
           if code_in c 97 122 then Normal (String (ascii_of_nat (nat_of_ascii c - 32)) r)
           else if code_in c 0 127 then Normal (String c r)
           else if code_in c 192 223 then
             match r with
             | String c2 r2 => Normal (toUpperCase h (String c (String c2 "")) ++ r2)
             | _ => Normal (String c r)
             end
           else if code_in c 224 239 then
             match r with
             | String c2 (String c3 r3) =>
                 Normal (toUpperCase h (String c (String c2 (String c3 ""))) ++ r3)
             | _ => Normal (String c r)
             end
           else Normal (String c r)
       | _ => Throw (TypeError "str.charAt is not a function")
       end.

(** One row of the table: the template literal of [renderTable]. *)
Definition renderRow (job : jsval) : completion string :=
  company <~ get_prop job "company" ;;
  company_html <~ escapeHtml company ;;
  job_url <~ get_prop job "job_url" ;;
  link <~ (if truthy job_url
           then (url_html <~ escapeHtml job_url ;;
                 Normal (link_open ++ url_html ++ link_close))
           else Normal "") ;;
  position <~ get_prop job "position" ;;
  position_html <~ escapeHtml position ;;
  status <~ get_prop job "status" ;;
  status_text <~ capitalizeFirst status ;;
  applied_date <~ get_prop job "applied_date" ;;
  id <~ get_prop job "id" ;;
  Normal (row_open ++ company_html ++ row_after_company ++ link ++ row_after_link
          ++ position_html ++ row_after_position ++ to_string status
          ++ row_after_status_class ++ status_text ++ row_after_status
          ++ formatDate applied_date ++ row_after_date ++ to_string id
          ++ row_after_edit_id ++ to_string id ++ row_close).

(** [items.map(renderRow)]: the rows in order, up to the first one that
    throws. *)
Fixpoint renderRows (items : list jsval) : completion (list string) :=
  match items with
  | [] => Normal []
  | job :: rest =>
      row <~ renderRow job ;;
      rows <~ renderRows rest ;;
      Normal (row :: rows)
  end.

(** [jobs.length]. It is only compared with 0, which the length in
    bytes of a string decides as well as its length in UTF-16 units. *)
Definition js_length (v : jsval) : completion jsval :=
  match v with
  | JArr items => Normal (JNum (Z.of_nat (List.length items)))
  | JStr s => Normal (JNum (Z.of_nat (String.length s)))
  | _ => get_prop v "length"
  end.

Definition renderTable : M unit :=
  jobs <- gets jobs ;;
  len <- lift (js_length jobs) ;;
  if strict_eq len (JNum 0) then
    set_prop jobTableBody_html "" ;;
    set_prop emptyState_display "block"
  else
    set_prop emptyState_display "none" ;;
    match jobs with
    | JArr items =>
        rows <- lift (renderRows items) ;;
        set_prop jobTableBody_html (join "" rows)
    | _ => throw (TypeError "jobs.map is not a function")
    end.

(** ** Network *)

(** [fetch]: the request goes out; the host decides what comes back. A
    request that gets no response rejects with a TypeError. *)
Definition fetch (r : Request) : M Response :=
  fun s =>
    match net h (List.length (requests (log s))) r with
    | Responded resp => (emit (Fetch r) ;; ret resp) s
    | Failed message => (emit (Fetch r) ;; throw (TypeError message)) s
    end.

(** [response.json()]. The wording of the parser's message is the
    engine's. *)
Definition response_json (r : Response) : completion jsval :=
  match body r with
  | JsonBody v => Normal v
  | RawBody _ => Throw (SyntaxError "Unexpected token in JSON")
  end.

(** The members of [options] that callers pass. *)
Record Options : Type := mkOptions {
  opt_method : option string;
  opt_body : option string
}.

Definition no_options : Options := {| opt_method := None; opt_body := None |}.

(** [apiRequest(url, options)]. No caller passes headers, so the
    request carries the content type alone. *)
Definition apiRequest (url : string) (options : Options) : M jsval :=
  set_prop loading_display "flex" ;;
  try_finally
    (try_catch
       (response <- fetch {| req_url := url;
                             req_method := opt_method options;
                             req_headers := [("Content-Type", "application/json")];
                             req_body := opt_body options |} ;;
        if negb (ok response) then
          if (status response =? 401)%Z then
            navigate "/" ;;
            ret JUndefined
          else
            error <- lift (response_json response) ;;
            message <- lift (get_prop error "error") ;;
            throw (JsError (to_string (js_or message (JStr "Request failed"))))
        else
          lift (response_json response))
       (fun error =>
          console_error "API Error:" error ;;
          throw error))
    (set_prop loading_display "none").

(** [updateStatsDisplay(stats)], with [stats.byStatus?.interview]. *)
Definition updateStatsDisplay (stats : jsval) : M unit :=
  total <- lift (get_prop stats "total") ;;
  set_prop totalApps_text (to_string (js_or total (JNum 0))) ;;
  byStatus <- lift (get_prop stats "byStatus") ;;
  interview <- lift (match byStatus with
                     | JUndefined | JNull => Normal JUndefined
                     | _ => get_prop byStatus "interview"
                     end) ;;
  set_prop interviewCount_text (to_string (js_or interview (JNum 0))).

(** [loadStats()]. *)
Definition loadStats : M unit :=
  try_catch
    (stats <- apiRequest (API_BASE ++ "/stats") no_options ;;
     updateStatsDisplay stats)
    (fun error => console_error "Failed to load stats:" error).

(** [loadJobs()]. The query is built by [URLSearchParams]; the status
    is appended when the filter is not empty. *)
Definition loadJobs : M unit :=
  try_catch
    (column <- gets sortColumn ;;
     direction <- gets sortOrder ;;
     statusFilter <- prop statusFilter_value ;;
     let params := ([("sort_by", column); ("sort_order", order_name direction)]
                    ++ (if negb (statusFilter =? "") then [("status", statusFilter)] else []))%list in
     fetched <- apiRequest (API_BASE ++ "/jobs?" ++ URLSearchParams_toString params) no_options ;;
     set_jobs fetched ;;
     renderTable ;;
     loadStats)
    (fun error => console_error "Failed to load jobs:" error).

(** The object that [handleFormSubmit] builds from the form. *)
Record JobData : Type := mkJobData {
  jd_company : string;
  jd_position : string;
  jd_status : string;
  jd_appliedDate : option string;   (* [None] is null *)
  jd_jobUrl : string;
  jd_salary : string;
  jd_notes : string
}.

(** [JSON.stringify(jobData)]. *)
Definition JSON_stringify (d : JobData) : string :=
  "{" ++ json_string "company" ++ ":" ++ json_string (jd_company d)
  ++ "," ++ json_string "position" ++ ":" ++ json_string (jd_position d)
  ++ "," ++ json_string "status" ++ ":" ++ json_string (jd_status d)
  ++ "," ++ json_string "appliedDate" ++ ":"
  ++ (match jd_appliedDate d with Some v => json_string v | None => "null" end)
  ++ "," ++ json_string "jobUrl" ++ ":" ++ json_string (jd_jobUrl d)
  ++ "," ++ json_string "salary" ++ ":" ++ json_string (jd_salary d)
  ++ "," ++ json_string "notes" ++ ":" ++ json_string (jd_notes d)
  ++ "}".

(** [saveJob(jobData)]: the mode is decided by the truthiness of the
    edit target. *)
Definition saveJob (jobData : JobData) : M jsval :=
  id <- gets editingJobId ;;
  let url := if truthy id then API_BASE ++ "/jobs/" ++ to_string id
             else API_BASE ++ "/jobs" in
  let method := if truthy id then "PUT" else "POST" in
  apiRequest url {| opt_method := Some method;
                    opt_body := Some (JSON_stringify jobData) |}.

(** [deleteJobById(jobId)]. *)
Definition deleteJobById (jobId : jsval) : M unit :=
  _ <- apiRequest (API_BASE ++ "/jobs/" ++ to_string jobId)
         {| opt_method := Some "DELETE"; opt_body := None |} ;;
  ret tt.

(** ** The modal *)

(** [jobs.find(j => j.id === jobId)] on the elements of an array. *)
Fixpoint find_by_id (jobId : jsval) (items : list jsval) : completion jsval :=
  match items with
  | [] => Normal JUndefined
  | j :: rest =>
      id <~ get_prop j "id" ;;
      if strict_eq id jobId then Normal j else find_by_id jobId rest
  end.

(** The same on whatever [jobs] holds: only an array has [find]. *)
Definition jobs_find (jobs jobId : jsval) : completion jsval :=
  match jobs with
  | JArr items => find_by_id jobId items
  | JUndefined | JNull => get_prop jobs "find"
  | _ => Throw (TypeError "jobs.find is not a function")
  end.

(** [element.value = (job.field || fallback)]. *)
Definition fill (k : slot) (job : jsval) (field fallback : string) : M unit :=
  v <- lift (get_prop job field) ;;
  set_prop k (to_string (js_or v (JStr fallback))).

(** [populateForm(job)]. *)
Definition populateForm (job : jsval) : M unit :=
  fill company_value job "company" "" ;;
  fill position_value job "position" "" ;;
  fill status_value job "status" "applied" ;;
  fill appliedDate_value job "applied_date" "" ;;
  fill jobUrl_value job "job_url" "" ;;
  fill salary_value job "salary" "" ;;
  fill notes_value job "notes" "".

(** [form.reset()]: every control of the form returns to its default. *)
Definition form_reset : M unit :=
  fun s => (Normal tt,
            {| jobs := jobs s; sortColumn := sortColumn s; sortOrder := sortOrder s;
               editingJobId := editingJobId s;
               dom := fun k => if existsb (slot_beq k) form_slots
                               then form_default h k else dom s k;
               th_classes := th_classes s; log := FormReset :: log s |}).

(** [openModal(jobId)]; [now] is what [new Date().toISOString()] gives
    at the call. A call without argument is a call with null. *)
Definition openModal (now : string) (arg : jsval) : M unit :=
  let jobId := match arg with JUndefined => JNull | _ => arg end in
  set_editingJobId jobId ;;
  (if truthy jobId then
     set_prop modalTitle_text "Edit Application" ;;
     jobs <- gets jobs ;;
     job <- lift (jobs_find jobs jobId) ;;
     if truthy job then populateForm job else ret tt
   else
     set_prop modalTitle_text "Add New Application" ;;
     form_reset ;;
     set_prop appliedDate_value (before_T now)) ;;
  set_prop jobModal_display "block" ;;
  emit (SetTimeout FocusCompany 100).

(** [closeModal()]. *)
Definition closeModal : M unit :=
  set_prop jobModal_display "none" ;;
  set_editingJobId JNull.

(** ** Saving and deleting *)

(** The object literal [jobData] of [handleFormSubmit]. *)
Definition read_form : M JobData :=
  company <- prop company_value ;;
  position <- prop position_value ;;
  status <- prop status_value ;;
  appliedDate <- prop appliedDate_value ;;
  jobUrl <- prop jobUrl_value ;;
  salary <- prop salary_value ;;
  notes <- prop notes_value ;;
  ret {| jd_company := trim company;
         jd_position := trim position;
         jd_status := status;
         jd_appliedDate := if appliedDate =? "" then None else Some appliedDate;
         jd_jobUrl := trim jobUrl;
         jd_salary := trim salary;
         jd_notes := trim notes |}.

(** [handleFormSubmit(e)]. The [return] of the validation leaves the
    [try] through the [finally]. *)
Definition handleFormSubmit : M unit :=
  emit PreventDefault ;;
  set_prop saveButton_disabled "true" ;;
  set_prop btnText_display "none" ;;
  set_prop btnLoading_display "inline" ;;
  try_finally
    (try_catch
       (jobData <- read_form ;;
        if (jd_company jobData =? "") || (jd_position jobData =? "") then
          alert "Company and Position are required fields"
        else
          _ <- saveJob jobData ;;
          loadJobs ;;
          closeModal)
       (fun error =>
          console_error "Failed to save job:" error ;;
          alert "Failed to save application. Please try again."))
    (set_prop saveButton_disabled "false" ;;
     set_prop btnText_display "inline" ;;
     set_prop btnLoading_display "none").

(** [deleteJob(jobId)]; [answer] is what the user replies to
    [confirm]. *)
Definition deleteJob (answer : bool) (jobId : jsval) : M unit :=
  emit (Confirm "Are you sure you want to delete this application?") ;;
  if negb answer then ret tt
  else
    try_catch
      (deleteJobById jobId ;;
       loadJobs)
      (fun error =>
         console_error "Failed to delete job:" error ;;
         alert "Failed to delete application. Please try again.").

(** ** Sorting, filtering, export *)

Fixpoint indexOf (x : string) (l : list string) : option nat :=
  match l with
  | [] => None
  | y :: rest => if y =? x then Some 0
                 else match indexOf x rest with
                      | Some i => Some (S i)
                      | None => None
                      end
  end.

(** [classList.remove(a, b)] and [classList.add(a)]. *)
Definition classList_remove (a b : string) (classes : list string) : list string :=
  filter (fun c => negb ((c =? a) || (c =? b))) classes.

Definition classList_add (a : string) (classes : list string) : list string :=
  if existsb (String.eqb a) classes then classes else (classes ++ [a])%list.

Fixpoint update_nth {A} (i : nat) (f : A -> A) (l : list A) : list A :=
  match l, i with
  | [], _ => []
  | x :: rest, O => f x :: rest
  | x :: rest, S i' => x :: update_nth i' f rest
  end.

Definition flip (o : order) : order :=
  match o with asc => desc | desc => asc end.

Definition sortable_columns : list string :=
  ["company"; "position"; "status"; "applied_date"].

(** [sortTable(column)]. Indexing the header cells beyond the last one
    gives undefined, whose [classList] cannot be read. *)
Definition sortTable (column : string) : M unit :=
  current <- gets sortColumn ;;
  direction <- gets sortOrder ;;
  (if current =? column then set_sort current (flip direction)
   else set_sort column asc) ;;
  ths <- gets th_classes ;;
  set_th_classes (map (classList_remove "sort-asc" "sort-desc") ths) ;;
  (match indexOf column sortable_columns with
   | Some columnIndex =>
       ths <- gets th_classes ;;
       direction <- gets sortOrder ;;
       match nth_error ths columnIndex with
       | Some _ =>
           set_th_classes
             (update_nth columnIndex (classList_add ("sort-" ++ order_name direction)) ths)
       | None => throw (TypeError "Cannot read properties of undefined (reading 'classList')")
       end
   | None => ret tt
   end) ;;
  loadJobs.

(** [clearFilters()]. *)
Definition clearFilters : M unit :=
  set_prop statusFilter_value "" ;;
  loadJobs.

(** [exportToCSV()]; [now] is what [new Date().toISOString()] gives when
    the file is named. Building the object URL and the anchor, clicking
    it and removing both again is the one action [Download]. *)
Definition exportToCSV (now : string) : M unit :=
  try_catch
    (response <- fetch {| req_url := API_BASE ++ "/export/csv"; req_method := None;
                          req_headers := []; req_body := None |} ;;
     if negb (ok response) then throw (JsError "Export failed")
     else emit (Download ("job_applications_" ++ before_T now ++ ".csv") (body response)))
    (fun error =>
       console_error "Export failed:" error ;;
       alert "Failed to export data. Please try again.").

(** ** Start-up, session, keyboard *)

Definition checkAuth : M unit :=
  try_catch
    (response <- fetch {| req_url := API_BASE ++ "/jobs"; req_method := None;
                          req_headers := []; req_body := None |} ;;
     if negb (ok response) then navigate "/" else ret tt)
    (fun error =>
       console_error "Auth check failed:" error ;;
       navigate "/").

Definition logout : M unit :=
  try_catch
    (_ <- fetch {| req_url := API_BASE ++ "/logout"; req_method := Some "POST";
                   req_headers := []; req_body := None |} ;;
     navigate "/")
    (fun error =>
       console_error "Logout failed:" error ;;
       navigate "/").

(** The listeners that [setupEventListeners] installs on the window and
    on the document. *)
Definition onWindowClick (target_is_modal : bool) : M unit :=
  if target_is_modal then closeModal else ret tt.

Definition onKeydown (now key : string) (ctrlKey metaKey : bool) : M unit :=
  (if key =? "Escape" then closeModal else ret tt) ;;
  (if (ctrlKey || metaKey) && (key =? "n") then
     emit PreventDefault ;;
     openModal now JNull
   else ret tt) ;;
  (if (ctrlKey || metaKey) && (key =? "e") then
     emit PreventDefault ;;
     exportToCSV now
   else ret tt).

(** The listener of DOMContentLoaded starts three loads; here each one
    finishes before the next begins. Installing the listeners changes
    nothing in the state. *)
Definition onDOMContentLoaded : M unit :=
  checkAuth ;;
  loadJobs ;;
  loadStats.

(** ** The page as a transition system *)

(** What can happen to the page: the user edits a control, or one of the
    script's entry points runs. *)
Inductive action : Type :=
| Loaded
| Tick                                              (* setInterval(loadStats, 60000) *)
| Input (k : slot) (text : string)                  (* the user edits a form control or the filter *)
| SubmitForm
| CallOpenModal (now : string) (jobId : jsval)
| CallCloseModal
| CallDeleteJob (answer : bool) (jobId : jsval)
| CallSortTable (column : string)
| CallClearFilters
| CallLoadJobs
| CallExportToCSV (now : string)
| CallLogout
| Keydown (now key : string) (ctrlKey metaKey : bool)
| WindowClick (target_is_modal : bool).

Definition user_input (k : slot) (text : string) : M unit :=
  fun s =>
    if existsb (slot_beq k) (statusFilter_value :: form_slots) then
      (Normal tt,
       {| jobs := jobs s; sortColumn := sortColumn s; sortOrder := sortOrder s;
          editingJobId := editingJobId s; dom := write k text (dom s);
          th_classes := th_classes s; log := log s |})
    else (Normal tt, s).

Definition handler (a : action) : M unit :=
  match a with
  | Loaded => onDOMContentLoaded
  | Tick => loadStats
  | Input k text => user_input k text
  | SubmitForm => handleFormSubmit
  | CallOpenModal now jobId => openModal now jobId
  | CallCloseModal => closeModal
  | CallDeleteJob answer jobId => deleteJob answer jobId
  | CallSortTable column => sortTable column
  | CallClearFilters => clearFilters
  | CallLoadJobs => loadJobs
  | CallExportToCSV now => exportToCSV now
  | CallLogout => logout
  | Keydown now key ctrlKey metaKey => onKeydown now key ctrlKey metaKey
  | WindowClick target_is_modal => onWindowClick target_is_modal
  end.

(** A handler that throws leaves the state as it was at the throw. *)
Definition step (a : action) (s : State) : State := snd (handler a s).

Definition run (actions : list action) (s : State) : State :=
  fold_left (fun s a => step a s) actions s.

End Script.

(** * The vocabulary of the properties *)

(** ** Escaped text *)

(** What [escapeHtml] makes of one character. *)
Definition escape_char (c : ascii) : string :=
  if Ascii.eqb c "&"%char then "&amp;"
  else if Ascii.eqb c "<"%char then "&lt;"
  else if Ascii.eqb c ">"%char then "&gt;"
  else if Ascii.eqb c dquote then "&quot;"
  else if Ascii.eqb c "'"%char then "&#039;"
  else String c EmptyString.

Definition entities : list string :=
  ["&amp;"; "&lt;"; "&gt;"; "&quot;"; "&#039;"].

(** None of the characters [<], [>], double quote and single quote
    occurs in [s]. *)
Fixpoint no_raw_markup (s : string) : bool :=
  match s with
  | EmptyString => true
  | String c r =>
      negb (Ascii.eqb c "<"%char || Ascii.eqb c ">"%char
            || Ascii.eqb c dquote || Ascii.eqb c "'"%char)
      && no_raw_markup r
  end.

Definition starts_entity (s : string) : bool :=
  existsb (fun e => String.prefix e s) entities.

(** Every [&] of [s] is the first character of an entity. *)
Fixpoint amp_guarded (s : string) : bool :=
  match s with
  | EmptyString => true
  | String c r =>
      (if Ascii.eqb c "&"%char then starts_entity s else true) && amp_guarded r
  end.

(** Text that can stand in markup, in an element or in a quoted
    attribute, without opening or closing anything. *)
Definition html_safe (s : string) : Prop :=
  no_raw_markup s = true /\ amp_guarded s = true.

(** In [row], the company, the job URL and the position of [job] stand
    as the values [escapeHtml] returned for them, and these are safe. *)
Definition escaped_row (job : jsval) (row : string) : Prop :=
  exists company job_url position company_html link position_html tail,
    get_prop job "company" = Normal company
    /\ get_prop job "job_url" = Normal job_url
    /\ get_prop job "position" = Normal position
    /\ escapeHtml company = Normal company_html
    /\ escapeHtml position = Normal position_html
    /\ html_safe company_html
    /\ html_safe position_html
    /\ (if truthy job_url
        then exists url_html, escapeHtml job_url = Normal url_html
                              /\ html_safe url_html
                              /\ link = link_open ++ url_html ++ link_close
        else link = "")
    /\ row = row_open ++ company_html ++ row_after_company ++ link
             ++ row_after_link ++ position_html ++ tail.

(** ** The HTTP wrapper by cases *)

(** The request [apiRequest] hands to [fetch]. *)
Definition api_request (url : string) (options : Options) : Request :=
  {| req_url := url;
     req_method := opt_method options;
     req_headers := [("Content-Type", "application/json")];
     req_body := opt_body options |}.

(** How [apiRequest] ends, by the outcome of its [fetch]. *)
Definition api_completion (out : FetchOutcome) : completion jsval :=
  match out with
  | Failed message => Throw (TypeError message)
  | Responded r =>
      if ok r then response_json r
      else if (status r =? 401)%Z then Normal JUndefined
      else
        error <~ response_json r ;;
        message <~ get_prop error "error" ;;
        Throw (JsError (to_string (js_or message (JStr "Request failed"))))
  end.

(** What [apiRequest] does between its [fetch] and its [finally]. *)
Definition api_extra (out : FetchOutcome) : list Event :=
  match out, api_completion out with
  | _, Throw e => [ConsoleError "API Error:" e]
  | Responded r, Normal _ => if ok r then [] else [Navigate "/"]
  | Failed _, Normal _ => []
  end.

Definition api_state (s : State) (r : Request) (extra : list Event) : State :=
  {| jobs := jobs s; sortColumn := sortColumn s; sortOrder := sortOrder s;
     editingJobId := editingJobId s;
     dom := write loading_display "none" (write loading_display "flex" (dom s));
     th_classes := th_classes s;
     log := SetProp loading_display "none"
            :: (extra ++ Fetch r :: SetProp loading_display "flex" :: log s)%list |}.

(** ** What the loaders leave alone

    [loadJobs], [loadStats] and the functions they call write a few
    elements of the page of their own, fetch with GET, log to the console
    and may navigate; they do not touch the form, the modal, the sort
    state or the edit target, and they show no dialog. *)

(** The element properties they write. *)
Definition background_slot (k : slot) : bool :=
  match k with
  | loading_display | jobTableBody_html | emptyState_display
  | totalApps_text | interviewCount_text => true
  | _ => false
  end.

Definition page_write (e : Event) : bool :=
  match e with
  | SetProp k _ => background_slot k
  | _ => false
  end.

Definition background (e : Event) : bool :=
  match e with
  | Fetch r => match req_method r with None => true | Some _ => false end
  | SetProp k _ => background_slot k
  | ConsoleError _ _ => true
  | Navigate _ => true
  | _ => false
  end.

(** [l'] is [l] with events satisfying [P] put in front. *)
Inductive grows (P : Event -> bool) (l : list Event) : list Event -> Prop :=
| grows_here : grows P l l
| grows_cons e l' : P e = true -> grows P l l' -> grows P l (e :: l').

(** From [s] to [s'] only background elements were written, and only
    events satisfying [P] were logged. *)
Record within (P : Event -> bool) (s s' : State) : Prop := mkWithin {
  w_editing : editingJobId s' = editingJobId s;
  w_column : sortColumn s' = sortColumn s;
  w_order : sortOrder s' = sortOrder s;
  w_th : th_classes s' = th_classes s;
  w_dom : forall k, background_slot k = false -> dom s' k = dom s k;
  w_log : grows P (log s) (log s')
}.

(** ** The requests of the flows *)

(** The requests that change something on the server. *)
Definition is_mutation (r : Request) : bool :=
  match req_method r with
  | Some m => (m =? "POST") || (m =? "PUT") || (m =? "DELETE")
  | None => false
  end.

Definition mutations (l : list Event) : list Request := filter is_mutation (requests l).

Definition stats_request : Request := api_request (API_BASE ++ "/stats") no_options.

(** The query of the list reload, from the sort state and the filter. *)
Definition list_params (s : State) : list (string * string) :=
  ([("sort_by", sortColumn s); ("sort_order", order_name (sortOrder s))]
   ++ (if negb (dom s statusFilter_value =? "")
       then [("status", dom s statusFilter_value)] else []))%list.

Definition list_request (s : State) : Request :=
  api_request (API_BASE ++ "/jobs?" ++ URLSearchParams_toString (list_params s)) no_options.

(** What the server answers to the reload started in [s]. *)
Definition list_outcome (h : Host) (s : State) : FetchOutcome :=
  net h (List.length (requests (log s))) (list_request s).

(** ** A document and servers to compute with *)

Definition blank_page : slot -> string := fun _ => "".

(** A page with the five header cells of the table. *)
Definition five_headers : list (list string) := [[]; []; []; []; []].

Definition reply (code : Z) (b : Body) : FetchOutcome :=
  Responded {| status := code; body := b |}.

(** A host whose server answers every request with [out]. *)
Definition host_answering (out : FetchOutcome) : Host :=
  {| net := fun _ _ => out;
     form_default := blank_page;
     toLocaleDateString := fun v => to_string v;
     toUpperCase := fun c => c |}.

Definition page0 : State := initial blank_page five_headers.

(** The request of the CSV export, made with a bare [fetch]. *)
Definition export_request : Request :=
  {| req_url := API_BASE ++ "/export/csv"; req_method := None;
     req_headers := []; req_body := None |}.

(** The export fails: no response, or a response that is not ok. *)
Definition export_fails (out : FetchOutcome) : Prop :=
  match out with
  | Failed _ => True
  | Responded r => ok r = false
  end.

Definition export_error (out : FetchOutcome) : exn :=
  match out with
  | Failed message => TypeError message
  | Responded _ => JsError "Export failed"
  end.

(** What [handleFormSubmit] reads from the form in state [s]. *)
Definition form_data (s : State) : JobData :=
  {| jd_company := trim (dom s company_value);
     jd_position := trim (dom s position_value);
     jd_status := dom s status_value;
     jd_appliedDate := if dom s appliedDate_value =? "" then None
                       else Some (dom s appliedDate_value);
     jd_jobUrl := trim (dom s jobUrl_value);
     jd_salary := trim (dom s salary_value);
     jd_notes := trim (dom s notes_value) |}.

(** The events of [handleFormSubmit] before and after its [try]. *)
Definition submit_prelude : list Event :=
  [SetProp btnLoading_display "inline"; SetProp btnText_display "none";
   SetProp saveButton_disabled "true"; PreventDefault].

Definition submit_finally : list Event :=
  [SetProp btnLoading_display "none"; SetProp btnText_display "inline";
   SetProp saveButton_disabled "false"].

(** The request [saveJob] makes in state [s]: an update of the edit
    target when there is a truthy one, a creation otherwise. *)
Definition save_request (s : State) : Request :=
  api_request
    (if truthy (editingJobId s)
     then API_BASE ++ "/jobs/" ++ to_string (editingJobId s)
     else API_BASE ++ "/jobs")
    {| opt_method := Some (if truthy (editingJobId s) then "PUT" else "POST");
       opt_body := Some (JSON_stringify (form_data s)) |}.

(** What the server answers to the save started in [s]. *)
Definition save_outcome (h : Host) (s : State) : FetchOutcome :=
  net h (List.length (requests (log s))) (save_request s).

(** The state in which the body of [handleFormSubmit] runs. *)
Definition submitting (s : State) : State :=
  {| jobs := jobs s; sortColumn := sortColumn s; sortOrder := sortOrder s;
     editingJobId := editingJobId s;
     dom := write btnLoading_display "inline"
              (write btnText_display "none"
                 (write saveButton_disabled "true" (dom s)));
     th_classes := th_classes s;
     log := (submit_prelude ++ log s)%list |}.

(** The request of [deleteJobById]. *)
Definition delete_request (jobId : jsval) : Request :=
  api_request (API_BASE ++ "/jobs/" ++ to_string jobId)
    {| opt_method := Some "DELETE"; opt_body := None |}.

Definition delete_outcome (h : Host) (s : State) (jobId : jsval) : FetchOutcome :=
  net h (List.length (requests (log s))) (delete_request jobId).

Definition confirm_delete : Event :=
  Confirm "Are you sure you want to delete this application?".

(** A server that stores nothing and answers every request with an
    empty JSON array. *)
Definition host_empty : Host := host_answering (reply 200 (JsonBody (JArr []))).

(** The page after the modal was opened with the id 0 and the two
    required fields were typed in. *)
Definition editing_zero : State :=
  run host_empty
    [CallOpenModal "2024-03-09T18:25:43.511Z" (JNum 0);
     Input company_value "Acme"; Input position_value "Engineer"]
    page0.

(** The same with the id 7. *)
Definition editing_seven : State :=
  run host_empty
    [CallOpenModal "2024-03-09T18:25:43.511Z" (JNum 7);
     Input company_value "Acme"; Input position_value "Engineer"]
    page0.

(** The page has the header cell that [sortTable] marks for [column]. *)
Definition header_present (column : string) (s : State) : Prop :=
  match indexOf column sortable_columns with
  | Some i => i < List.length (th_classes s)
  | None => True
  end.

(** The state after the first half of [sortTable]: the sort state is
    updated and the sort marks are taken off every header cell. *)
Definition resorted (column : string) (s : State) : State :=
  {| jobs := jobs s;
     sortColumn := if sortColumn s =? column then sortColumn s else column;
     sortOrder := if sortColumn s =? column then flip (sortOrder s) else asc;
     editingJobId := editingJobId s;
     dom := dom s;
     th_classes := map (classList_remove "sort-asc" "sort-desc") (th_classes s);
     log := log s |}.

(** The state after its second half: the header cell of the column gets
    the mark of the new direction. There is no such state when the cell
    is missing. *)
Definition marked (column : string) (s : State) : option State :=
  match indexOf column sortable_columns with
  | Some i =>
      match nth_error (th_classes s) i with
      | Some _ =>
          Some {| jobs := jobs s; sortColumn := sortColumn s; sortOrder := sortOrder s;
                  editingJobId := editingJobId s; dom := dom s;
                  th_classes := update_nth i
                                  (classList_add ("sort-" ++ order_name (sortOrder s)))
                                  (th_classes s);
                  log := log s |}
      | None => None
      end
  | None => Some s
  end.

(** The form controls that [populateForm] fills, each with the field of
    the record it shows and the text used when the field is falsy. *)
Definition form_fields : list (slot * string * string) :=
  [(company_value, "company", ""); (position_value, "position", "");
   (status_value, "status", "applied"); (appliedDate_value, "applied_date", "");
   (jobUrl_value, "job_url", ""); (salary_value, "salary", "");
   (notes_value, "notes", "")].



Definition job_seven : jsval :=
  JObj [("id", JNum 7); ("company", JStr "Acme"); ("position", JStr "Engineer");
        ("status", JStr "interview"); ("salary", JNull)].

Definition host_listing_seven : Host :=
  host_answering (reply 200 (JsonBody (JArr [job_seven]))).

(** Every run of [m] takes the edit target from a value to one related
    to it by [R]. *)
Definition edit_step (R : jsval -> jsval -> Prop) {A} (m : M A) : Prop :=
  forall s, R (editingJobId s) (editingJobId (snd (m s))).

(** The edit target is kept, or it is set to null. *)
Definition kept_or_null (before after : jsval) : Prop :=
  after = before \/ after = JNull.

(** The state after [set_prop k v]. *)
Definition wrote (k : slot) (v : string) (s : State) : State := snd (set_prop k v s).


Definition listed_seven : State := run host_listing_seven [CallLoadJobs] page0.

(** [openModal] takes a missing argument for null. *)
Definition modal_target (arg : jsval) : jsval :=
  match arg with JUndefined => JNull | _ => arg end.

(** ** Further vocabulary: session, export, loaders *)

(** The request of [checkAuth], made with a bare [fetch]. *)
Definition auth_request : Request :=
  {| req_url := API_BASE ++ "/jobs"; req_method := None;
     req_headers := []; req_body := None |}.

(** The request of [logout]. *)
Definition logout_request : Request :=
  {| req_url := API_BASE ++ "/logout"; req_method := Some "POST";
     req_headers := []; req_body := None |}.

(** The name [exportToCSV] gives the downloaded file. *)
Definition export_filename (now : string) : string :=
  "job_applications_" ++ before_T now ++ ".csv".

(** The character [c] does not occur in [s]. *)
Fixpoint lacks (c : ascii) (s : string) : bool :=
  match s with
  | EmptyString => true
  | String x r => negb (Ascii.eqb x c) && lacks c r
  end.

(** [s] with the record list replaced by [v]. *)
Definition with_jobs (v : jsval) (s : State) : State := snd (set_jobs v s).

(** [s] with [e] logged. *)
Definition logged (e : Event) (s : State) : State := snd (emit e s).

(** The elements [loadStats] may write. *)
Definition stats_slot (k : slot) : bool :=
  match k with
  | loading_display | totalApps_text | interviewCount_text => true
  | _ => false
  end.

(** The state in which [loadJobs] finds itself when its request is
    over. *)
Definition listed (h : Host) (s : State) : State :=
  api_state s (list_request s) (api_extra (list_outcome h s)).

(** Text without any of the five characters [escapeHtml] replaces. *)
Definition plain_text (s : string) : bool :=
  no_raw_markup s && lacks "&"%char s.

(** The characters a form-urlencoded value is made of. *)
Definition url_safe (c : ascii) : bool :=
  is_alnum c || code_is c 42 || code_is c 45 || code_is c 46 || code_is c 95
  || code_is c 43 || code_is c 37.

Fixpoint all_chars (P : ascii -> bool) (s : string) : bool :=
  match s with
  | EmptyString => true
  | String c r => P c && all_chars P r
  end.

(** The class list carries neither sort mark. *)
Definition unmarked (classes : list string) : Prop :=
  ~ In "sort-asc" classes /\ ~ In "sort-desc" classes.

(** The mark of the opposite direction. *)
Definition other_mark (o : order) : string := "sort-" ++ order_name (flip o).

(** ** What the page may do at all *)

(** The texts of the script's alerts. *)
Definition alert_messages : list string :=
  ["Company and Position are required fields";
   "Failed to save application. Please try again.";
   "Failed to delete application. Please try again.";
   "Failed to export data. Please try again."].

(** The observable actions the script is written to perform: requests
    below /api/, its four alerts, its one confirmation, navigation to the
    landing route, downloads named job_applications_..., and whatever it
    does to the page and the console. *)
Definition allowed (e : Event) : bool :=
  match e with
  | Fetch r => String.prefix "/api/" (req_url r)
  | Alert message => existsb (String.eqb message) alert_messages
  | Confirm message => message =? "Are you sure you want to delete this application?"
  | Navigate href => href =? "/"
  | Download filename _ => String.prefix "job_applications_" filename
  | _ => true
  end.

(** Anything but a request that changes data on the server. *)
Definition no_mutation (e : Event) : bool :=
  match e with
  | Fetch r => negb (is_mutation r)
  | _ => true
  end.

(** Every run of [m] logs events satisfying [P] only. *)
Definition emits (P : Event -> bool) {A} (m : M A) : Prop :=
  forall s, grows P (log s) (log (snd (m s))).

(** The entry points that only read from the server. *)
Definition reads_only (a : action) : bool :=
  match a with
  | SubmitForm | CallDeleteJob _ _ | CallLogout => false
  | _ => true
  end.
(** ** Numbers, the clock, raw text *)



(** [hay.includes(needle)]. *)
Fixpoint includes (needle hay : string) : bool :=
  String.prefix needle hay
  || match hay with
     | EmptyString => false
     | String _ rest => includes needle rest
     end.

(** A record whose company and status both carry markup. *)
Definition job_marked : jsval :=
  JObj [("id", JNum 1); ("company", JStr "<b>Acme</b>"); ("position", JStr "Engineer");
        ("status", JStr "<img src=x onerror=alert(1)>")].

(** A server that answers every request with 204 and no body, as a
    DELETE is answered. *)
Definition host_no_content : Host := host_answering (reply 204 (RawBody "")).

(** * Properties *)

(** ** The model on concrete inputs *)

Example escapeHtml_markup :
  escapeHtml (JStr "<a href='x'>R&D</a>")
  = Normal "&lt;a href=&#039;x&#039;&gt;R&amp;D&lt;/a&gt;".
Proof. reflexivity. Qed.

Example escapeHtml_number_throws :
  escapeHtml (JNum 5) = Throw (TypeError "unsafe.replace is not a function").
Proof. reflexivity. Qed.

Example trim_spaces : trim "   Acme Corp  " = "Acme Corp".
Proof. reflexivity. Qed.

Example trim_only_spaces : trim "    " = "".
Proof. reflexivity. Qed.

Example before_T_iso : before_T "2024-03-09T18:25:43.511Z" = "2024-03-09".
Proof. reflexivity. Qed.

Example first_list_request :
  req_url (list_request page0) = "/api/jobs?sort_by=created_at&sort_order=desc".
Proof. reflexivity. Qed.

Example filtered_list_request :
  req_url (list_request (snd (user_input statusFilter_value "phone screen" page0)))
  = "/api/jobs?sort_by=created_at&sort_order=desc&status=phone+screen".
Proof. reflexivity. Qed.

Example stringify_new_job :
  JSON_stringify (form_data editing_seven)
  = "{" ++ DQ ++ "company" ++ DQ ++ ":" ++ DQ ++ "Acme" ++ DQ
    ++ "," ++ DQ ++ "position" ++ DQ ++ ":" ++ DQ ++ "Engineer" ++ DQ
    ++ "," ++ DQ ++ "status" ++ DQ ++ ":" ++ DQ ++ DQ
    ++ "," ++ DQ ++ "appliedDate" ++ DQ ++ ":null"
    ++ "," ++ DQ ++ "jobUrl" ++ DQ ++ ":" ++ DQ ++ DQ
    ++ "," ++ DQ ++ "salary" ++ DQ ++ ":" ++ DQ ++ DQ
    ++ "," ++ DQ ++ "notes" ++ DQ ++ ":" ++ DQ ++ DQ ++ "}".
Proof. reflexivity. Qed.

(** The statistics of the specification's scenario: a total of 2 with
    one interview shows as [2] and [1]; missing counts show as [0]. *)
Example stats_scenario :
  dom (snd (updateStatsDisplay
              (JObj [("total", JNum 2); ("byStatus", JObj [("interview", JNum 1)])])
              page0)) totalApps_text = "2"
  /\ dom (snd (updateStatsDisplay
                 (JObj [("total", JNum 2); ("byStatus", JObj [("interview", JNum 1)])])
                 page0)) interviewCount_text = "1"
  /\ dom (snd (updateStatsDisplay (JObj []) page0)) interviewCount_text = "0".
Proof. repeat split. Qed.

(** The requests of the page's start, oldest first. *)
Example requests_at_start :
  map req_url (rev (requests (log (run host_empty [Loaded] page0))))
  = ["/api/jobs"; "/api/jobs?sort_by=created_at&sort_order=desc"; "/api/stats"; "/api/stats"].
Proof. reflexivity. Qed.

(** ** escapeHtml *)

Lemma escape_text_cons (c : ascii) (r : string) :
  escape_text (String c r) = escape_char c ++ escape_text r.
Proof.
  unfold escape_text, escape_char.
  destruct (Ascii.eqb_spec c "&"%char) as [->|Hamp]; [reflexivity|].
  destruct (Ascii.eqb_spec c "<"%char) as [->|Hlt]; [reflexivity|].
  destruct (Ascii.eqb_spec c ">"%char) as [->|Hgt]; [reflexivity|].
  destruct (Ascii.eqb_spec c dquote) as [->|Hdq]; [reflexivity|].
  destruct (Ascii.eqb_spec c "'"%char) as [->|Hsq]; [reflexivity|].
  apply Ascii.eqb_neq in Hamp, Hlt, Hgt, Hdq, Hsq.
  simpl. rewrite Hamp. simpl. rewrite Hlt. simpl. rewrite Hgt. simpl.
  rewrite Hdq. simpl. rewrite Hsq. reflexivity.
Qed.

Lemma no_raw_markup_app (a b : string) :
  no_raw_markup (a ++ b) = no_raw_markup a && no_raw_markup b.
Proof.
  induction a as [|c a IH]; simpl; [reflexivity|].
  rewrite IH. now rewrite andb_assoc.
Qed.

Lemma escape_char_no_raw (c : ascii) : no_raw_markup (escape_char c) = true.
Proof.
  unfold escape_char.
  destruct (Ascii.eqb c "&"%char) eqn:Hamp; [reflexivity|].
  destruct (Ascii.eqb c "<"%char) eqn:Hlt; [reflexivity|].
  destruct (Ascii.eqb c ">"%char) eqn:Hgt; [reflexivity|].
  destruct (Ascii.eqb c dquote) eqn:Hdq; [reflexivity|].
  destruct (Ascii.eqb c "'"%char) eqn:Hsq; [reflexivity|].
  simpl. now rewrite Hlt, Hgt, Hdq, Hsq.
Qed.

Lemma escape_text_no_raw (s : string) : no_raw_markup (escape_text s) = true.
Proof.
  induction s as [|c r IH]; [reflexivity|].
  rewrite escape_text_cons, no_raw_markup_app, escape_char_no_raw, IH.
  reflexivity.
Qed.

Lemma escape_char_guarded (c : ascii) (t : string) :
  amp_guarded t = true -> amp_guarded (escape_char c ++ t) = true.
Proof.
  intros Ht. unfold escape_char.
  assert (Hp : String.prefix "" t = true) by (destruct t; reflexivity).
  destruct (Ascii.eqb c "&"%char) eqn:Hamp;
    [cbn; rewrite Hp; exact Ht|].
  destruct (Ascii.eqb c "<"%char) eqn:Hlt;
    [cbn; rewrite ?Hp; exact Ht|].
  destruct (Ascii.eqb c ">"%char) eqn:Hgt;
    [cbn; rewrite ?Hp; exact Ht|].
  destruct (Ascii.eqb c dquote) eqn:Hdq;
    [cbn; rewrite ?Hp; exact Ht|].
  destruct (Ascii.eqb c "'"%char) eqn:Hsq;
    [cbn; rewrite ?Hp; exact Ht|].
  cbn [append amp_guarded]. rewrite Hamp. exact Ht.
Qed.

Lemma escape_text_guarded (s : string) : amp_guarded (escape_text s) = true.
Proof.
  induction s as [|c r IH]; [reflexivity|].
  rewrite escape_text_cons. now apply escape_char_guarded.
Qed.

Lemma escape_text_safe (s : string) : html_safe (escape_text s).
Proof. split; [apply escape_text_no_raw | apply escape_text_guarded]. Qed.

Lemma escapeHtml_string (s : string) : escapeHtml (JStr s) = Normal (escape_text s).
Proof. destruct s; reflexivity. Qed.

(** Whatever [escapeHtml] returns is safe to place in markup. *)
Lemma escapeHtml_safe (v : jsval) (r : string) :
  escapeHtml v = Normal r -> html_safe r.
Proof.
  unfold escapeHtml. destruct (truthy v) eqn:Hv; simpl.
  - destruct v; try discriminate. intros [= <-]. apply escape_text_safe.
  - intros [= <-]. split; reflexivity.
Qed.

(** The two conditions of [html_safe], read on the characters. *)
Lemma no_raw_markup_spec (s pre post : string) (c : ascii) :
  no_raw_markup s = true -> s = pre ++ String c post ->
  c <> "<"%char /\ c <> ">"%char /\ c <> dquote /\ c <> "'"%char.
Proof.
  intros Hs ->. rewrite no_raw_markup_app in Hs.
  apply andb_true_iff in Hs as [_ Hs]. simpl in Hs.
  apply andb_true_iff in Hs as [Hs _]. apply negb_true_iff in Hs.
  repeat (apply orb_false_iff in Hs as [Hs ?]).
  repeat split; apply Ascii.eqb_neq; assumption.
Qed.

Lemma prefix_split (e s : string) :
  String.prefix e s = true -> exists rest, s = e ++ rest.
Proof.
  revert s. induction e as [|c e IH]; intros s H.
  - now exists s.
  - destruct s as [|d s]; [discriminate|]. simpl in H.
    destruct (ascii_dec c d) as [->|]; [|discriminate].
    destruct (IH s H) as [rest ->]. now exists rest.
Qed.

Lemma amp_guarded_spec (s pre post : string) :
  amp_guarded s = true -> s = pre ++ String "&"%char post ->
  exists e rest, In e entities /\ String "&"%char post = e ++ rest.
Proof.
  revert s. induction pre as [|c pre IH]; intros s Hs ->.
  - simpl in Hs. apply andb_true_iff in Hs as [Hs _].
    unfold starts_entity in Hs. apply existsb_exists in Hs as [e [He Hp]].
    destruct (prefix_split _ _ Hp) as [rest Hrest].
    now exists e, rest.
  - simpl in Hs. apply andb_true_iff in Hs as [_ Hs]. now apply (IH _ Hs).
Qed.

(** ** renderTable *)

Ltac bindc_step :=
  match goal with
  | H : bindc ?c _ = Normal _ |- _ =>
      let E := fresh "E" in destruct c eqn:E; simpl in H; [|discriminate H]
  end.

Lemma renderRow_escaped (h : Host) (job : jsval) (row : string) :
  renderRow h job = Normal row -> escaped_row job row.
Proof.
  unfold renderRow. intros H.
  destruct (get_prop job "company") as [company|] eqn:Ec; simpl in H; [|discriminate].
  destruct (escapeHtml company) as [company_html|] eqn:Ech; simpl in H; [|discriminate].
  destruct (get_prop job "job_url") as [job_url|] eqn:Eu; simpl in H; [|discriminate].
  match type of H with bindc ?c _ = _ => destruct c as [link|] eqn:El end;
    simpl in H; [|discriminate].
  destruct (get_prop job "position") as [position|] eqn:Ep; simpl in H; [|discriminate].
  destruct (escapeHtml position) as [position_html|] eqn:Eph; simpl in H; [|discriminate].
  do 4 bindc_step. injection H as <-.
  exists company, job_url, position, company_html, link, position_html.
  eexists. repeat (split; [eassumption || reflexivity|]).
  split; [exact (escapeHtml_safe _ _ Ech)|].
  split; [exact (escapeHtml_safe _ _ Eph)|].
  split; [|reflexivity].
  destruct (truthy job_url).
  - destruct (escapeHtml job_url) as [u|] eqn:Eh; simpl in El; [|discriminate].
    injection El as <-. exists u.
    split; [reflexivity|]. split; [exact (escapeHtml_safe _ _ Eh)|reflexivity].
  - now injection El as <-.
Qed.

Lemma renderRows_escaped (h : Host) (items : list jsval) (rows : list string) :
  renderRows h items = Normal rows -> Forall2 escaped_row items rows.
Proof.
  revert rows. induction items as [|job items IH]; simpl; intros rows H.
  - injection H as <-. constructor.
  - do 2 bindc_step. injection H as <-.
    constructor; [now apply (renderRow_escaped h)|now apply IH].
Qed.

Lemma renderTable_rows (h : Host) (s s' : State) (items : list jsval) :
  jobs s = JArr items -> items <> [] ->
  renderTable h s = (Normal tt, s') ->
  exists rows, renderRows h items = Normal rows
               /\ dom s' jobTableBody_html = join "" rows.
Proof.
  intros Hj Hne. unfold renderTable, bind, gets, lift. rewrite Hj. simpl.
  destruct items as [|j items]; [contradiction|].
  cbn -[renderRows join].
  destruct (renderRows h (j :: items)) as [rows|e] eqn:Er; [|discriminate].
  intros [= <-]. exists rows. split; reflexivity.
Qed.

(** ** The HTTP wrapper *)

Lemma apiRequest_eq (h : Host) (url : string) (options : Options) (s : State) :
  apiRequest h url options s
  = (api_completion (net h (List.length (requests (log s))) (api_request url options)),
     api_state s (api_request url options)
       (api_extra (net h (List.length (requests (log s))) (api_request url options)))).
Proof.
  unfold apiRequest, try_finally, try_catch, bind, fetch, api_request,
    api_extra, api_completion, api_state.
  simpl.
  destruct (net h _ _) as [resp|message]; simpl; [|reflexivity].
  destruct (ok resp); simpl.
  - unfold response_json, lift. destruct (body resp); reflexivity.
  - destruct (status resp =? 401)%Z; simpl; [reflexivity|].
    unfold response_json, lift. destruct (body resp) as [v|t]; simpl; [|reflexivity].
    destruct (get_prop v "error"); reflexivity.
Qed.

(** ** What the loaders leave alone *)

Lemma grows_trans P l1 l2 l3 : grows P l1 l2 -> grows P l2 l3 -> grows P l1 l3.
Proof. intros H12 H23. induction H23; [assumption|]. now constructor. Qed.

Lemma grows_weaken (P Q : Event -> bool) l l' :
  (forall e, P e = true -> Q e = true) -> grows P l l' -> grows Q l l'.
Proof. intros HPQ H. induction H; constructor; auto. Qed.

Lemma grows_app P (evs l : list Event) :
  forallb P evs = true -> grows P l (evs ++ l)%list.
Proof.
  induction evs as [|e evs IH]; simpl; intros H; [constructor|].
  apply andb_true_iff in H as [He H]. constructor; auto.
Qed.

Lemma within_refl P s : within P s s.
Proof. constructor; auto. constructor. Qed.

Lemma within_trans P s1 s2 s3 : within P s1 s2 -> within P s2 s3 -> within P s1 s3.
Proof.
  intros [e1 c1 o1 t1 d1 l1] [e2 c2 o2 t2 d2 l2].
  constructor; try congruence.
  - intros k Hk. rewrite d2, d1; auto.
  - eapply grows_trans; eassumption.
Qed.

Lemma within_weaken (P Q : Event -> bool) s s' :
  (forall e, P e = true -> Q e = true) -> within P s s' -> within Q s s'.
Proof.
  intros HPQ [e c o t d l]. constructor; auto. eapply grows_weaken; eassumption.
Qed.

Lemma page_write_background e : page_write e = true -> background e = true.
Proof. destruct e; simpl; auto; discriminate. Qed.

Lemma grows_background_alerts l l' : grows background l l' -> alerts l' = alerts l.
Proof.
  induction 1 as [|e l' He _ IH]; [reflexivity|].
  destruct e; simpl in *; try discriminate; assumption.
Qed.

Lemma grows_page_write_requests l l' : grows page_write l l' -> requests l' = requests l.
Proof.
  induction 1 as [|e l' He _ IH]; [reflexivity|].
  destruct e; simpl in *; try discriminate; assumption.
Qed.

Lemma grows_background_mutations l l' : grows background l l' -> mutations l' = mutations l.
Proof.
  unfold mutations. induction 1 as [|e l' He _ IH]; [reflexivity|].
  destruct e; simpl in *; try discriminate; try assumption.
  unfold is_mutation at 1. destruct (req_method r); [discriminate|assumption].
Qed.

Ltac slot_cases :=
  let k := fresh "k" in let Hk := fresh "Hk" in
  intros k Hk; destruct k; try discriminate Hk; reflexivity.

(** A state built from [s] by the script's primitives stays within [P]
    when the events put in front of the log satisfy [P]. *)
Ltac within_now :=
  constructor; simpl;
  first [ reflexivity
        | slot_cases
        | repeat (first [ apply grows_here | apply grows_cons; [reflexivity|] ]) ].

Lemma api_extra_background out : forallb background (api_extra out) = true.
Proof.
  unfold api_extra. destruct out as [r|m].
  - destruct (api_completion (Responded r)); [destruct (ok r)|]; reflexivity.
  - reflexivity.
Qed.

Lemma api_state_within s r out :
  req_method r = None -> within background s (api_state s r (api_extra out)).
Proof.
  intros Hr. constructor; simpl; try reflexivity; [slot_cases|].
  constructor; [reflexivity|].
  change (Fetch r :: SetProp loading_display "flex" :: log s)
    with ([Fetch r; SetProp loading_display "flex"] ++ log s)%list.
  rewrite app_assoc. apply grows_app. rewrite forallb_app, api_extra_background.
  simpl. now rewrite Hr.
Qed.

Lemma requests_app (a b : list Event) : requests (a ++ b) = (requests a ++ requests b)%list.
Proof.
  induction a as [|e a IH]; [reflexivity|].
  destruct e; simpl; rewrite ?IH; reflexivity.
Qed.

Lemma api_extra_requests out : requests (api_extra out) = [].
Proof.
  unfold api_extra. destruct out as [r|m].
  - destruct (api_completion (Responded r)); [destruct (ok r)|]; reflexivity.
  - reflexivity.
Qed.

Lemma api_state_requests s r out :
  requests (log (api_state s r (api_extra out))) = r :: requests (log s).
Proof. simpl. now rewrite requests_app, api_extra_requests. Qed.

Section Loaders.

Variable h : Host.

Lemma renderTable_within (s : State) :
  within page_write s (snd (renderTable h s)) /\ jobs (snd (renderTable h s)) = jobs s.
Proof.
  unfold renderTable, bind, gets, lift. simpl.
  destruct (js_length (jobs s)) as [len|e]; simpl; [|split; [apply within_refl|reflexivity]].
  destruct (strict_eq len (JNum 0)); simpl; [split; [within_now|reflexivity]|].
  destruct (jobs s) eqn:Hj; simpl; try (split; [within_now|reflexivity]).
  destruct (renderRows h items); simpl; split; try reflexivity; within_now.
Qed.

Lemma updateStatsDisplay_within (stats : jsval) (s : State) :
  within page_write s (snd (updateStatsDisplay stats s))
  /\ jobs (snd (updateStatsDisplay stats s)) = jobs s.
Proof.
  unfold updateStatsDisplay, bind, lift. simpl.
  destruct (get_prop stats "total"); simpl; [|split; [apply within_refl|reflexivity]].
  destruct (get_prop stats "byStatus") as [b|]; simpl; [|split; [within_now|reflexivity]].
  match goal with |- context [match ?c with Normal _ => _ | Throw _ => _ end] =>
    destruct c end; simpl; split; try reflexivity; within_now.
Qed.

Lemma loadStats_spec (s : State) :
  exists s', loadStats h s = (Normal tt, s')
             /\ within background s s'
             /\ jobs s' = jobs s
             /\ requests (log s') = stats_request :: requests (log s).
Proof.
  unfold loadStats, try_catch, bind. rewrite apiRequest_eq.
  fold stats_request.
  set (out := net h _ _).
  pose proof (api_state_within s stats_request out eq_refl) as Hw.
  pose proof (api_state_requests s stats_request out) as Hr.
  set (s1 := api_state s stats_request (api_extra out)) in *.
  destruct (api_completion out) as [stats|e].
  - destruct (updateStatsDisplay_within stats s1) as [Hu Hj].
    destruct (updateStatsDisplay stats s1) as [[[]|e] s2]; simpl in *.
    + exists s2. split; [reflexivity|]. split; [|split].
      * eapply within_trans; [exact Hw|].
        eapply within_weaken; [apply page_write_background|exact Hu].
      * now rewrite Hj.
      * rewrite (grows_page_write_requests _ _ (w_log _ _ _ Hu)). exact Hr.
    + eexists. split; [reflexivity|]. split; [|split].
      * eapply within_trans; [exact Hw|].
        eapply within_trans;
          [eapply within_weaken; [apply page_write_background|exact Hu]|].
        within_now.
      * simpl. now rewrite Hj.
      * simpl. rewrite (grows_page_write_requests _ _ (w_log _ _ _ Hu)). exact Hr.
  - eexists. split; [reflexivity|]. split; [|split].
    + eapply within_trans; [exact Hw|]. within_now.
    + reflexivity.
    + simpl. exact Hr.
Qed.

Lemma loadJobs_spec (s : State) :
  exists s', loadJobs h s = (Normal tt, s')
             /\ within background s s'
             /\ (requests (log s') = list_request s :: requests (log s)
                 \/ requests (log s') = stats_request :: list_request s :: requests (log s))
             /\ match api_completion (list_outcome h s) with
                | Normal fetched => jobs s' = fetched
                | Throw _ => jobs s' = jobs s
                             /\ requests (log s') = list_request s :: requests (log s)
                end.
Proof.
  unfold loadJobs, try_catch, bind, gets, prop. simpl. rewrite apiRequest_eq.
  unfold list_outcome.
  change (api_request _ no_options) with (list_request s).
  set (out := net h _ _).
  pose proof (api_state_within s (list_request s) out eq_refl) as Hw.
  pose proof (api_state_requests s (list_request s) out) as Hr.
  set (s1 := api_state s (list_request s) (api_extra out)) in *.
  destruct (api_completion out) as [fetched|e].
  - set (s2 := {| jobs := fetched; sortColumn := sortColumn s1; sortOrder := sortOrder s1;
                  editingJobId := editingJobId s1; dom := dom s1;
                  th_classes := th_classes s1; log := log s1 |}).
    assert (Hw2 : within background s s2).
    { eapply within_trans; [exact Hw|]. constructor; simpl; auto. constructor. }
    destruct (renderTable_within s2) as [Ht Hj].
    destruct (renderTable h s2) as [[[]|e] s3]; simpl in *.
    + destruct (loadStats_spec s3) as [s4 [E4 [H4 [J4 R4]]]]. rewrite E4.
      exists s4. split; [reflexivity|]. split; [|split].
      * eapply within_trans; [exact Hw2|].
        eapply within_trans; [eapply within_weaken; [apply page_write_background|exact Ht]|].
        exact H4.
      * right. rewrite R4, (grows_page_write_requests _ _ (w_log _ _ _ Ht)). simpl.
        now rewrite requests_app, api_extra_requests.
      * now rewrite J4, Hj.
    + eexists. split; [reflexivity|]. split; [|split].
      * eapply within_trans; [exact Hw2|].
        eapply within_trans; [eapply within_weaken; [apply page_write_background|exact Ht]|].
        within_now.
      * left. simpl. rewrite (grows_page_write_requests _ _ (w_log _ _ _ Ht)). simpl.
        now rewrite requests_app, api_extra_requests.
      * simpl. exact Hj.
  - eexists. split; [reflexivity|]. split; [|split].
    + eapply within_trans; [exact Hw|]. within_now.
    + left. simpl. now rewrite requests_app, api_extra_requests.
    + split; [reflexivity|]. simpl. now rewrite requests_app, api_extra_requests.
Qed.

End Loaders.

(** ** C7, C8: the HTTP wrapper on a response that is not ok *)

(** C7. A request made through [apiRequest] that is answered with status
    401 sets [window.location.href] to the landing route and shows no
    message: between the two writes of the loading indicator the only
    actions are the request and the navigation, no dialog and no console
    output. The call ends normally with undefined: it yields no value
    and throws nothing to its caller. *)
Theorem apiRequest_401_redirects (h : Host) (url : string) (options : Options)
    (s : State) (r : Response)
    (Hnet : net h (List.length (requests (log s))) (api_request url options) = Responded r)
    (H401 : status r = 401%Z) :
  exists s',
    apiRequest h url options s = (Normal JUndefined, s')
    /\ log s' = SetProp loading_display "none" :: Navigate "/"
                :: Fetch (api_request url options)
                :: SetProp loading_display "flex" :: log s
    /\ alerts (log s') = alerts (log s).
Proof.
  rewrite apiRequest_eq, Hnet.
  unfold api_extra, api_completion, ok. rewrite H401. simpl.
  eexists. split; [reflexivity|]. split; reflexivity.
Qed.

Lemma apiRequest_401_redirects_witness :
  exists s',
    apiRequest (host_answering (reply 401 (RawBody "Unauthorized")))
      "/api/stats" no_options page0 = (Normal JUndefined, s')
    /\ log s' = SetProp loading_display "none" :: Navigate "/"
                :: Fetch (api_request "/api/stats" no_options)
                :: SetProp loading_display "flex" :: log page0
    /\ alerts (log s') = alerts (log page0).
Proof.
  apply (apiRequest_401_redirects
           (host_answering (reply 401 (RawBody "Unauthorized")))
           "/api/stats" no_options page0
           {| status := 401; body := RawBody "Unauthorized" |});
    reflexivity.
Defined.

(** C8, as the specification states it, fails on a body that is not
    JSON: a 500 response carrying an HTML page makes [apiRequest] throw
    the parser's SyntaxError, not an Error with the fallback message. *)
Lemma apiRequest_unparsable_body_counterexample :
  fst (apiRequest (host_answering (reply 500 (RawBody "<html>Internal Server Error</html>")))
         "/api/stats" no_options page0)
  = Throw (SyntaxError "Unexpected token in JSON")
  /\ fst (apiRequest (host_answering (reply 500 (RawBody "<html>Internal Server Error</html>")))
            "/api/stats" no_options page0)
     <> Throw (JsError "Request failed").
Proof. split; [reflexivity|discriminate]. Qed.

(** C8, amended. A request made through [apiRequest] that is answered
    with a status outside 200..299 other than 401 always fails. The
    failure is an Error whose message is the [error] field of the body
    when the body is JSON and that field is truthy (for a non-empty
    string: that string); it is an Error with the message
    [Request failed] when the body is JSON and the field is absent or
    falsy; and it is the parser's SyntaxError, not the fallback, when the
    body is not JSON. *)
Theorem apiRequest_error_envelope (h : Host) (url : string) (options : Options)
    (s : State) (r : Response)
    (Hnet : net h (List.length (requests (log s))) (api_request url options) = Responded r)
    (Hok : ok r = false)
    (H401 : status r <> 401%Z) :
  (exists e, fst (apiRequest h url options s) = Throw e)
  /\ (forall v field,
        body r = JsonBody v -> get_prop v "error" = Normal field -> truthy field = true ->
        fst (apiRequest h url options s) = Throw (JsError (to_string field)))
  /\ (forall v message,
        body r = JsonBody v -> get_prop v "error" = Normal (JStr message) -> message <> "" ->
        fst (apiRequest h url options s) = Throw (JsError message))
  /\ (forall v field,
        body r = JsonBody v -> get_prop v "error" = Normal field -> truthy field = false ->
        fst (apiRequest h url options s) = Throw (JsError "Request failed"))
  /\ (forall text,
        body r = RawBody text ->
        fst (apiRequest h url options s) = Throw (SyntaxError "Unexpected token in JSON")).
Proof.
  rewrite apiRequest_eq, Hnet. cbn [fst]. unfold api_completion. rewrite Hok.
  apply Z.eqb_neq in H401. rewrite H401. unfold response_json.
  split; [|split; [|split; [|split]]].
  - destruct (body r) as [v|t]; simpl; [|eauto].
    destruct (get_prop v "error"); simpl; eauto.
  - intros v field -> Hf Ht. simpl. rewrite Hf. simpl. unfold js_or. now rewrite Ht.
  - intros v message -> Hf Hm. simpl. rewrite Hf. simpl. unfold js_or. simpl.
    apply String.eqb_neq in Hm. now rewrite Hm.
  - intros v field -> Hf Ht. simpl. rewrite Hf. simpl. unfold js_or. now rewrite Ht.
  - intros text ->. reflexivity.
Qed.

Lemma apiRequest_error_envelope_witness :
  fst (apiRequest
         (host_answering (reply 404 (JsonBody (JObj [("error", JStr "Job not found")]))))
         "/api/jobs/7" {| opt_method := Some "DELETE"; opt_body := None |} page0)
  = Throw (JsError "Job not found").
Proof.
  refine (proj1 (proj2 (proj2
    (apiRequest_error_envelope
       (host_answering (reply 404 (JsonBody (JObj [("error", JStr "Job not found")]))))
       "/api/jobs/7" {| opt_method := Some "DELETE"; opt_body := None |} page0
       {| status := 404; body := JsonBody (JObj [("error", JStr "Job not found")]) |}
       eq_refl eq_refl _)))
    (JObj [("error", JStr "Job not found")]) "Job not found" eq_refl eq_refl _).
  - discriminate.
  - discriminate.
Defined.

(** ** C10: the CSV export *)

(** C10. [exportToCSV] calls [fetch] itself: its request carries none of
    the wrapper's headers. When the export fails, by a response that is
    not ok (401 included) or by no response at all, the function logs the
    error, shows the retry alert and does nothing else: no navigation, no
    download and no write to the loading indicator or to any other
    element, and the record list stays as it was. *)
Theorem exportToCSV_failure_alerts (h : Host) (now : string) (s : State)
    (Hfail : export_fails (net h (List.length (requests (log s))) export_request)) :
  exists s',
    exportToCSV h now s = (Normal tt, s')
    /\ log s' = Alert "Failed to export data. Please try again."
                :: ConsoleError "Export failed:"
                     (export_error (net h (List.length (requests (log s))) export_request))
                :: Fetch export_request :: log s
    /\ (forall k, dom s' k = dom s k)
    /\ jobs s' = jobs s
    /\ (forall url options, export_request <> api_request url options).
Proof.
  unfold exportToCSV, try_catch, bind, fetch. fold export_request.
  destruct (net h _ export_request) as [r|message]; simpl in *.
  - rewrite Hfail. simpl. eexists. split; [reflexivity|].
    repeat split; try reflexivity. discriminate.
  - eexists. split; [reflexivity|]. repeat split; try reflexivity. discriminate.
Qed.

Lemma exportToCSV_failure_alerts_witness :
  exists s',
    exportToCSV (host_answering (reply 401 (RawBody "Unauthorized")))
      "2024-03-09T18:25:43.511Z" page0 = (Normal tt, s')
    /\ log s' = [Alert "Failed to export data. Please try again.";
                 ConsoleError "Export failed:" (JsError "Export failed");
                 Fetch export_request]
    /\ dom s' loading_display = dom page0 loading_display.
Proof.
  destruct (exportToCSV_failure_alerts
              (host_answering (reply 401 (RawBody "Unauthorized")))
              "2024-03-09T18:25:43.511Z" page0 eq_refl)
    as [s' [E [L [D _]]]].
  exists s'. split; [exact E|]. split; [exact L|apply D].
Defined.

(** ** C3: the validation gate *)

(** C3. When the trimmed company or the trimmed position is empty,
    [handleFormSubmit] makes no request: between switching the save
    button to busy and back it only shows the validation alert. The
    modal's display and the edit target are what they were, and so is
    every field of the form. *)
Theorem handleFormSubmit_rejects_empty (h : Host) (s : State)
    (Hempty : trim (dom s company_value) = "" \/ trim (dom s position_value) = "") :
  exists s',
    handleFormSubmit h s = (Normal tt, s')
    /\ log s' = (submit_finally
                 ++ Alert "Company and Position are required fields" :: submit_prelude
                 ++ log s)%list
    /\ requests (log s') = requests (log s)
    /\ dom s' jobModal_display = dom s jobModal_display
    /\ editingJobId s' = editingJobId s
    /\ (forall k, In k form_slots -> dom s' k = dom s k).
Proof.
  unfold handleFormSubmit, try_finally, try_catch, bind, read_form, prop, gets.
  simpl.
  assert (Hv : (trim (dom s company_value) =? "") || (trim (dom s position_value) =? "") = true).
  { destruct Hempty as [-> | ->]; [reflexivity|apply orb_true_r]. }
  unfold write at 1 2 3 4 5 6. simpl. rewrite Hv. simpl.
  eexists. split; [reflexivity|]. repeat split.
  intros k Hk. simpl in Hk.
  repeat (destruct Hk as [<- | Hk]; [reflexivity|]). contradiction.
Qed.

Lemma handleFormSubmit_rejects_empty_witness :
  exists s',
    handleFormSubmit (host_answering (reply 201 (JsonBody (JObj []))))
      (snd (user_input position_value "Engineer" page0)) = (Normal tt, s')
    /\ requests (log s') = [].
Proof.
  destruct (handleFormSubmit_rejects_empty
              (host_answering (reply 201 (JsonBody (JObj []))))
              (snd (user_input position_value "Engineer" page0))
              (or_introl eq_refl))
    as [s' [E [_ [R _]]]].
  exists s'. split; [exact E|exact R].
Defined.

(** ** C2: saving *)

Lemma alerts_app (a b : list Event) : alerts (a ++ b) = (alerts a ++ alerts b)%list.
Proof.
  induction a as [|e a IH]; [reflexivity|].
  destruct e; simpl; rewrite ?IH; reflexivity.
Qed.

Lemma api_extra_alerts out : alerts (api_extra out) = [].
Proof.
  unfold api_extra. destruct out as [r|m].
  - destruct (api_completion (Responded r)); [destruct (ok r)|]; reflexivity.
  - reflexivity.
Qed.

Lemma api_state_alerts s r out :
  alerts (log (api_state s r (api_extra out))) = alerts (log s).
Proof. simpl. now rewrite alerts_app, api_extra_alerts. Qed.

Lemma mutations_api_state s r out :
  mutations (log (api_state s r (api_extra out)))
  = if is_mutation r then r :: mutations (log s) else mutations (log s).
Proof.
  unfold mutations. rewrite api_state_requests. reflexivity.
Qed.

Lemma save_request_is_mutation (s : State) : is_mutation (save_request s) = true.
Proof. unfold is_mutation, save_request. simpl. destruct (truthy (editingJobId s)); reflexivity. Qed.

Section Saving.

Variable h : Host.

Lemma saveJob_eq (s : State) :
  saveJob h (form_data s) s
  = (api_completion (save_outcome h s),
     api_state s (save_request s) (api_extra (save_outcome h s))).
Proof.
  unfold saveJob, bind, gets. simpl. rewrite apiRequest_eq. reflexivity.
Qed.

Lemma handleFormSubmit_valid_eq (s : State) :
  trim (dom s company_value) <> "" -> trim (dom s position_value) <> "" ->
  handleFormSubmit h s
  = try_finally
      (try_catch
         (_ <- saveJob h (form_data s) ;; loadJobs h ;; closeModal)
         (fun error =>
            console_error "Failed to save job:" error ;;
            alert "Failed to save application. Please try again."))
      (set_prop saveButton_disabled "false" ;;
       set_prop btnText_display "inline" ;;
       set_prop btnLoading_display "none")
      (submitting s).
Proof.
  intros Hc Hp. apply String.eqb_neq in Hc, Hp.
  unfold handleFormSubmit, try_finally at 1, try_catch at 1, bind at 1 2 3 4 5,
    read_form, prop, gets.
  simpl. unfold write at 1 2 3 4 5 6. simpl. rewrite Hc, Hp. simpl.
  reflexivity.
Qed.

(** C2, amended. With a non-empty trimmed company and position,
    [handleFormSubmit] makes exactly one request that changes data: a PUT
    to /api/jobs/{editingJobId} when the edit target is truthy, a POST to
    /api/jobs when it is falsy (null, and also 0 or the empty string).
    When that call does not fail, the list reload follows it, the modal is
    closed and the edit target is null. When it fails, nothing else is
    requested, the retry alert is shown, and the modal, the edit target
    and the form stay as they were. *)
Theorem handleFormSubmit_saves_once (s : State)
    (Hcompany : trim (dom s company_value) <> "")
    (Hposition : trim (dom s position_value) <> "") :
  exists s',
    handleFormSubmit h s = (Normal tt, s')
    /\ mutations (log s') = save_request s :: mutations (log s)
    /\ (truthy (editingJobId s) = true ->
        req_method (save_request s) = Some "PUT"
        /\ req_url (save_request s) = "/api/jobs/" ++ to_string (editingJobId s))
    /\ (truthy (editingJobId s) = false ->
        req_method (save_request s) = Some "POST"
        /\ req_url (save_request s) = "/api/jobs")
    /\ match api_completion (save_outcome h s) with
       | Normal _ =>
           (requests (log s') = list_request s :: save_request s :: requests (log s)
            \/ requests (log s')
               = stats_request :: list_request s :: save_request s :: requests (log s))
           /\ dom s' jobModal_display = "none"
           /\ editingJobId s' = JNull
           /\ alerts (log s') = alerts (log s)
       | Throw _ =>
           requests (log s') = save_request s :: requests (log s)
           /\ alerts (log s') = "Failed to save application. Please try again."
                                :: alerts (log s)
           /\ dom s' jobModal_display = dom s jobModal_display
           /\ editingJobId s' = editingJobId s
           /\ (forall k, In k form_slots -> dom s' k = dom s k)
       end.
Proof.
  rewrite (handleFormSubmit_valid_eq s Hcompany Hposition).
  unfold try_finally, try_catch, bind at 1 2.
  change (saveJob h (form_data s)) with (saveJob h (form_data (submitting s))).
  rewrite saveJob_eq.
  change (save_outcome h (submitting s)) with (save_outcome h s).
  change (save_request (submitting s)) with (save_request s).
  set (out := save_outcome h s).
  pose proof (mutations_api_state (submitting s) (save_request s) out) as Hm.
  pose proof (api_state_requests (submitting s) (save_request s) out) as Hr.
  rewrite save_request_is_mutation in Hm.
  set (s1 := api_state (submitting s) (save_request s) (api_extra out)) in *.
  assert (Hurl : (truthy (editingJobId s) = true ->
                  req_method (save_request s) = Some "PUT"
                  /\ req_url (save_request s) = "/api/jobs/" ++ to_string (editingJobId s))
                 /\ (truthy (editingJobId s) = false ->
                     req_method (save_request s) = Some "POST"
                     /\ req_url (save_request s) = "/api/jobs")).
  { unfold save_request. simpl. split; intros ->; split; reflexivity. }
  destruct Hurl as [Hput Hpost].
  destruct (api_completion out) as [saved|e].
  - destruct (loadJobs_spec h s1) as [s2 [E2 [W2 [R2 _]]]].
    unfold bind. rewrite E2. simpl.
    eexists. split; [reflexivity|]. simpl.
    split; [|split; [exact Hput|split; [exact Hpost|]]].
    + unfold mutations in *. simpl.
      change (filter is_mutation (requests (log s2))) with (mutations (log s2)).
      rewrite (grows_background_mutations _ _ (w_log _ _ _ W2)). exact Hm.
    + split; [|split; [reflexivity|split; [reflexivity|]]].
      * change (list_request s1) with (list_request s) in R2.
        rewrite Hr in R2. exact R2.
      * rewrite (grows_background_alerts _ _ (w_log _ _ _ W2)).
        unfold s1. now rewrite api_state_alerts.
  - simpl. eexists. split; [reflexivity|]. simpl.
    split; [|split; [exact Hput|split; [exact Hpost|]]].
    + exact Hm.
    + split; [exact Hr|]. split; [|split; [reflexivity|split; [reflexivity|]]].
      * unfold s1. simpl. now rewrite alerts_app, api_extra_alerts.
      * intros k Hk. simpl in Hk.
        repeat (destruct Hk as [<- | Hk]; [reflexivity|]). contradiction.
Qed.

End Saving.

(** C2, as the specification states it, fails for an edit target that
    is not null but falsy: after [openModal(0)] the edit target is 0, and
    submitting a valid form sends a POST to /api/jobs, not a PUT to
    /api/jobs/0. *)
Lemma handleFormSubmit_zero_id_counterexample :
  editingJobId editing_zero = JNum 0
  /\ editingJobId editing_zero <> JNull
  /\ map (fun r => (req_method r, req_url r))
       (mutations (log (snd (handleFormSubmit host_empty editing_zero))))
     = [(Some "POST", "/api/jobs")].
Proof. split; [reflexivity|]. split; [discriminate|reflexivity]. Qed.

Lemma handleFormSubmit_saves_once_witness :
  exists s',
    handleFormSubmit host_empty editing_seven = (Normal tt, s')
    /\ map (fun r => (req_method r, req_url r)) (mutations (log s'))
       = [(Some "PUT", "/api/jobs/7")]
    /\ dom s' jobModal_display = "none"
    /\ editingJobId s' = JNull.
Proof.
  assert (Hc : trim (dom editing_seven company_value) <> "") by (vm_compute; discriminate).
  assert (Hp : trim (dom editing_seven position_value) <> "") by (vm_compute; discriminate).
  destruct (handleFormSubmit_saves_once host_empty editing_seven Hc Hp)
    as [s' [E [M [_ [_ C]]]]].
  exists s'. split; [exact E|]. split; [rewrite M; reflexivity|].
  split; [exact (proj1 (proj2 C))|exact (proj1 (proj2 (proj2 C)))].
Defined.

(** ** Deleting *)

Lemma grows_split P l l' : grows P l l' -> exists evs, l' = (evs ++ l)%list.
Proof.
  induction 1 as [|e l' _ _ [evs ->]]; [now exists []|]. now exists (e :: evs).
Qed.

Section Deleting.

Variable h : Host.

(** X30. [deleteJob] first asks for confirmation. Declined, it does
    nothing more: no request, the record list unchanged. Accepted, it
    makes exactly one request that changes data, the DELETE for the id.
    When the wrapper's call for it ends normally, exactly one list
    reload follows it, with the request for the statistics after it if
    there is one, and no alert is shown. When the call throws, no further
    request is made, the retry alert is shown and the record list is
    unchanged. *)
Theorem deleteJob_confirms_first (s : State) (jobId : jsval) :
  (exists s',
     deleteJob h false jobId s = (Normal tt, s')
     /\ log s' = confirm_delete :: log s
     /\ requests (log s') = requests (log s)
     /\ jobs s' = jobs s)
  /\ (exists s' evs,
        deleteJob h true jobId s = (Normal tt, s')
        /\ log s' = (evs ++ confirm_delete :: log s)%list
        /\ mutations (log s') = delete_request jobId :: mutations (log s)
        /\ match api_completion (delete_outcome h s jobId) with
           | Normal _ =>
               (requests (log s') = list_request s :: delete_request jobId :: requests (log s)
                \/ requests (log s')
                   = stats_request :: list_request s :: delete_request jobId
                     :: requests (log s))
               /\ alerts (log s') = alerts (log s)
           | Throw _ =>
               requests (log s') = delete_request jobId :: requests (log s)
               /\ alerts (log s') = "Failed to delete application. Please try again."
                                    :: alerts (log s)
               /\ jobs s' = jobs s
           end).
Proof.
  split.
  - eexists. repeat split; reflexivity.
  - set (s0 := {| jobs := jobs s; sortColumn := sortColumn s; sortOrder := sortOrder s;
                  editingJobId := editingJobId s; dom := dom s;
                  th_classes := th_classes s; log := confirm_delete :: log s |}).
    set (out := delete_outcome h s jobId).
    set (s1 := api_state s0 (delete_request jobId) (api_extra out)).
    assert (Hd : deleteJobById h jobId s0
                 = (match api_completion out with
                    | Normal _ => Normal tt
                    | Throw e => Throw e
                    end, s1)).
    { unfold deleteJobById, bind. rewrite apiRequest_eq.
      change (api_request _ _) with (delete_request jobId).
      change (net h _ (delete_request jobId)) with out. fold s1.
      destruct (api_completion out); reflexivity. }
    assert (Hrun : deleteJob h true jobId s
                   = try_catch (deleteJobById h jobId ;; loadJobs h)
                       (fun error =>
                          console_error "Failed to delete job:" error ;;
                          alert "Failed to delete application. Please try again.") s0)
      by reflexivity.
    rewrite Hrun. unfold try_catch, bind at 1. rewrite Hd. clear Hrun Hd.
    pose proof (mutations_api_state s0 (delete_request jobId) out) as Hm.
    pose proof (api_state_requests s0 (delete_request jobId) out) as Hr.
    change (is_mutation (delete_request jobId)) with true in Hm.
    fold s1 in Hm, Hr.
    assert (G1 : exists evs, log s1 = (evs ++ confirm_delete :: log s)%list).
    { eexists (_ :: _ ++ [_; _])%list. unfold s1. simpl. rewrite <- app_assoc. reflexivity. }
    destruct G1 as [evs1 L1].
    destruct (api_completion out) as [v|e].
    + destruct (loadJobs_spec h s1) as [s2 [E2 [W2 [R2 _]]]]. rewrite E2.
      destruct (grows_split _ _ _ (w_log _ _ _ W2)) as [evs2 L2].
      exists s2, (evs2 ++ evs1)%list. split; [reflexivity|]. split; [|split].
      * rewrite L2, L1. now rewrite app_assoc.
      * rewrite (grows_background_mutations _ _ (w_log _ _ _ W2)). exact Hm.
      * split.
        -- change (list_request s1) with (list_request s) in R2.
           rewrite Hr in R2. exact R2.
        -- rewrite (grows_background_alerts _ _ (w_log _ _ _ W2)).
           unfold s1. now rewrite api_state_alerts.
    + eexists. exists (Alert "Failed to delete application. Please try again."
                       :: ConsoleError "Failed to delete job:" e :: evs1).
      split; [reflexivity|]. cbn [log jobs]. split; [now rewrite L1|].
      split; [exact Hm|]. split; [exact Hr|]. split; [|reflexivity].
      cbn [alerts]. f_equal. unfold s1. now rewrite api_state_alerts.
Qed.

End Deleting.

(** ** C4: a delete that succeeds without a body *)

(** C4. When the server answers the DELETE with a status in 200..299
    and a body that is not JSON, an empty one among them, the delete has
    succeeded and yet [deleteJob] treats it as failed: the wrapper throws
    on the body that [deleteJobById] never uses, so that after the one
    DELETE no list reload is made, the retry alert is shown, and the
    record list and the table still show what they showed. *)
Theorem deleteJob_bodiless_success (h : Host) (s : State) (jobId : jsval)
    (r : Response) (text : string)
    (Hnet : delete_outcome h s jobId = Responded r)
    (Hok : ok r = true)
    (Hbody : body r = RawBody text) :
  exists s',
    deleteJob h true jobId s = (Normal tt, s')
    /\ requests (log s') = delete_request jobId :: requests (log s)
    /\ alerts (log s') = "Failed to delete application. Please try again."
                         :: alerts (log s)
    /\ jobs s' = jobs s
    /\ dom s' jobTableBody_html = dom s jobTableBody_html
    /\ exists older,
         log s' = Alert "Failed to delete application. Please try again."
                  :: ConsoleError "Failed to delete job:"
                       (SyntaxError "Unexpected token in JSON")
                  :: older.
Proof.
  unfold deleteJob, bind at 1. cbn [emit negb].
  unfold try_catch, bind at 1, deleteJobById, bind at 1. rewrite apiRequest_eq.
  change (api_request _ _) with (delete_request jobId).
  change (net h _ (delete_request jobId)) with (delete_outcome h s jobId).
  rewrite Hnet. unfold api_extra, api_completion. rewrite Hok.
  unfold response_json. rewrite Hbody.
  eexists. split; [reflexivity|]. cbn [log jobs dom api_state].
  split; [reflexivity|]. split; [reflexivity|]. split; [reflexivity|].
  split; [reflexivity|]. eexists. reflexivity.
Qed.

Lemma deleteJob_bodiless_success_witness :
  exists s',
    deleteJob host_no_content true (JNum 7) listed_seven = (Normal tt, s')
    /\ requests (log s') = delete_request (JNum 7) :: requests (log listed_seven)
    /\ alerts (log s') = ["Failed to delete application. Please try again."]
    /\ jobs s' = JArr [job_seven].
Proof.
  destruct (deleteJob_bodiless_success host_no_content listed_seven (JNum 7)
              {| status := 204; body := RawBody "" |} "" eq_refl eq_refl eq_refl)
    as [s' [E [R [A [J _]]]]].
  exists s'. split; [exact E|]. split; [exact R|]. split; [exact A|exact J].
Defined.

(** ** C5: sorting *)

Section Sorting.

Variable h : Host.

Lemma sortTable_eq (column : string) (s : State) :
  sortTable h column s
  = match marked column (resorted column s) with
    | Some s' => loadJobs h s'
    | None => (Throw (TypeError "Cannot read properties of undefined (reading 'classList')"),
               resorted column s)
    end.
Proof.
  unfold sortTable, marked, resorted, bind, gets, set_sort, set_th_classes, ret, throw.
  destruct (indexOf column sortable_columns) as [i|];
    destruct (sortColumn s =? column);
    cbn [jobs sortColumn sortOrder editingJobId dom th_classes log];
    try reflexivity;
    match goal with |- context [nth_error ?l i] => destruct (nth_error l i) end;
    reflexivity.
Qed.

Lemma marked_present (column : string) (s : State) :
  header_present column s -> exists s', marked column (resorted column s) = Some s'.
Proof.
  unfold header_present, marked. destruct (indexOf column sortable_columns) as [i|]; [|eauto].
  intros Hi. simpl.
  destruct (nth_error (map _ (th_classes s)) i) eqn:E; [eauto|].
  apply nth_error_None in E. rewrite length_map in E. lia.
Qed.

Lemma marked_sort_state (column : string) (s s' : State) :
  marked column s = Some s' ->
  sortColumn s' = sortColumn s /\ sortOrder s' = sortOrder s
  /\ jobs s' = jobs s /\ log s' = log s /\ dom s' = dom s.
Proof.
  unfold marked. destruct (indexOf column sortable_columns) as [i|].
  - destruct (nth_error (th_classes s) i); [|discriminate].
    intros [= <-]. repeat split.
  - intros [= <-]. repeat split.
Qed.

Lemma sortTable_sort_state (column : string) (s : State) :
  sortColumn (snd (sortTable h column s)) = sortColumn (resorted column s)
  /\ sortOrder (snd (sortTable h column s)) = sortOrder (resorted column s).
Proof.
  rewrite sortTable_eq.
  destruct (marked column (resorted column s)) as [s2|] eqn:Em; [|split; reflexivity].
  destruct (marked_sort_state _ _ _ Em) as [Hc [Ho _]].
  destruct (loadJobs_spec h s2) as [s3 [E3 [W3 _]]]. rewrite E3. simpl.
  rewrite (w_column _ _ _ W3), (w_order _ _ _ W3). now split.
Qed.

Lemma resorted_column (column : string) (s : State) :
  sortColumn (resorted column s) = column.
Proof.
  simpl. destruct (String.eqb_spec (sortColumn s) column); congruence.
Qed.

(** C5. [sortTable(k)] makes [k] the active column. When [k] was the
    active column already it flips the order, ascending to descending and
    descending to ascending, so that a second call restores the order;
    when [k] was not the active column the order becomes ascending. On a
    page that has the header cell of the column, the call then reloads the
    list with the new sort state in the query: the record list becomes
    what the server sent, or stays as it was when the request fails; it
    is never reordered by the script. *)
Theorem sortTable_toggles_and_reloads (column : string) (s : State) :
  sortColumn (snd (sortTable h column s)) = column
  /\ (sortColumn s = column ->
      (sortOrder s = asc -> sortOrder (snd (sortTable h column s)) = desc)
      /\ (sortOrder s = desc -> sortOrder (snd (sortTable h column s)) = asc)
      /\ sortOrder (snd (sortTable h column (snd (sortTable h column s)))) = sortOrder s)
  /\ (sortColumn s <> column -> sortOrder (snd (sortTable h column s)) = asc)
  /\ (header_present column s ->
      exists s',
        sortTable h column s = (Normal tt, s')
        /\ (requests (log s') = list_request s' :: requests (log s)
            \/ requests (log s') = stats_request :: list_request s' :: requests (log s))
        /\ match api_completion
                   (net h (List.length (requests (log s))) (list_request s')) with
           | Normal fetched => jobs s' = fetched
           | Throw _ => jobs s' = jobs s
           end).
Proof.
  destruct (sortTable_sort_state column s) as [Hc Ho].
  split; [rewrite Hc; apply resorted_column|].
  split; [|split].
  - intros Heq. rewrite Ho. simpl. apply String.eqb_eq in Heq as Hb. rewrite Hb.
    split; [intros ->; reflexivity|]. split; [intros ->; reflexivity|].
    destruct (sortTable_sort_state column (snd (sortTable h column s))) as [Hc2 Ho2].
    rewrite Ho2. simpl. rewrite Hc, Ho. simpl. rewrite Hb, Hb. simpl.
    destruct (sortOrder s); reflexivity.
  - intros Hne. rewrite Ho. simpl. apply String.eqb_neq in Hne. now rewrite Hne.
  - intros Hpresent. rewrite sortTable_eq.
    destruct (marked_present column s Hpresent) as [s2 Em]. rewrite Em.
    destruct (marked_sort_state _ _ _ Em) as [Hc2 [Ho2 [Hj2 [Hl2 Hd2]]]].
    destruct (loadJobs_spec h s2) as [s3 [E3 [W3 [R3 J3]]]].
    exists s3. split; [exact E3|].
    assert (Hreq : list_request s3 = list_request s2).
    { unfold list_request, list_params.
      rewrite (w_column _ _ _ W3), (w_order _ _ _ W3), (w_dom _ _ _ W3 statusFilter_value eq_refl).
      reflexivity. }
    rewrite Hreq. rewrite Hl2 in R3. split; [exact R3|].
    unfold list_outcome in J3. rewrite Hl2 in J3.
    destruct (api_completion _); [exact J3|]. destruct J3 as [J3 _]. now rewrite J3, Hj2.
Qed.

End Sorting.

Lemma sortTable_toggles_and_reloads_witness :
  exists s',
    sortTable host_empty "company" page0 = (Normal tt, s')
    /\ sortColumn s' = "company" /\ sortOrder s' = asc.
Proof.
  assert (Hp : header_present "company" page0) by (vm_compute; lia).
  assert (Hn : sortColumn page0 <> "company") by (vm_compute; discriminate).
  destruct (sortTable_toggles_and_reloads host_empty "company" page0)
    as [Hc [_ [Ho H]]].
  destruct (H Hp) as [s' [E _]].
  exists s'. split; [exact E|].
  rewrite E in Hc, Ho. split; [exact Hc|exact (Ho Hn)].
Defined.

(** ** C6: opening the modal *)

Section Modal.

Variable h : Host.

Lemma fill_eq (k : slot) (props : list (string * jsval)) (field fallback : string)
    (s : State) :
  fill k (JObj props) field fallback s
  = (Normal tt, wrote k (to_string (js_or (assoc field props) (JStr fallback))) s).
Proof. reflexivity. Qed.

Lemma populateForm_eq (props : list (string * jsval)) (s : State) :
  exists s',
    populateForm (JObj props) s = (Normal tt, s')
    /\ editingJobId s' = editingJobId s
    /\ (forall k, In k form_slots \/ dom s' k = dom s k)
    /\ (forall k field fallback, In (k, field, fallback) form_fields ->
          dom s' k = to_string (js_or (assoc field props) (JStr fallback))).
Proof.
  unfold populateForm, bind. rewrite !fill_eq.
  eexists. split; [reflexivity|]. split; [reflexivity|]. split.
  - intros k. destruct k; (right; reflexivity) || (left; simpl; tauto).
  - intros k field fallback Hin. unfold form_fields in Hin.
    repeat (destruct Hin as [Hin | Hin];
            [injection Hin as <- <- <-; reflexivity|]).
    destruct Hin.
Qed.






(** A record that [jobs.find] returns for a truthy id is an object of
    the list, and its id is the one asked for. *)
Lemma find_by_id_record (id : jsval) (items : list jsval) (job : jsval) :
  truthy id = true -> find_by_id id items = Normal job -> job <> JUndefined ->
  In job items
  /\ exists props, job = JObj props /\ strict_eq (assoc "id" props) id = true.
Proof.
  intros Hid. induction items as [|j items IH]; simpl; intros Hf Hj.
  - injection Hf as <-. contradiction.
  - destruct (get_prop j "id") as [v|] eqn:Ev; simpl in Hf; [|discriminate].
    destruct (strict_eq v id) eqn:Eq.
    + injection Hf as <-. split; [now left|].
      destruct j; simpl in Ev; try discriminate;
        try (injection Ev as <-; destruct id; discriminate).
      injection Ev as <-. now exists props.
    + destruct (IH Hf Hj) as [Hin Hp]. split; [now right|exact Hp].
Qed.

(** ** C1: the edit target *)

Section EditStep.

Variable R : jsval -> jsval -> Prop.
Hypothesis R_refl : forall a, R a a.
Hypothesis R_trans : forall a b c, R a b -> R b c -> R a c.

Lemma es_ret {A} (a : A) : edit_step R (ret a).
Proof. intros s. apply R_refl. Qed.

Lemma es_throw {A} (e : exn) : edit_step R (@throw A e).
Proof. intros s. apply R_refl. Qed.

Lemma es_lift {A} (c : completion A) : edit_step R (lift c).
Proof. intros s. apply R_refl. Qed.

Lemma es_gets {A} (f : State -> A) : edit_step R (gets f).
Proof. intros s. apply R_refl. Qed.

Lemma es_emit (e : Event) : edit_step R (emit e).
Proof. intros s. apply R_refl. Qed.

Lemma es_set_prop (k : slot) (v : string) : edit_step R (set_prop k v).
Proof. intros s. apply R_refl. Qed.

Lemma es_form_reset : edit_step R (form_reset h).
Proof. intros s. apply R_refl. Qed.

Lemma es_user_input (k : slot) (text : string) : edit_step R (user_input k text).
Proof. intros s. unfold user_input. destruct (existsb _ _); apply R_refl. Qed.

Lemma es_fetch (r : Request) : edit_step R (fetch h r).
Proof. intros s. unfold fetch. destruct (net h _ r); apply R_refl. Qed.

Lemma es_apiRequest (url : string) (options : Options) :
  edit_step R (apiRequest h url options).
Proof. intros s. rewrite apiRequest_eq. apply R_refl. Qed.

Lemma es_loadJobs : edit_step R (loadJobs h).
Proof.
  intros s. destruct (loadJobs_spec h s) as [s' [E [W _]]]. rewrite E. simpl.
  rewrite (w_editing _ _ _ W). apply R_refl.
Qed.

Lemma es_loadStats : edit_step R (loadStats h).
Proof.
  intros s. destruct (loadStats_spec h s) as [s' [E [W _]]]. rewrite E. simpl.
  rewrite (w_editing _ _ _ W). apply R_refl.
Qed.

Lemma es_bind {A B} (m : M A) (k : A -> M B) :
  edit_step R m -> (forall a, edit_step R (k a)) -> edit_step R (bind m k).
Proof.
  intros Hm Hk s. unfold bind. specialize (Hm s).
  destruct (m s) as [[a|e] s1]; simpl in *; [|exact Hm].
  eapply R_trans; [exact Hm|apply Hk].
Qed.

Lemma es_try_catch {A} (body : M A) (handler : exn -> M A) :
  edit_step R body -> (forall e, edit_step R (handler e)) ->
  edit_step R (try_catch body handler).
Proof.
  intros Hm Hk s. unfold try_catch. specialize (Hm s).
  destruct (body s) as [[a|e] s1]; simpl in *; [exact Hm|].
  eapply R_trans; [exact Hm|apply Hk].
Qed.

Lemma es_try_finally {A} (body : M A) (cleanup : M unit) :
  edit_step R body -> edit_step R cleanup -> edit_step R (try_finally body cleanup).
Proof.
  intros Hm Hk s. unfold try_finally. specialize (Hm s).
  destruct (body s) as [r s1]; simpl in *.
  specialize (Hk s1). destruct (cleanup s1) as [[[]|e] s2]; simpl in *;
    (eapply R_trans; [exact Hm|exact Hk]).
Qed.

Lemma es_if {A} (b : bool) (m1 m2 : M A) :
  edit_step R m1 -> edit_step R m2 -> edit_step R (if b then m1 else m2).
Proof. now destruct b. Qed.

End EditStep.

(** Decompose a computation along its syntax; [refl] and [trans] are the
    proofs that the relation is a preorder. *)
Ltac es refl trans :=
  repeat lazymatch goal with
    | |- edit_step _ (bind _ _) => apply (es_bind _ trans); [|intros ?]
    | |- edit_step _ (try_catch _ _) => apply (es_try_catch _ trans); [|intros ?]
    | |- edit_step _ (try_finally _ _) => apply (es_try_finally _ trans)
    | |- edit_step _ (if _ then _ else _) => apply es_if
    | |- edit_step _ (ret _) => apply (es_ret _ refl)
    | |- edit_step _ (throw _) => apply (es_throw _ refl)
    | |- edit_step _ (lift _) => apply (es_lift _ refl)
    | |- edit_step _ (gets _) => apply (es_gets _ refl)
    | |- edit_step _ (prop _) => apply (es_gets _ refl)
    | |- edit_step _ (emit _) => apply (es_emit _ refl)
    | |- edit_step _ (alert _) => apply (es_emit _ refl)
    | |- edit_step _ (navigate _) => apply (es_emit _ refl)
    | |- edit_step _ (console_error _ _) => apply (es_emit _ refl)
    | |- edit_step _ (set_prop _ _) => apply (es_set_prop _ refl)
    | |- edit_step _ (form_reset _) => apply (es_form_reset _ refl)
    | |- edit_step _ (user_input _ _) => apply (es_user_input _ refl)
    | |- edit_step _ (fetch _ _) => apply (es_fetch _ refl)
    | |- edit_step _ (apiRequest _ _ _) => apply (es_apiRequest _ refl)
    | |- edit_step _ (loadJobs _) => apply (es_loadJobs _ refl)
    | |- edit_step _ (loadStats _) => apply (es_loadStats _ refl)
    end.

Lemma kept_or_null_refl (a : jsval) : kept_or_null a a.
Proof. now left. Qed.

Lemma kept_or_null_trans (a b c : jsval) :
  kept_or_null a b -> kept_or_null b c -> kept_or_null a c.
Proof. unfold kept_or_null. intros [H1|H1] [H2|H2]; subst; auto. Qed.

Lemma eq_trans_jsval (a b c : jsval) : a = b -> b = c -> a = c.
Proof. congruence. Qed.

Ltac kc := es kept_or_null_refl kept_or_null_trans.
Ltac kp := es (@eq_refl jsval) eq_trans_jsval.

Lemma kc_closeModal : edit_step kept_or_null closeModal.
Proof.
  unfold closeModal. apply (es_bind _ kept_or_null_trans); [kc|].
  intros _ s. now right.
Qed.

Lemma kc_handleFormSubmit : edit_step kept_or_null (handleFormSubmit h).
Proof.
  unfold handleFormSubmit, read_form, saveJob. kc. apply kc_closeModal.
Qed.

Lemma kc_deleteJob (answer : bool) (jobId : jsval) :
  edit_step kept_or_null (deleteJob h answer jobId).
Proof. unfold deleteJob, deleteJobById. kc. Qed.

Lemma kc_sortTable (column : string) : edit_step kept_or_null (sortTable h column).
Proof.
  intros s. rewrite sortTable_eq.
  destruct (marked column (resorted column s)) as [s2|] eqn:Em; [|now left].
  assert (He : editingJobId s2 = editingJobId s).
  { unfold marked in Em. destruct (indexOf column sortable_columns) as [i|].
    - destruct (nth_error (th_classes (resorted column s)) i); [|discriminate].
      now injection Em as <-.
    - now injection Em as <-. }
  rewrite <- He. apply (es_loadJobs _ kept_or_null_refl).
Qed.

Lemma kc_exportToCSV (now : string) : edit_step kept_or_null (exportToCSV h now).
Proof. unfold exportToCSV. kc. Qed.

Lemma populateForm_keeps (job : jsval) : edit_step eq (populateForm job).
Proof. unfold populateForm, fill. kp. Qed.

(** [openModal] makes its argument the edit target, whatever the record
    list holds. *)
Lemma openModal_target (now : string) (arg : jsval) (s : State) :
  editingJobId (snd (openModal h now arg s)) = modal_target arg.
Proof.
  unfold openModal. fold (modal_target arg).
  set (rest := (_ ;; set_prop jobModal_display "block" ;; emit (SetTimeout FocusCompany 100))).
  assert (Hrest : edit_step eq rest).
  { unfold rest. kp. apply populateForm_keeps. }
  unfold bind at 1. cbn [set_editingJobId]. symmetry.
  exact (Hrest {| jobs := jobs s; sortColumn := sortColumn s; sortOrder := sortOrder s;
                  editingJobId := modal_target arg; dom := dom s;
                  th_classes := th_classes s; log := log s |}).
Qed.

Lemma kc_openModal_null (now : string) : edit_step kept_or_null (openModal h now JNull).
Proof. intros s. right. apply openModal_target. Qed.

Lemma kc_handler (a : action) :
  (forall now jobId, a <> CallOpenModal now jobId) -> edit_step kept_or_null (handler h a).
Proof.
  intros Ha. destruct a; cbn [handler].
  - unfold onDOMContentLoaded, checkAuth. kc.
  - kc.
  - kc.
  - apply kc_handleFormSubmit.
  - exfalso. now apply (Ha now jobId).
  - apply kc_closeModal.
  - apply kc_deleteJob.
  - apply kc_sortTable.
  - unfold clearFilters. kc.
  - kc.
  - apply kc_exportToCSV.
  - unfold logout. kc.
  - unfold onKeydown. kc; first [apply kc_closeModal | apply kc_openModal_null | apply kc_exportToCSV].
  - unfold onWindowClick. kc. apply kc_closeModal.
Qed.

End Modal.



Lemma run_snoc (h : Host) (actions : list action) (a : action) (s : State) :
  run h (actions ++ [a]) s = step h a (run h actions s).
Proof. unfold run. now rewrite fold_left_app. Qed.

(** With a truthy id, [openModal] enters edit mode whenever the lookup
    in the record list completes, with or without a record. *)
Lemma openModal_edit_mode (h : Host) (now : string) (id job : jsval) (s : State) :
  truthy id = true -> jobs_find (jobs s) id = Normal job ->
  exists s',
    openModal h now id s = (Normal tt, s')
    /\ editingJobId s' = id
    /\ dom s' modalTitle_text = "Edit Application"
    /\ dom s' jobModal_display = "block".
Proof.
  intros Hid Hfind.
  assert (Hjob : job = JUndefined \/ exists props, job = JObj props).
  { destruct (jobs s) as [| | | | |items|] eqn:Ej; simpl in Hfind; try discriminate Hfind.
    destruct job; try (left; reflexivity); right;
      (destruct (find_by_id_record id items _ Hid Hfind ltac:(discriminate))
         as [_ [ps [Hp _]]]; now exists ps). }
  assert (Hn : match id with JUndefined => JNull | _ => id end = id)
    by (destruct id; try reflexivity; discriminate).
  unfold openModal. rewrite Hn. unfold bind at 1 2. cbn [set_editingJobId].
  rewrite Hid. unfold bind at 1 2 3, gets, lift. cbn [set_prop jobs].
  rewrite Hfind. destruct Hjob as [->|[props ->]]; cbn [truthy].
  - eexists. repeat split.
  - match goal with |- context [populateForm (JObj props) ?st] =>
      destruct (populateForm_eq props st) as [s1 [E1 [He [Hd _]]]]; rewrite E1 end.
    eexists. split; [reflexivity|]. cbn [editingJobId dom].
    split; [exact He|]. split; [|reflexivity].
    change (dom s1 modalTitle_text = "Edit Application").
    destruct (Hd modalTitle_text) as [Hin | ->]; [|reflexivity].
    simpl in Hin. repeat (destruct Hin as [Hin | Hin]; [discriminate|]). destruct Hin.
Qed.

(** C1, as the specification states it, fails for an id that no record
    has: on the start page, whose record list is empty, [openModal(7)]
    finds nothing and yet makes 7 the edit target and shows the modal
    under the edit title. *)
Lemma openModal_unknown_id_counterexample :
  jobs_find (jobs page0) (JNum 7) = Normal JUndefined
  /\ editingJobId (snd (openModal host_empty "2024-03-09T18:25:43.511Z" (JNum 7) page0))
     = JNum 7
  /\ dom (snd (openModal host_empty "2024-03-09T18:25:43.511Z" (JNum 7) page0))
       modalTitle_text = "Edit Application"
  /\ dom (snd (openModal host_empty "2024-03-09T18:25:43.511Z" (JNum 7) page0))
       jobModal_display = "block".
Proof. repeat split. Qed.

(** C1, amended. In every state the page can reach, the edit target is
    null or the argument of the most recent call of [openModal].
    [openModal] makes its argument the edit target (null for a missing
    argument) whether or not a record of the list has that id, and also
    when the lookup throws. With a truthy id it enters edit mode, the
    title saying edit and the modal shown, whenever the lookup in the
    record list completes, whether or not it finds a record.
    [closeModal] sets the edit target to null in every state. *)
Theorem editingJobId_null_or_opened (h : Host) (d : slot -> string)
    (ths : list (list string)) (actions : list action) :
  (editingJobId (run h actions (initial d ths)) = JNull
   \/ exists earlier now arg later,
        actions = (earlier ++ CallOpenModal now arg :: later)%list
        /\ (forall now' arg', ~ In (CallOpenModal now' arg') later)
        /\ editingJobId (run h actions (initial d ths)) = arg)
  /\ (forall s now arg, editingJobId (snd (openModal h now arg s)) = modal_target arg)
  /\ (forall s now id job,
        truthy id = true -> jobs_find (jobs s) id = Normal job ->
        exists s',
          openModal h now id s = (Normal tt, s')
          /\ editingJobId s' = id
          /\ dom s' modalTitle_text = "Edit Application"
          /\ dom s' jobModal_display = "block")
  /\ (forall s, editingJobId (snd (closeModal s)) = JNull).
Proof.
  split; [|split; [intros; apply openModal_target
                  |split; [intros s now id job; apply openModal_edit_mode|reflexivity]]].
  induction actions as [|a actions IH] using rev_ind; [now left|].
  rewrite run_snoc. set (s := run h actions (initial d ths)) in *.
  assert (Hother : (forall now jobId, a <> CallOpenModal now jobId) ->
                   editingJobId (step h a s) = JNull
                   \/ exists earlier now arg later,
                        (actions ++ [a])%list = (earlier ++ CallOpenModal now arg :: later)%list
                        /\ (forall now' arg', ~ In (CallOpenModal now' arg') later)
                        /\ editingJobId (step h a s) = arg).
  { intros Ha. destruct (kc_handler h a Ha s) as [Hk|Hk]; [|now left].
    change (editingJobId (step h a s) = editingJobId s) in Hk. rewrite Hk.
    destruct IH as [IH|[earlier [now [arg [later [Hl [Hnone IH]]]]]]]; [now left|].
    right. exists earlier, now, arg, (later ++ [a])%list. split; [|split; [|exact IH]].
    - rewrite Hl, <- app_assoc. reflexivity.
    - intros now' arg' Hin. apply in_app_or in Hin as [Hin|[Hin|[]]].
      + exact (Hnone _ _ Hin).
      + exact (Ha _ _ Hin). }
  destruct a; try (apply Hother; discriminate).
  unfold step. cbn [handler]. rewrite openModal_target.
  destruct jobId;
    try (right; exists actions, now; eexists; exists [];
         split; [reflexivity|split; [intros ? ? []|reflexivity]]).
  now left.
Qed.

(** ** C9: escaping *)

Lemma string_app_assoc (a b c : string) : (a ++ b) ++ c = a ++ (b ++ c).
Proof. induction a as [|x a IH]; simpl; [reflexivity|now rewrite IH]. Qed.

(** What [escapeHtml] does where it is called. For a string it returns
    a string in which none of [<], [>], the double quote and the single
    quote occurs and in which every [&] begins one of the five entities
    it inserts; for null, undefined and the empty string it returns the
    empty string. In a row that [renderTable] builds, the company, the
    job URL and the position appear as the values [escapeHtml] returned
    for them, and the table body is the rows put together. *)
Lemma escapeHtml_where_called :
  (forall s, exists r,
      escapeHtml (JStr s) = Normal r
      /\ (forall pre c post, r = pre ++ String c post ->
            c <> "<"%char /\ c <> ">"%char /\ c <> dquote /\ c <> "'"%char)
      /\ (forall pre post, r = pre ++ String "&"%char post ->
            exists e rest, In e entities /\ String "&"%char post = e ++ rest))
  /\ escapeHtml JNull = Normal ""
  /\ escapeHtml JUndefined = Normal ""
  /\ escapeHtml (JStr "") = Normal ""
  /\ (forall h job row, renderRow h job = Normal row -> escaped_row job row)
  /\ (forall h s s' items,
        jobs s = JArr items -> items <> [] -> renderTable h s = (Normal tt, s') ->
        exists rows, Forall2 escaped_row items rows
                     /\ dom s' jobTableBody_html = join "" rows).
Proof.
  split; [|repeat split].
  - intros s. exists (escape_text s). split; [apply escapeHtml_string|]. split.
    + intros pre c post Hr.
      exact (no_raw_markup_spec _ pre post c (escape_text_no_raw s) Hr).
    + intros pre post Hr.
      exact (amp_guarded_spec _ pre post (escape_text_guarded s) Hr).
  - apply renderRow_escaped.
  - intros h s s' items Hj Hne Hr.
    destruct (renderTable_rows h s s' items Hj Hne Hr) as [rows [Er Hd]].
    exists rows. split; [exact (renderRows_escaped h items rows Er)|exact Hd].
Qed.

(** C9. The status of a record does not pass through [escapeHtml]. In
    the row of a record whose status is a string, the status stands as
    it is inside the class attribute, and after it stands what
    [capitalizeFirst] makes of it, which is the status itself when it
    begins with an ASCII character that is not a small letter, [<] for
    one. The company of the same row went through [escapeHtml]. *)
Theorem renderRow_status_unescaped (h : Host) (props : list (string * jsval))
    (st row : string)
    (Hstatus : assoc "status" props = JStr st)
    (Hrow : renderRow h (JObj props) = Normal row) :
  exists company_html before cell after,
    escapeHtml (assoc "company" props) = Normal company_html
    /\ capitalizeFirst h (JStr st) = Normal cell
    /\ row = row_open ++ company_html ++ before
             ++ row_after_position ++ st ++ row_after_status_class
             ++ cell ++ row_after_status ++ after
    /\ (forall c rest,
          st = String c rest -> code_in c 0 127 = true -> code_in c 97 122 = false ->
          cell = st).
Proof.
  unfold renderRow in Hrow. cbn [get_prop bindc] in Hrow. rewrite Hstatus in Hrow.
  destruct (escapeHtml (assoc "company" props)) as [company_html|] eqn:Ec;
    cbn [bindc] in Hrow; [|discriminate Hrow].
  match type of Hrow with bindc ?c _ = _ =>
    destruct c as [link|] eqn:El; cbn [bindc] in Hrow; [|discriminate Hrow] end.
  destruct (escapeHtml (assoc "position" props)) as [position_html|] eqn:Ep;
    cbn [bindc] in Hrow; [|discriminate Hrow].
  destruct (capitalizeFirst h (JStr st)) as [cell|] eqn:Es;
    cbn [bindc to_string] in Hrow; [|discriminate Hrow].
  injection Hrow as <-.
  exists company_html, (row_after_company ++ link ++ row_after_link ++ position_html), cell.
  eexists. split; [reflexivity|]. split; [reflexivity|]. split.
  - rewrite !string_app_assoc. reflexivity.
  - intros c rest -> Hascii Hlow. unfold capitalizeFirst in Es.
    cbn [truthy negb String.eqb] in Es. rewrite Hlow, Hascii in Es.
    now injection Es as <-.
Qed.

Lemma renderRow_status_unescaped_witness :
  exists row before after,
    renderRow host_empty job_marked = Normal row
    /\ row = row_open ++ "&lt;b&gt;Acme&lt;/b&gt;" ++ before
             ++ row_after_position ++ "<img src=x onerror=alert(1)>"
             ++ row_after_status_class
             ++ "<img src=x onerror=alert(1)>" ++ row_after_status ++ after
    /\ includes "<img src=x onerror=alert(1)>" row = true
    /\ includes "<b>" row = false.
Proof.
  assert (Hr : exists row, renderRow host_empty job_marked = Normal row)
    by (eexists; vm_compute; reflexivity).
  destruct Hr as [row Hr].
  destruct (renderRow_status_unescaped host_empty
              [("id", JNum 1); ("company", JStr "<b>Acme</b>");
               ("position", JStr "Engineer");
               ("status", JStr "<img src=x onerror=alert(1)>")]
              "<img src=x onerror=alert(1)>" row eq_refl Hr)
    as [company_html [before [cell [after [Ec [Es [Erow Hcell]]]]]]].
  injection Ec as <-.
  rewrite (Hcell _ _ eq_refl eq_refl eq_refl) in Erow.
  exists row, before, after. split; [exact Hr|]. split; [exact Erow|].
  injection Hr as <-. split; vm_compute; reflexivity.
Defined.

(** * Further properties of the script *)

(** ** The HTTP wrapper *)

(** X1. Whatever the outcome of the request, [apiRequest] shows the
    loading indicator before the one request it makes and hides it at
    its end; it writes no other element, shows no dialog and leaves the
    record list and the edit target alone. *)
Theorem apiRequest_loading_bracket (h : Host) (url : string) (options : Options)
    (s : State) :
  exists between,
    log (snd (apiRequest h url options s))
    = (SetProp loading_display "none" :: between
       ++ Fetch (api_request url options) :: SetProp loading_display "flex" :: log s)%list
    /\ requests between = []
    /\ alerts between = []
    /\ (forall k v, ~ In (SetProp k v) between)
    /\ dom (snd (apiRequest h url options s)) loading_display = "none"
    /\ (forall k, k <> loading_display ->
          dom (snd (apiRequest h url options s)) k = dom s k)
    /\ jobs (snd (apiRequest h url options s)) = jobs s
    /\ editingJobId (snd (apiRequest h url options s)) = editingJobId s.
Proof.
  rewrite apiRequest_eq. cbn [snd].
  exists (api_extra (net h (List.length (requests (log s))) (api_request url options))).
  split; [reflexivity|].
  split; [apply api_extra_requests|]. split; [apply api_extra_alerts|].
  split.
  - intros k v. unfold api_extra.
    destruct (net h _ _) as [r|m];
      [destruct (api_completion (Responded r)); [destruct (ok r)|]|];
      simpl; intros H; repeat (destruct H as [H|H]; [discriminate|]); exact H.
  - split; [reflexivity|]. split; [|split; reflexivity].
    intros k Hk. simpl. unfold write.
    destruct (slot_beq loading_display k) eqn:E; [|reflexivity].
    apply internal_slot_dec_bl in E. congruence.
Qed.

(** X2. On a response with a status in 200..299, [apiRequest] returns
    the value the body parses to, and between the two writes of the
    loading indicator it does nothing but the request. When such a
    response has a body that is not JSON (an empty 204, say), the call
    fails with the parser's SyntaxError, which it logs. *)
Theorem apiRequest_ok_response (h : Host) (url : string) (options : Options)
    (s : State) (r : Response)
    (Hnet : net h (List.length (requests (log s))) (api_request url options) = Responded r)
    (Hok : ok r = true) :
  (forall v, body r = JsonBody v ->
     fst (apiRequest h url options s) = Normal v
     /\ log (snd (apiRequest h url options s))
        = SetProp loading_display "none" :: Fetch (api_request url options)
          :: SetProp loading_display "flex" :: log s)
  /\ (forall text, body r = RawBody text ->
        fst (apiRequest h url options s) = Throw (SyntaxError "Unexpected token in JSON")
        /\ log (snd (apiRequest h url options s))
           = SetProp loading_display "none"
             :: ConsoleError "API Error:" (SyntaxError "Unexpected token in JSON")
             :: Fetch (api_request url options)
             :: SetProp loading_display "flex" :: log s).
Proof.
  rewrite apiRequest_eq, Hnet. unfold api_extra, api_completion. rewrite Hok.
  unfold response_json. split.
  - intros v ->. split; reflexivity.
  - intros text ->. split; reflexivity.
Qed.

Lemma apiRequest_ok_response_witness :
  fst (apiRequest (host_answering (reply 204 (RawBody ""))) "/api/jobs/7"
         {| opt_method := Some "DELETE"; opt_body := None |} page0)
  = Throw (SyntaxError "Unexpected token in JSON").
Proof.
  exact (proj1 (proj2 (apiRequest_ok_response
                         (host_answering (reply 204 (RawBody ""))) "/api/jobs/7"
                         {| opt_method := Some "DELETE"; opt_body := None |} page0
                         {| status := 204; body := RawBody "" |} eq_refl eq_refl)
                 "" eq_refl)).
Defined.

(** X3. When the request gets no response, [apiRequest] fails with the
    TypeError of [fetch], logs it, and does not navigate. *)
Theorem apiRequest_no_response (h : Host) (url : string) (options : Options)
    (s : State) (message : string)
    (Hnet : net h (List.length (requests (log s))) (api_request url options)
            = Failed message) :
  apiRequest h url options s
  = (Throw (TypeError message),
     api_state s (api_request url options)
       [ConsoleError "API Error:" (TypeError message)]).
Proof. rewrite apiRequest_eq, Hnet. reflexivity. Qed.

Lemma apiRequest_no_response_witness :
  fst (apiRequest (host_answering (Failed "Failed to fetch")) "/api/stats" no_options page0)
  = Throw (TypeError "Failed to fetch").
Proof.
  exact (f_equal fst (apiRequest_no_response (host_answering (Failed "Failed to fetch"))
                        "/api/stats" no_options page0 "Failed to fetch" eq_refl)).
Defined.

(** ** Session *)

(** X4. [checkAuth] makes one bare GET of /api/jobs and never throws.
    It navigates to the landing route on every response that is not ok,
    whatever its status, and when there is no response; on an ok response
    it does nothing more. It never reads the body: the record list and
    the page are as they were. *)
Theorem checkAuth_redirects_unless_ok (h : Host) (s : State) :
  exists s',
    checkAuth h s = (Normal tt, s')
    /\ log s' = (match net h (List.length (requests (log s))) auth_request with
                 | Responded r => if ok r then [] else [Navigate "/"]
                 | Failed message =>
                     [Navigate "/"; ConsoleError "Auth check failed:" (TypeError message)]
                 end ++ Fetch auth_request :: log s)%list
    /\ (forall k, dom s' k = dom s k)
    /\ jobs s' = jobs s.
Proof.
  unfold checkAuth, try_catch, bind, fetch. fold auth_request.
  destruct (net h _ auth_request) as [r|message]; simpl.
  - destruct (ok r); simpl; eexists; repeat split; reflexivity.
  - eexists; repeat split; reflexivity.
Qed.

(** X5. [logout] makes one POST to /api/logout and then navigates to the
    landing route in every case: on any response, whatever its status,
    and when there is no response, which it logs. It never throws. *)
Theorem logout_always_redirects (h : Host) (s : State) :
  exists s',
    logout h s = (Normal tt, s')
    /\ log s' = (Navigate "/"
                 :: match net h (List.length (requests (log s))) logout_request with
                    | Responded _ => []
                    | Failed message =>
                        [ConsoleError "Logout failed:" (TypeError message)]
                    end ++ Fetch logout_request :: log s)%list
    /\ requests (log s') = logout_request :: requests (log s).
Proof.
  unfold logout, try_catch, bind, fetch. fold logout_request.
  destruct (net h _ logout_request) as [r|message]; simpl;
    eexists; repeat split; reflexivity.
Qed.

(** ** Export *)

(** X6. On an ok response, [exportToCSV] hands the body to the browser
    as one download named job_applications_ followed by the date part of
    the current ISO time and .csv; it shows no alert, logs nothing and
    changes nothing on the page. *)
Theorem exportToCSV_downloads (h : Host) (now : string) (s : State) (r : Response)
    (Hnet : net h (List.length (requests (log s))) export_request = Responded r)
    (Hok : ok r = true) :
  exists s',
    exportToCSV h now s = (Normal tt, s')
    /\ log s' = Download (export_filename now) (body r) :: Fetch export_request :: log s
    /\ (forall k, dom s' k = dom s k)
    /\ jobs s' = jobs s.
Proof.
  unfold exportToCSV, try_catch, bind, fetch. fold export_request.
  rewrite Hnet. simpl. rewrite Hok. simpl.
  eexists. repeat split; reflexivity.
Qed.

Lemma exportToCSV_downloads_witness :
  exists s',
    exportToCSV (host_answering (reply 200 (RawBody "Company,Position")))
      "2024-03-09T18:25:43.511Z" page0 = (Normal tt, s')
    /\ log s' = [Download "job_applications_2024-03-09.csv" (RawBody "Company,Position");
                 Fetch export_request].
Proof.
  destruct (exportToCSV_downloads (host_answering (reply 200 (RawBody "Company,Position")))
              "2024-03-09T18:25:43.511Z" page0
              {| status := 200; body := RawBody "Company,Position" |} eq_refl eq_refl)
    as [s' [E [L _]]].
  exists s'. split; [exact E|exact L].
Defined.

(** X7. The date part taken with [split('T')[0]] is the text before the
    first [T]: it is the date of every time written as date, [T], rest
    whose date holds no [T], and it never holds a [T] itself. *)
Theorem before_T_date_part (date rest : string) :
  lacks "T"%char (before_T rest) = true
  /\ (lacks "T"%char date = true -> before_T (date ++ String "T"%char rest) = date)
  /\ (lacks "T"%char date = true -> before_T date = date).
Proof.
  split; [|split].
  - induction rest as [|c r IH]; [reflexivity|]. simpl.
    destruct (Ascii.eqb c "T"%char) eqn:E; [reflexivity|]. simpl. now rewrite E.
  - induction date as [|c d IH]; simpl; [reflexivity|].
    intros H. apply andb_true_iff in H as [Hc Hd]. apply negb_true_iff in Hc.
    rewrite Hc. now rewrite IH.
  - induction date as [|c d IH]; simpl; [reflexivity|].
    intros H. apply andb_true_iff in H as [Hc Hd]. apply negb_true_iff in Hc.
    rewrite Hc. now rewrite IH.
Qed.

Lemma before_T_date_part_witness :
  before_T ("2024-03-09" ++ String "T"%char "18:25:43.511Z") = "2024-03-09".
Proof.
  exact (proj1 (proj2 (before_T_date_part "2024-03-09" "18:25:43.511Z")) eq_refl).
Defined.

(** ** Statistics *)

Lemma updateStatsDisplay_frame (stats : jsval) (s : State) (k : slot) :
  k <> totalApps_text -> k <> interviewCount_text ->
  dom (snd (updateStatsDisplay stats s)) k = dom s k.
Proof.
  intros H1 H2. unfold updateStatsDisplay, bind, lift. simpl.
  destruct (get_prop stats "total"); simpl; [|reflexivity].
  assert (W1 : forall v d, write totalApps_text v d k = d k).
  { intros v d. unfold write. destruct (slot_beq totalApps_text k) eqn:E; [|reflexivity].
    apply internal_slot_dec_bl in E. congruence. }
  assert (W2 : forall v d, write interviewCount_text v d k = d k).
  { intros v d. unfold write. destruct (slot_beq interviewCount_text k) eqn:E; [|reflexivity].
    apply internal_slot_dec_bl in E. congruence. }
  destruct (get_prop stats "byStatus") as [b|]; simpl; [|apply W1].
  match goal with |- context [match ?c with Normal _ => _ | Throw _ => _ end] =>
    destruct c end; simpl; [rewrite W2|]; apply W1.
Qed.


Section LoadersMore.

Variable h : Host.

Lemma loadStats_frame (s : State) (k : slot) :
  stats_slot k = false -> dom (snd (loadStats h s)) k = dom s k.
Proof.
  intros Hk. unfold loadStats, try_catch, bind. rewrite apiRequest_eq.
  set (s1 := api_state s _ _).
  assert (F1 : dom s1 k = dom s k).
  { unfold s1. simpl. unfold write.
    destruct (slot_beq loading_display k) eqn:E; [|reflexivity].
    apply internal_slot_dec_bl in E. subst k. discriminate Hk. }
  destruct (api_completion _) as [stats|e]; [|exact F1].
  pose proof (updateStatsDisplay_frame stats s1 k) as F2.
  destruct (updateStatsDisplay stats s1) as [[[]|e] s2]; cbn [snd fst] in *;
    cbn [console_error emit snd dom]; rewrite F2, F1; try reflexivity;
    destruct k; discriminate.
Qed.

(** X9. [loadStats] never throws and shows no dialog. It makes one GET
    of /api/stats, and of the page it writes the loading indicator,
    which it leaves hidden, and the two counters only; the record list
    and the table are not touched. When the request fails the counters
    keep their values and the failure is logged. *)
Theorem loadStats_writes_counters_only (s : State) :
  exists s',
    loadStats h s = (Normal tt, s')
    /\ requests (log s') = stats_request :: requests (log s)
    /\ alerts (log s') = alerts (log s)
    /\ jobs s' = jobs s
    /\ dom s' loading_display = "none"
    /\ (forall k, stats_slot k = false -> dom s' k = dom s k)
    /\ (forall e,
          api_completion (net h (List.length (requests (log s))) stats_request) = Throw e ->
          dom s' totalApps_text = dom s totalApps_text
          /\ dom s' interviewCount_text = dom s interviewCount_text
          /\ exists older, log s' = ConsoleError "Failed to load stats:" e :: older).
Proof.
  destruct (loadStats_spec h s) as [s' [E [W [J R]]]].
  exists s'. split; [exact E|]. split; [exact R|].
  split; [exact (grows_background_alerts _ _ (w_log _ _ _ W))|]. split; [exact J|].
  pose proof (f_equal snd E) as Es. cbn [snd] in Es. subst s'. clear E W J R.
  unfold loadStats, try_catch, bind. rewrite apiRequest_eq. fold stats_request.
  set (out := net h _ stats_request).
  set (s1 := api_state s stats_request (api_extra out)).
  assert (F1 : forall k, k <> loading_display -> dom s1 k = dom s k).
  { intros k Hk. unfold s1. simpl. unfold write.
    destruct (slot_beq loading_display k) eqn:E; [|reflexivity].
    apply internal_slot_dec_bl in E. congruence. }
  destruct (api_completion out) as [stats|e].
  - pose proof (updateStatsDisplay_frame stats s1) as F2.
    destruct (updateStatsDisplay stats s1) as [[[]|e] s2]; cbn [snd fst] in *.
    + split; [rewrite F2 by discriminate; reflexivity|]. split; [|intros e [=]].
      intros k Hk. rewrite F2, F1; try reflexivity; destruct k; discriminate.
    + cbn [console_error emit snd dom].
      split; [rewrite F2 by discriminate; reflexivity|]. split; [|intros e' [=]].
      intros k Hk. rewrite F2, F1; try reflexivity; destruct k; discriminate.
  - cbn [console_error emit snd dom log]. split; [reflexivity|]. split.
    + intros k Hk. apply F1. destruct k; discriminate.
    + intros e' [= <-]. rewrite !F1 by discriminate.
      split; [reflexivity|]. split; [reflexivity|]. eexists. reflexivity.
Qed.

(** ** The table *)

Lemma renderTable_body (s : State) (items : list jsval) (rows : list string) :
  jobs s = JArr items -> renderRows h items = Normal rows ->
  exists s', renderTable h s = (Normal tt, s')
             /\ dom s' jobTableBody_html = join "" rows
             /\ dom s' emptyState_display = match items with [] => "block" | _ => "none" end.
Proof.
  intros Hj Hr. unfold renderTable, bind, gets, lift. rewrite Hj.
  destruct items as [|j items].
  - injection Hr as <-. simpl. eexists. repeat split; reflexivity.
  - cbn -[renderRows join]. rewrite Hr.
    eexists. split; [reflexivity|]. split; reflexivity.
Qed.

(** X10. [renderTable] shows the record list: for an empty array it
    empties the table body and shows the empty state; for an array whose
    rows all render it hides the empty state and makes the body the rows
    in the order of the list, one per record. *)
Theorem renderTable_shows_list (s : State) :
  (jobs s = JArr [] ->
   exists s', renderTable h s = (Normal tt, s')
              /\ dom s' jobTableBody_html = ""
              /\ dom s' emptyState_display = "block")
  /\ (forall items rows,
        jobs s = JArr items -> items <> [] -> renderRows h items = Normal rows ->
        exists s', renderTable h s = (Normal tt, s')
                   /\ dom s' jobTableBody_html = join "" rows
                   /\ dom s' emptyState_display = "none"
                   /\ List.length rows = List.length items
                   /\ Forall2 (fun job row => renderRow h job = Normal row) items rows).
Proof.
  split.
  - intros Hj. unfold renderTable, bind, gets, lift. rewrite Hj. simpl.
    eexists. repeat split; reflexivity.
  - intros items rows Hj Hne Hr.
    assert (Hall : Forall2 (fun job row => renderRow h job = Normal row) items rows).
    { clear Hj Hne. revert rows Hr. induction items as [|j items IH]; simpl; intros rows Hr.
      - injection Hr as <-. constructor.
      - destruct (renderRow h j) as [row|] eqn:Ej; simpl in Hr; [|discriminate].
        destruct (renderRows h items) as [rest|] eqn:Ei; simpl in Hr; [|discriminate].
        injection Hr as <-. constructor; [exact Ej|now apply IH]. }
    unfold renderTable, bind, gets, lift. rewrite Hj.
    destruct items as [|j items]; [contradiction|].
    cbn -[renderRows join]. rewrite Hr.
    eexists. split; [reflexivity|]. split; [reflexivity|]. split; [reflexivity|].
    split; [symmetry; exact (Forall2_length Hall)|exact Hall].
Qed.

(** X11. [renderTable] fails without touching the table body when one
    record cannot be rendered (a truthy company that is not a string,
    say) and when the record list is not an array: a row that throws
    aborts the whole rendering after the empty state was hidden, and the
    undefined left by a 401 throws before anything is written. *)
Theorem renderTable_failure_keeps_body (s : State) :
  (forall items e,
      jobs s = JArr items -> renderRows h items = Throw e ->
      fst (renderTable h s) = Throw e
      /\ dom (snd (renderTable h s)) jobTableBody_html = dom s jobTableBody_html
      /\ dom (snd (renderTable h s)) emptyState_display = "none")
  /\ (jobs s = JUndefined ->
      exists message, renderTable h s = (Throw (TypeError message), s)).
Proof.
  split.
  - intros items e Hj Hr. unfold renderTable, bind, gets, lift. rewrite Hj.
    destruct items as [|j items]; [discriminate|].
    cbn -[renderRows]. rewrite Hr. repeat split.
  - intros Hj. unfold renderTable, bind, gets, lift. rewrite Hj. simpl.
    eexists. reflexivity.
Qed.

End LoadersMore.

Lemma renderTable_shows_list_witness :
  exists s',
    renderTable host_listing_seven listed_seven = (Normal tt, s')
    /\ dom s' emptyState_display = "none".
Proof.
  destruct (proj2 (renderTable_shows_list host_listing_seven listed_seven)
              [job_seven] _ eq_refl ltac:(discriminate) eq_refl)
    as [s' [E [_ [D _]]]].
  exists s'. split; [exact E|exact D].
Defined.

Lemma renderTable_failure_keeps_body_witness :
  fst (renderTable host_empty (with_jobs (JArr [JObj [("company", JNum 5)]]) page0))
  = Throw (TypeError "unsafe.replace is not a function").
Proof.
  exact (proj1 (proj1 (renderTable_failure_keeps_body host_empty
                         (with_jobs (JArr [JObj [("company", JNum 5)]]) page0))
                 [JObj [("company", JNum 5)]]
                 (TypeError "unsafe.replace is not a function") eq_refl eq_refl)).
Defined.

(** ** Loading the list *)

Section LoadJobsMore.

Variable h : Host.

Lemma loadJobs_eq (s : State) :
  loadJobs h s
  = match api_completion (list_outcome h s) with
    | Normal fetched =>
        try_catch (renderTable h ;; loadStats h)
          (fun error => console_error "Failed to load jobs:" error)
          (with_jobs fetched (listed h s))
    | Throw e =>
        (Normal tt, logged (ConsoleError "Failed to load jobs:" e) (listed h s))
    end.
Proof.
  unfold loadJobs, try_catch, bind at 1 2 3 4, gets, prop. simpl.
  rewrite apiRequest_eq. unfold listed, list_outcome.
  change (api_request _ no_options) with (list_request s).
  destruct (api_completion _); reflexivity.
Qed.

Lemma listed_frame (s : State) (k : slot) :
  k <> loading_display -> dom (listed h s) k = dom s k.
Proof.
  intros Hk. unfold listed. simpl. unfold write.
  destruct (slot_beq loading_display k) eqn:E; [|reflexivity].
  apply internal_slot_dec_bl in E. congruence.
Qed.

(** X12. A list reload that fails is swallowed: [loadJobs] ends
    normally, logs the failure and shows no dialog; the record list, the
    table and every other element but the loading indicator are as they
    were, and the statistics are not reloaded. *)
Theorem loadJobs_failure_keeps_list (s : State) (e : exn)
    (Hfail : api_completion (list_outcome h s) = Throw e) :
  exists s',
    loadJobs h s = (Normal tt, s')
    /\ jobs s' = jobs s
    /\ (forall k, k <> loading_display -> dom s' k = dom s k)
    /\ requests (log s') = list_request s :: requests (log s)
    /\ alerts (log s') = alerts (log s)
    /\ exists older, log s' = ConsoleError "Failed to load jobs:" e :: older.
Proof.
  rewrite loadJobs_eq, Hfail. eexists. split; [reflexivity|].
  split; [reflexivity|]. split; [exact (listed_frame s)|].
  split; [apply api_state_requests|]. split; [apply api_state_alerts|].
  eexists. reflexivity.
Qed.

(** X13. A list reload answered with 401 overwrites the record list
    with undefined: the wrapper returns undefined after starting the
    navigation, [loadJobs] stores it, and [renderTable] throws on it. The
    throw is swallowed and logged; the table keeps the rows it showed and
    the statistics are not reloaded. *)
Theorem loadJobs_unauthorized_clears_list (s : State) (r : Response)
    (Hnet : list_outcome h s = Responded r)
    (H401 : status r = 401%Z) :
  exists s' message older,
    loadJobs h s = (Normal tt, s')
    /\ jobs s' = JUndefined
    /\ (forall k, k <> loading_display -> dom s' k = dom s k)
    /\ requests (log s') = list_request s :: requests (log s)
    /\ alerts (log s') = alerts (log s)
    /\ log s' = (ConsoleError "Failed to load jobs:" (TypeError message)
                 :: SetProp loading_display "none" :: Navigate "/" :: older)%list.
Proof.
  assert (Hc : api_completion (list_outcome h s) = Normal JUndefined).
  { rewrite Hnet. unfold api_completion, ok. rewrite H401. reflexivity. }
  assert (Hx : api_extra (list_outcome h s) = [Navigate "/"]).
  { rewrite Hnet in Hc |- *. unfold api_extra. rewrite Hc. unfold ok. rewrite H401.
    reflexivity. }
  rewrite loadJobs_eq, Hc. unfold try_catch, bind, renderTable, gets, lift.
  cbn [with_jobs set_jobs snd jobs js_length get_prop].
  do 3 eexists. split; [reflexivity|]. split; [reflexivity|].
  split; [exact (listed_frame s)|].
  split; [cbn [console_error emit snd log requests]; apply api_state_requests|].
  split; [cbn [console_error emit snd log alerts]; apply api_state_alerts|].
  cbn [console_error emit snd log]. unfold listed. rewrite Hx. reflexivity.
Qed.

(** X14. A list reload answered with an array whose rows all render
    replaces the record list by that array, shows exactly its rows (the
    empty state for an empty array) and then reloads the statistics. *)
Theorem loadJobs_replaces_and_renders (s : State) (items : list jsval)
    (rows : list string)
    (Hlist : api_completion (list_outcome h s) = Normal (JArr items))
    (Hrows : renderRows h items = Normal rows) :
  exists s',
    loadJobs h s = (Normal tt, s')
    /\ jobs s' = JArr items
    /\ dom s' jobTableBody_html = join "" rows
    /\ dom s' emptyState_display = match items with [] => "block" | _ => "none" end
    /\ requests (log s') = stats_request :: list_request s :: requests (log s)
    /\ alerts (log s') = alerts (log s).
Proof.
  rewrite loadJobs_eq, Hlist. unfold try_catch, bind.
  set (s1 := with_jobs (JArr items) (listed h s)).
  assert (Hr1 : requests (log s1) = list_request s :: requests (log s))
    by apply api_state_requests.
  assert (Ha1 : alerts (log s1) = alerts (log s)) by apply api_state_alerts.
  destruct (renderTable_body h s1 items rows eq_refl Hrows) as [s2 [E2 [B2 D2]]].
  destruct (renderTable_within h s1) as [W2 J2]. rewrite E2 in W2, J2 |- *. cbn [snd] in *.
  destruct (loadStats_spec h s2) as [s3 [E3 [W3 [J3 R3]]]].
  pose proof (grows_background_alerts _ _ (w_log _ _ _ W3)) as A3.
  pose proof (loadStats_frame h s2) as F3. rewrite E3 in F3. cbn [snd] in F3.
  rewrite E3. exists s3. split; [reflexivity|].
  split; [now rewrite J3, J2|].
  split; [now rewrite F3|]. split; [now rewrite F3|].
  split.
  - rewrite R3, (grows_page_write_requests _ _ (w_log _ _ _ W2)), Hr1. reflexivity.
  - rewrite A3.
    rewrite (grows_background_alerts _ _
               (grows_weaken _ _ _ _ page_write_background (w_log _ _ _ W2))).
    exact Ha1.
Qed.

End LoadJobsMore.

Lemma loadJobs_failure_keeps_list_witness :
  exists s',
    loadJobs (host_answering (reply 500 (JsonBody (JObj [("error", JStr "boom")]))))
      listed_seven = (Normal tt, s')
    /\ jobs s' = JArr [job_seven].
Proof.
  destruct (loadJobs_failure_keeps_list
              (host_answering (reply 500 (JsonBody (JObj [("error", JStr "boom")]))))
              listed_seven (JsError "boom") eq_refl)
    as [s' [E [J _]]].
  exists s'. split; [exact E|exact J].
Defined.

Lemma loadJobs_unauthorized_clears_list_witness :
  exists s',
    loadJobs (host_answering (reply 401 (RawBody "Unauthorized"))) listed_seven
    = (Normal tt, s')
    /\ jobs s' = JUndefined
    /\ dom s' jobTableBody_html = dom listed_seven jobTableBody_html.
Proof.
  destruct (loadJobs_unauthorized_clears_list
              (host_answering (reply 401 (RawBody "Unauthorized"))) listed_seven
              {| status := 401; body := RawBody "Unauthorized" |} eq_refl eq_refl)
    as [s' [message [older [E [J [D _]]]]]].
  exists s'. split; [exact E|]. split; [exact J|]. apply D. discriminate.
Defined.

Lemma loadJobs_replaces_and_renders_witness :
  exists s',
    loadJobs host_listing_seven page0 = (Normal tt, s')
    /\ jobs s' = JArr [job_seven]
    /\ dom s' emptyState_display = "none".
Proof.
  assert (Hr : exists rows, renderRows host_listing_seven [job_seven] = Normal rows)
    by (eexists; vm_compute; reflexivity).
  destruct Hr as [rows Hr].
  destruct (loadJobs_replaces_and_renders host_listing_seven page0 [job_seven] rows
              eq_refl Hr)
    as [s' [E [J [_ [D _]]]]].
  exists s'. split; [exact E|]. split; [exact J|exact D].
Defined.

(** ** escapeHtml, capitalizeFirst *)

(** X15. Escaping goes through concatenation: the markup of a text put
    together from two parts is the markup of the parts put together. *)
Theorem escapeHtml_concat (a b : string) :
  exists ra rb,
    escapeHtml (JStr a) = Normal ra /\ escapeHtml (JStr b) = Normal rb
    /\ escapeHtml (JStr (a ++ b)) = Normal (ra ++ rb).
Proof.
  exists (escape_text a), (escape_text b). rewrite !escapeHtml_string.
  split; [reflexivity|]. split; [reflexivity|]. f_equal.
  induction a as [|c a IH]; [reflexivity|].
  cbn [append]. rewrite !escape_text_cons, IH. now rewrite string_app_assoc.
Qed.

Lemma escape_char_head (c : ascii) :
  (escape_char c = String c EmptyString /\ c <> "&"%char)
  \/ (c = "&"%char /\ escape_char c = "&amp;")
  \/ (c = "<"%char /\ escape_char c = "&lt;")
  \/ (c = ">"%char /\ escape_char c = "&gt;")
  \/ (c = dquote /\ escape_char c = "&quot;")
  \/ (c = "'"%char /\ escape_char c = "&#039;").
Proof.
  unfold escape_char.
  destruct (Ascii.eqb_spec c "&"%char) as [->|Hamp]; [right; left; now split|].
  destruct (Ascii.eqb_spec c "<"%char) as [->|Hlt]; [right; right; left; now split|].
  destruct (Ascii.eqb_spec c ">"%char) as [->|Hgt];
    [right; right; right; left; now split|].
  destruct (Ascii.eqb_spec c dquote) as [->|Hdq];
    [right; right; right; right; left; now split|].
  destruct (Ascii.eqb_spec c "'"%char) as [->|Hsq];
    [right; right; right; right; right; now split|].
  left. now split.
Qed.

(** X16. [escapeHtml] loses nothing: two strings with the same markup
    are the same string. *)
Theorem escapeHtml_injective (a b : string) :
  escapeHtml (JStr a) = escapeHtml (JStr b) -> a = b.
Proof.
  rewrite !escapeHtml_string. intros H. injection H as H. revert b H.
  induction a as [|c a IH]; intros [|d b] H.
  - reflexivity.
  - rewrite escape_text_cons in H.
    destruct (escape_char_head d) as [[E _]|[[_ E]|[[_ E]|[[_ E]|[[_ E]|[_ E]]]]]];
      rewrite E in H; discriminate.
  - rewrite escape_text_cons in H.
    destruct (escape_char_head c) as [[E _]|[[_ E]|[[_ E]|[[_ E]|[[_ E]|[_ E]]]]]];
      rewrite E in H; discriminate.
  - rewrite !escape_text_cons in H.
    destruct (escape_char_head c) as [[Ec Nc]|[[Hc Ec]|[[Hc Ec]|[[Hc Ec]|[[Hc Ec]|[Hc Ec]]]]]];
    destruct (escape_char_head d) as [[Ed Nd]|[[Hd Ed]|[[Hd Ed]|[[Hd Ed]|[[Hd Ed]|[Hd Ed]]]]]];
      rewrite Ec, Ed in H; cbn [append] in H; subst;
      try discriminate H;
      try (injection H as H; f_equal; now apply IH);
      try (injection H as Hh H; f_equal; [exact Hh|now apply IH]);
      try (injection H as Hh H; congruence).
Qed.

Lemma escapeHtml_injective_witness : "R&D" = "R&D".
Proof. exact (escapeHtml_injective "R&D" "R&D" eq_refl). Defined.

Lemma length_app_string (a b : string) :
  String.length (a ++ b) = String.length a + String.length b.
Proof. induction a as [|x a IH]; simpl; [reflexivity|now rewrite IH]. Qed.

Lemma escape_text_length (s : string) :
  String.length s <= String.length (escape_text s)
  /\ (plain_text s = false -> String.length s < String.length (escape_text s)).
Proof.
  induction s as [|c s [IH1 IH2]]; [split; [simpl; lia|discriminate]|].
  rewrite escape_text_cons, length_app_string. unfold plain_text in *.
  destruct (escape_char_head c) as [[E N]|[[H E]|[[H E]|[[H E]|[[H E]|[H E]]]]]];
    rewrite E; try subst c; simpl; try (split; intros; lia).
  split; [lia|]. intros Hp.
  pose proof (escape_char_no_raw c) as Hn. rewrite E in Hn. simpl in Hn.
  rewrite andb_true_r in Hn. rewrite Hn in Hp. apply Ascii.eqb_neq in N.
  rewrite N in Hp. simpl in Hp. specialize (IH2 Hp). lia.
Qed.

(** X17. [escapeHtml] returns a string as it is exactly when the string
    holds none of the five characters it replaces; otherwise the markup
    is longer than the string. *)
Theorem escapeHtml_plain_text (s : string) :
  (escapeHtml (JStr s) = Normal s <-> plain_text s = true)
  /\ (plain_text s = false ->
      exists r, escapeHtml (JStr s) = Normal r /\ String.length s < String.length r).
Proof.
  rewrite escapeHtml_string. split; [split|].
  - intros H. injection H as H.
    destruct (plain_text s) eqn:Hp; [reflexivity|].
    pose proof (proj2 (escape_text_length s) Hp) as L. rewrite H in L. lia.
  - unfold plain_text. intros H. apply andb_true_iff in H as [H1 H2]. f_equal.
    induction s as [|c s IH]; [reflexivity|]. simpl in H1, H2.
    apply andb_true_iff in H1 as [Hc H1]. apply andb_true_iff in H2 as [Ha H2].
    rewrite escape_text_cons, (IH H1 H2). unfold escape_char.
    apply negb_true_iff in Hc, Ha. rewrite Ha.
    apply orb_false_iff in Hc as [Hc Hsq]. apply orb_false_iff in Hc as [Hc Hdq].
    apply orb_false_iff in Hc as [Hlt Hgt].
    now rewrite Hlt, Hgt, Hdq, Hsq.
  - intros Hp. exists (escape_text s). split; [reflexivity|].
    exact (proj2 (escape_text_length s) Hp).
Qed.

Lemma escapeHtml_plain_text_witness :
  exists r, escapeHtml (JStr "A<B") = Normal r /\ String.length "A<B" < String.length r.
Proof. exact (proj2 (escapeHtml_plain_text "A<B") eq_refl). Defined.

(** X18. For a string that begins with an ASCII character,
    [capitalizeFirst] changes at most the first character, to its capital
    when it is a small letter, and capitalizing twice is capitalizing
    once. It returns the empty string for a falsy value and throws for a
    truthy value that is not a string, such as a number. *)
Theorem capitalizeFirst_ascii (h : Host) (c : ascii) (r : string)
    (Hascii : code_in c 0 127 = true) :
  exists c',
    capitalizeFirst h (JStr (String c r)) = Normal (String c' r)
    /\ capitalizeFirst h (JStr (String c' r)) = Normal (String c' r)
    /\ (code_in c 97 122 = true -> nat_of_ascii c' = nat_of_ascii c - 32)
    /\ (code_in c 97 122 = false -> c' = c)
    /\ capitalizeFirst h JUndefined = Normal ""
    /\ capitalizeFirst h (JStr "") = Normal ""
    /\ (forall n, n <> 0%Z -> exists e, capitalizeFirst h (JNum n) = Throw e).
Proof.
  assert (Hlast : capitalizeFirst h JUndefined = Normal ""
                  /\ capitalizeFirst h (JStr "") = Normal ""
                  /\ (forall n, n <> 0%Z -> exists e, capitalizeFirst h (JNum n) = Throw e)).
  { split; [reflexivity|]. split; [reflexivity|]. intros n Hn.
    unfold capitalizeFirst. simpl. apply Z.eqb_neq in Hn. rewrite Hn. simpl. eauto. }
  unfold capitalizeFirst. cbn [truthy negb String.eqb].
  destruct (code_in c 97 122) eqn:Hlow.
  - exists (ascii_of_nat (nat_of_ascii c - 32)).
    assert (Hn : nat_of_ascii (ascii_of_nat (nat_of_ascii c - 32)) = nat_of_ascii c - 32).
    { apply nat_ascii_embedding. pose proof (nat_ascii_bounded c). lia. }
    unfold code_in in *. rewrite Hn.
    apply andb_true_iff in Hlow as [L1 L2].
    apply Nat.leb_le in L1, L2.
    assert (U1 : Nat.leb 97 (nat_of_ascii c - 32) = false) by (apply Nat.leb_gt; lia).
    assert (U2 : Nat.leb (nat_of_ascii c - 32) 127 = true) by (apply Nat.leb_le; lia).
    rewrite U1, U2. simpl.
    split; [reflexivity|]. split; [reflexivity|]. split; [reflexivity|].
    split; [discriminate|exact Hlast].
  - exists c. rewrite Hlow, Hascii. simpl.
    split; [reflexivity|]. split; [reflexivity|]. split; [discriminate|].
    split; [reflexivity|exact Hlast].
Qed.

Lemma capitalizeFirst_ascii_witness :
  exists c',
    capitalizeFirst host_empty (JStr "interview") = Normal (String c' "nterview")
    /\ nat_of_ascii c' = 73.
Proof.
  destruct (capitalizeFirst_ascii host_empty "i"%char "nterview" eq_refl)
    as [c' [E [_ [L _]]]].
  exists c'. split; [exact E|exact (L eq_refl)].
Defined.

(** ** The query of the list reload *)

Lemma hex_digit_safe (n : nat) : n < 16 -> url_safe (hex_digit true n) = true.
Proof.
  intros Hn. do 16 (destruct n as [|n]; [reflexivity|]). lia.
Qed.

Lemma urlencode_safe (s : string) : all_chars url_safe (urlencode s) = true.
Proof.
  induction s as [|c s IH]; [reflexivity|]. cbn [urlencode].
  destruct (is_alnum c || code_is c 42 || code_is c 45 || code_is c 46 || code_is c 95)
    eqn:E.
  - cbn [all_chars]. rewrite IH, andb_true_r. unfold url_safe.
    repeat (apply orb_true_iff in E as [E|E]; [|rewrite E; now rewrite ?orb_true_r]).
    now rewrite E.
  - destruct (code_is c 32); [cbn [all_chars]; rewrite IH; reflexivity|].
    cbn [all_chars hex2 append]. rewrite IH, andb_true_r.
    pose proof (nat_ascii_bounded c) as Hb.
    assert (H1 : Nat.div (nat_of_ascii c) 16 < 16)
      by (apply Nat.Div0.div_lt_upper_bound; lia).
    assert (H2 : Nat.modulo (nat_of_ascii c) 16 < 16) by (apply Nat.mod_upper_bound; lia).
    rewrite (hex_digit_safe _ H1), (hex_digit_safe _ H2). reflexivity.
Qed.

Lemma list_request_url (s : State) :
  req_url (list_request s)
  = "/api/jobs?sort_by=" ++ urlencode (sortColumn s)
    ++ "&sort_order=" ++ order_name (sortOrder s)
    ++ (if dom s statusFilter_value =? "" then ""
        else "&status=" ++ urlencode (dom s statusFilter_value)).
Proof.
  unfold list_request, list_params, api_request, URLSearchParams_toString.
  cbn [req_url].
  assert (Hnil : forall t : string, t ++ "" = t)
    by (induction t as [|x t IH]; simpl; [reflexivity|now rewrite IH]).
  destruct (dom s statusFilter_value =? ""); destruct (sortOrder s);
    cbn [negb app map join fst snd order_name];
    change (urlencode "sort_by") with "sort_by";
    change (urlencode "sort_order") with "sort_order";
    change (urlencode "status") with "status";
    change (urlencode "asc") with "asc";
    change (urlencode "desc") with "desc";
    unfold API_BASE; cbn [append]; rewrite ?string_app_assoc; cbn [append];
    rewrite ?Hnil; reflexivity.
Qed.

Section QueryMore.

Variable h : Host.

(** X19. [loadJobs] asks for /api/jobs with the sort column and the
    sort order, and with the status only when the filter is not empty:
    that is the one request it adds, by a GET without body, before the
    request for the statistics, if that one follows. The column and the
    filter are form-urlencoded, so that they consist of letters, digits
    and [* - . _ + %] alone: a value cannot end its parameter or start
    another one. *)
Theorem loadJobs_query (s : State) :
  exists s' reload column filter,
    loadJobs h s = (Normal tt, s')
    /\ (requests (log s') = reload :: requests (log s)
        \/ requests (log s') = stats_request :: reload :: requests (log s))
    /\ req_url reload
       = "/api/jobs?sort_by=" ++ column
         ++ "&sort_order=" ++ order_name (sortOrder s)
         ++ (if dom s statusFilter_value =? "" then "" else "&status=" ++ filter)
    /\ column = urlencode (sortColumn s)
    /\ filter = urlencode (dom s statusFilter_value)
    /\ all_chars url_safe column = true
    /\ all_chars url_safe filter = true
    /\ req_method reload = None
    /\ req_body reload = None.
Proof.
  destruct (loadJobs_spec h s) as [s' [E [_ [R _]]]].
  exists s', (list_request s), (urlencode (sortColumn s)),
    (urlencode (dom s statusFilter_value)).
  split; [exact E|]. split; [exact R|]. split; [apply list_request_url|].
  split; [reflexivity|]. split; [reflexivity|].
  split; [apply urlencode_safe|]. split; [apply urlencode_safe|].
  split; reflexivity.
Qed.

End QueryMore.

(** ** Filters and sorting *)

Section FiltersMore.

Variable h : Host.

(** X20. [clearFilters] empties the status filter and reloads the list
    with the sort state it found and without a status in the query. *)
Theorem clearFilters_drops_status (s : State) :
  exists s' reload,
    clearFilters h s = (Normal tt, s')
    /\ dom s' statusFilter_value = ""
    /\ sortColumn s' = sortColumn s /\ sortOrder s' = sortOrder s
    /\ (requests (log s') = reload :: requests (log s)
        \/ requests (log s') = stats_request :: reload :: requests (log s))
    /\ req_url reload = "/api/jobs?sort_by=" ++ urlencode (sortColumn s)
                        ++ "&sort_order=" ++ order_name (sortOrder s).
Proof.
  unfold clearFilters, bind. cbn [set_prop].
  set (s0 := {| jobs := jobs s; sortColumn := sortColumn s; sortOrder := sortOrder s;
                editingJobId := editingJobId s;
                dom := write statusFilter_value "" (dom s);
                th_classes := th_classes s;
                log := SetProp statusFilter_value "" :: log s |}).
  destruct (loadJobs_spec h s0) as [s' [E [W [R _]]]]. rewrite E.
  exists s', (list_request s0). split; [reflexivity|].
  split; [rewrite (w_dom _ _ _ W statusFilter_value eq_refl); reflexivity|].
  split; [exact (w_column _ _ _ W)|]. split; [exact (w_order _ _ _ W)|].
  split; [exact R|].
  rewrite (list_request_url s0). cbn [s0 sortColumn sortOrder dom].
  change (write statusFilter_value "" (dom s) statusFilter_value) with "".
  cbn [String.eqb].
  assert (Hnil : forall t : string, t ++ "" = t)
    by (induction t as [|x t IH]; simpl; [reflexivity|now rewrite IH]).
  now rewrite Hnil.
Qed.

Lemma classList_remove_in (a b c : string) (classes : list string) :
  In c (classList_remove a b classes) <-> In c classes /\ c <> a /\ c <> b.
Proof.
  unfold classList_remove. rewrite filter_In. split.
  - intros [Hin Hc]. apply negb_true_iff, orb_false_iff in Hc as [Ha Hb].
    apply String.eqb_neq in Ha, Hb. auto.
  - intros [Hin [Ha Hb]]. split; [exact Hin|].
    apply negb_true_iff, orb_false_iff. split; now apply String.eqb_neq.
Qed.

Lemma classList_add_in (a c : string) (classes : list string) :
  In c (classList_add a classes) <-> c = a \/ In c classes.
Proof.
  unfold classList_add. destruct (existsb (String.eqb a) classes) eqn:E.
  - split; [auto|]. intros [->|H]; [|exact H].
    apply existsb_exists in E as [x [Hx Hax]]. apply String.eqb_eq in Hax. now subst.
  - rewrite in_app_iff. simpl. split; [intros [H|[H|[]]]; auto|].
    intros [->|H]; auto.
Qed.

Lemma update_nth_length {A} (i : nat) (f : A -> A) (l : list A) :
  List.length (update_nth i f l) = List.length l.
Proof.
  revert i. induction l as [|x l IH]; intros [|i]; simpl; auto.
Qed.

Lemma update_nth_nth_error {A} (i j : nat) (f : A -> A) (l : list A) :
  nth_error (update_nth i f l) j
  = if Nat.eqb j i then option_map f (nth_error l j) else nth_error l j.
Proof.
  revert i j. induction l as [|x l IH]; intros [|i] [|j]; simpl; try reflexivity.
  - now destruct (Nat.eqb j i).
  - apply IH.
Qed.

(** X21. On a page that has the header cell of the column, [sortTable]
    leaves the number of header cells and every class that is not a sort
    mark as they were. Afterwards the header cell of the sorted column
    carries the mark of the new order and not the other one, and no other
    header cell carries a sort mark. *)
Theorem sortTable_marks_one_header (column : string) (s : State)
    (Hpresent : header_present column s) :
  List.length (th_classes (snd (sortTable h column s))) = List.length (th_classes s)
  /\ forall j old,
       nth_error (th_classes s) j = Some old ->
       exists new,
         nth_error (th_classes (snd (sortTable h column s))) j = Some new
         /\ (forall c, c <> "sort-asc" -> c <> "sort-desc" -> (In c new <-> In c old))
         /\ (indexOf column sortable_columns = Some j ->
             In ("sort-" ++ order_name (sortOrder (snd (sortTable h column s)))) new
             /\ ~ In (other_mark (sortOrder (snd (sortTable h column s)))) new)
         /\ (indexOf column sortable_columns <> Some j -> unmarked new).
Proof.
  destruct (sortTable_sort_state h column s) as [_ Ho]. rewrite Ho. clear Ho.
  rewrite sortTable_eq.
  destruct (marked_present column s Hpresent) as [s2 Em]. rewrite Em.
  destruct (loadJobs_spec h s2) as [s3 [E3 [W3 _]]]. rewrite E3. cbn [snd].
  rewrite (w_th _ _ _ W3). clear E3 W3 s3.
  set (cleaned := map (classList_remove "sort-asc" "sort-desc") (th_classes s)).
  assert (Hclean : forall j old, nth_error (th_classes s) j = Some old ->
            nth_error cleaned j = Some (classList_remove "sort-asc" "sort-desc" old)).
  { intros j old Hj. unfold cleaned. rewrite nth_error_map, Hj. reflexivity. }
  assert (Hkeep : forall c old, c <> "sort-asc" -> c <> "sort-desc" ->
            (In c (classList_remove "sort-asc" "sort-desc" old) <-> In c old)).
  { intros c old H1 H2. rewrite classList_remove_in. tauto. }
  assert (Hun : forall old, unmarked (classList_remove "sort-asc" "sort-desc" old)).
  { intros old. split; intros H; apply classList_remove_in in H; tauto. }
  unfold marked in Em. cbn [th_classes resorted] in Em. fold cleaned in Em.
  destruct (indexOf column sortable_columns) as [i|].
  - destruct (nth_error cleaned i) eqn:Ei; [|discriminate]. injection Em as <-.
    cbn [th_classes sortOrder resorted].
    generalize (if sortColumn s =? column then flip (sortOrder s) else asc) as o.
    intros o.
    split; [rewrite update_nth_length; unfold cleaned; apply length_map|].
    intros j old Hj. rewrite update_nth_nth_error, (Hclean _ _ Hj).
    destruct (Nat.eqb_spec j i) as [->|Hne]; cbn [option_map]; eexists;
      (split; [reflexivity|]).
    + split; [|split].
      * intros c H1 H2. rewrite classList_add_in, Hkeep by assumption.
        split; [intros [->|H]; [|exact H]|auto].
        destruct o; exfalso; [apply H1|apply H2]; reflexivity.
      * intros _. split; [apply classList_add_in; now left|].
        intros H. apply classList_add_in in H as [H|H].
        -- destruct o; discriminate H.
        -- destruct (Hun old) as [U1 U2]. destruct o; [exact (U2 H)|exact (U1 H)].
      * intros H. now contradiction H.
    + split; [intros c; apply Hkeep|].
      split; [intros [= H]; now contradiction Hne|intros _; apply Hun].
  - injection Em as <-. cbn [th_classes resorted]. fold cleaned.
    split; [unfold cleaned; apply length_map|].
    intros j old Hj. rewrite (Hclean _ _ Hj). eexists. split; [reflexivity|].
    split; [intros c; apply Hkeep|]. split; [discriminate|intros _; apply Hun].
Qed.

End FiltersMore.

Lemma sortTable_marks_one_header_witness :
  List.length (th_classes (snd (sortTable host_empty "position" page0))) = 5.
Proof.
  assert (Hp : header_present "position" page0) by (vm_compute; lia).
  exact (proj1 (sortTable_marks_one_header host_empty "position" page0 Hp)).
Defined.

(** ** The form and the modal *)

Section ModalMore.

Variable h : Host.

(** X23. When [jobs.find] throws, as it does on the undefined that a
    401 leaves in the record list, [openModal] with a truthy id throws as
    well: the modal is not shown and the form is not touched, but the id
    is already the edit target and the title already says edit. *)
Theorem openModal_throws_on_broken_list (now : string) (id : jsval) (s : State) (e : exn)
    (Hid : truthy id = true)
    (Hfind : jobs_find (jobs s) id = Throw e) :
  exists s',
    openModal h now id s = (Throw e, s')
    /\ editingJobId s' = id
    /\ dom s' modalTitle_text = "Edit Application"
    /\ (forall k, k <> modalTitle_text -> dom s' k = dom s k)
    /\ log s' = SetProp modalTitle_text "Edit Application" :: log s.
Proof.
  assert (Hn : match id with JUndefined => JNull | _ => id end = id)
    by (destruct id; try reflexivity; discriminate).
  unfold openModal. rewrite Hn. unfold bind at 1 2. cbn [set_editingJobId].
  rewrite Hid. unfold bind at 1 2 3, gets, lift. cbn [set_prop jobs].
  rewrite Hfind. eexists. split; [reflexivity|]. cbn [editingJobId dom log].
  split; [reflexivity|]. split; [reflexivity|]. split; [|reflexivity].
  intros k Hk. unfold write. destruct (slot_beq modalTitle_text k) eqn:E; [|reflexivity].
  apply internal_slot_dec_bl in E. congruence.
Qed.

(** X24. When no record of the list has the truthy id, [openModal]
    still opens the modal for editing: the id is the edit target, the
    title says edit and the modal is shown, and every field of the form
    keeps the text it had. *)
Theorem openModal_unknown_id_keeps_form (now : string) (id : jsval) (s : State)
    (Hid : truthy id = true)
    (Hfind : jobs_find (jobs s) id = Normal JUndefined) :
  exists s',
    openModal h now id s = (Normal tt, s')
    /\ editingJobId s' = id
    /\ dom s' modalTitle_text = "Edit Application"
    /\ dom s' jobModal_display = "block"
    /\ (forall k, In k form_slots -> dom s' k = dom s k)
    /\ requests (log s') = requests (log s).
Proof.
  assert (Hn : match id with JUndefined => JNull | _ => id end = id)
    by (destruct id; try reflexivity; discriminate).
  unfold openModal. rewrite Hn. unfold bind at 1 2. cbn [set_editingJobId].
  rewrite Hid. unfold bind at 1 2 3, gets, lift. cbn [set_prop jobs].
  rewrite Hfind. cbn [truthy]. eexists. split; [reflexivity|].
  cbn [editingJobId dom log]. repeat split.
  intros k Hk. simpl in Hk.
  repeat (destruct Hk as [<- | Hk]; [reflexivity|]). contradiction.
Qed.

(** X25. Of the keys, Escape closes the modal, n with Ctrl or Cmd opens
    the modal for a new application after preventing the default, and
    every other key that is not e with Ctrl or Cmd changes nothing at
    all. The letters are compared as they are: N and E do nothing. *)
Theorem onKeydown_dispatch (now key : string) (ctrlKey metaKey : bool) (s : State) :
  (key = "Escape" ->
   onKeydown h now key ctrlKey metaKey s = closeModal s)
  /\ (key = "n" -> ctrlKey || metaKey = true ->
      onKeydown h now key ctrlKey metaKey s
      = (emit PreventDefault ;; openModal h now JNull) s)
  /\ (key <> "Escape" ->
      ctrlKey || metaKey = false \/ (key <> "n" /\ key <> "e") ->
      onKeydown h now key ctrlKey metaKey s = (Normal tt, s)).
Proof.
  unfold onKeydown. split; [|split].
  - intros ->. cbn [String.eqb Ascii.eqb Bool.eqb andb]. rewrite !andb_false_r.
    unfold bind. destruct (closeModal s) as [[[]|e] s1]; reflexivity.
  - intros -> ->. cbn [String.eqb Ascii.eqb Bool.eqb andb].
    unfold bind at 1 2, ret.
    destruct ((emit PreventDefault ;; openModal h now JNull) s) as [[[]|e] s1];
      reflexivity.
  - intros Hesc Hother. apply String.eqb_neq in Hesc. rewrite Hesc.
    destruct Hother as [-> | [Hn He]].
    + reflexivity.
    + apply String.eqb_neq in Hn, He. rewrite Hn, He, !andb_false_r. reflexivity.
Qed.

End ModalMore.

Lemma openModal_throws_on_broken_list_witness :
  exists s' message,
    openModal host_empty "2024-03-09T18:25:43.511Z" (JNum 7) (with_jobs JUndefined page0)
    = (Throw (TypeError message), s')
    /\ editingJobId s' = JNum 7.
Proof.
  destruct (openModal_throws_on_broken_list host_empty "2024-03-09T18:25:43.511Z" (JNum 7)
              (with_jobs JUndefined page0) _ eq_refl eq_refl)
    as [s' [E [He _]]].
  exists s'. eexists. split; [exact E|exact He].
Defined.

Lemma openModal_unknown_id_keeps_form_witness :
  exists s',
    openModal host_empty "2024-03-09T18:25:43.511Z" (JNum 8) editing_seven = (Normal tt, s')
    /\ dom s' company_value = "Acme".
Proof.
  destruct (openModal_unknown_id_keeps_form host_empty "2024-03-09T18:25:43.511Z" (JNum 8)
              editing_seven eq_refl eq_refl)
    as [s' [E [_ [_ [_ [F _]]]]]].
  exists s'. split; [exact E|]. rewrite F; [reflexivity|simpl; auto].
Defined.

Lemma onKeydown_dispatch_witness :
  onKeydown host_empty "2024-03-09T18:25:43.511Z" "N" true false page0 = (Normal tt, page0).
Proof.
  apply (proj2 (proj2 (onKeydown_dispatch host_empty "2024-03-09T18:25:43.511Z" "N"
                         true false page0))).
  - discriminate.
  - right. split; discriminate.
Defined.

(** ** What the page never does *)

Section Emits.

Variable h : Host.
Variable P : Event -> bool.

Lemma em_ret {A} (a : A) : emits P (ret a).
Proof. intros s. constructor. Qed.

Lemma em_throw {A} (e : exn) : emits P (@throw A e).
Proof. intros s. constructor. Qed.

Lemma em_lift {A} (c : completion A) : emits P (lift c).
Proof. intros s. constructor. Qed.

Lemma em_gets {A} (f : State -> A) : emits P (gets f).
Proof. intros s. constructor. Qed.

Lemma em_set_jobs (v : jsval) : emits P (set_jobs v).
Proof. intros s. constructor. Qed.

Lemma em_set_editingJobId (v : jsval) : emits P (set_editingJobId v).
Proof. intros s. constructor. Qed.

Lemma em_user_input (k : slot) (text : string) : emits P (user_input k text).
Proof. intros s. unfold user_input. destruct (existsb _ _); constructor. Qed.

Lemma em_emit (e : Event) : P e = true -> emits P (emit e).
Proof. intros He s. now repeat constructor. Qed.

Lemma em_set_prop (k : slot) (v : string) : P (SetProp k v) = true -> emits P (set_prop k v).
Proof. intros He s. now repeat constructor. Qed.

Lemma em_form_reset : P FormReset = true -> emits P (form_reset h).
Proof. intros He s. now repeat constructor. Qed.

Lemma em_fetch (r : Request) : P (Fetch r) = true -> emits P (fetch h r).
Proof.
  intros He s. unfold fetch. destruct (net h _ r); now repeat constructor.
Qed.

Lemma em_bind {A B} (m : M A) (k : A -> M B) :
  emits P m -> (forall a, emits P (k a)) -> emits P (bind m k).
Proof.
  intros Hm Hk s. unfold bind. specialize (Hm s).
  destruct (m s) as [[a|e] s1]; cbn [snd] in *; [|exact Hm].
  eapply grows_trans; [exact Hm|apply Hk].
Qed.

Lemma em_try_catch {A} (body : M A) (handler : exn -> M A) :
  emits P body -> (forall e, emits P (handler e)) -> emits P (try_catch body handler).
Proof.
  intros Hm Hk s. unfold try_catch. specialize (Hm s).
  destruct (body s) as [[a|e] s1]; cbn [snd] in *; [exact Hm|].
  eapply grows_trans; [exact Hm|apply Hk].
Qed.

Lemma em_try_finally {A} (body : M A) (cleanup : M unit) :
  emits P body -> emits P cleanup -> emits P (try_finally body cleanup).
Proof.
  intros Hm Hk s. unfold try_finally. specialize (Hm s).
  destruct (body s) as [r s1]; cbn [snd] in *.
  specialize (Hk s1). destruct (cleanup s1) as [[[]|e] s2]; cbn [snd] in *;
    (eapply grows_trans; [exact Hm|exact Hk]).
Qed.

Lemma em_if {A} (b : bool) (m1 m2 : M A) :
  emits P m1 -> emits P m2 -> emits P (if b then m1 else m2).
Proof. now destruct b. Qed.

Hypothesis P_page : forall k v, P (SetProp k v) = true.

Lemma em_renderTable : emits P (renderTable h).
Proof.
  intros s. destruct (renderTable_within h s) as [W _].
  eapply grows_weaken; [|exact (w_log _ _ _ W)].
  intros [] He; try discriminate He. apply P_page.
Qed.

Lemma em_updateStatsDisplay (stats : jsval) : emits P (updateStatsDisplay stats).
Proof.
  intros s. destruct (updateStatsDisplay_within stats s) as [W _].
  eapply grows_weaken; [|exact (w_log _ _ _ W)].
  intros [] He; try discriminate He. apply P_page.
Qed.

Hypothesis P_console : forall label e, P (ConsoleError label e) = true.
Hypothesis P_home : P (Navigate "/") = true.

Lemma em_apiRequest (url : string) (options : Options) :
  P (Fetch (api_request url options)) = true -> emits P (apiRequest h url options).
Proof.
  intros Hf s. rewrite apiRequest_eq. cbn [snd api_state log].
  constructor; [apply P_page|].
  change (Fetch (api_request url options) :: SetProp loading_display "flex" :: log s)
    with ([Fetch (api_request url options); SetProp loading_display "flex"] ++ log s)%list.
  rewrite app_assoc. apply grows_app. rewrite forallb_app. cbn [forallb].
  rewrite Hf, P_page, andb_true_r. cbn [andb].
  unfold api_extra. destruct (net h _ _) as [r|m];
    [destruct (api_completion (Responded r)); [destruct (ok r)|]
    |destruct (api_completion (Failed m))];
    cbn [forallb]; rewrite ?P_console, ?P_home; reflexivity.
Qed.

End Emits.

(** Decompose a computation along its syntax; what an event must
    satisfy is settled by evaluation. *)
Ltac em_side := first [reflexivity | intros; reflexivity].

Ltac em :=
  repeat lazymatch goal with
    | |- emits _ (let _ := _ in _) => cbv zeta
    | |- emits _ (bind _ _) => apply em_bind; [|intros ?]
    | |- emits _ (try_catch _ _) => apply em_try_catch; [|intros ?]
    | |- emits _ (try_finally _ _) => apply em_try_finally
    | |- emits _ (if _ then _ else _) => apply em_if
    | |- emits _ (ret _) => apply em_ret
    | |- emits _ (throw _) => apply em_throw
    | |- emits _ (lift _) => apply em_lift
    | |- emits _ (gets _) => apply em_gets
    | |- emits _ (prop _) => apply em_gets
    | |- emits _ (set_jobs _) => apply em_set_jobs
    | |- emits _ (set_editingJobId _) => apply em_set_editingJobId
    | |- emits _ (user_input _ _) => apply em_user_input
    | |- emits _ (emit _) => apply em_emit; em_side
    | |- emits _ (alert _) => apply em_emit; em_side
    | |- emits _ (navigate _) => apply em_emit; em_side
    | |- emits _ (console_error _ _) => apply em_emit; em_side
    | |- emits _ (set_prop _ _) => apply em_set_prop; em_side
    | |- emits _ (form_reset _) => apply em_form_reset; em_side
    | |- emits _ (fetch _ _) => apply em_fetch; em_side
    | |- emits _ (renderTable _) => apply em_renderTable; em_side
    | |- emits _ (updateStatsDisplay _) => apply em_updateStatsDisplay; em_side
    | |- emits _ (apiRequest _ _ _) => apply em_apiRequest; em_side
    end.

Section Confined.

Variable h : Host.

Lemma prefix_app_self (a b : string) : String.prefix a (a ++ b) = true.
Proof.
  induction a as [|c a IH]; simpl; [now destruct b|].
  destruct (ascii_dec c c); [exact IH|contradiction].
Qed.

Lemma allowed_loadStats : emits allowed (loadStats h).
Proof. unfold loadStats. em. Qed.

Lemma allowed_loadJobs : emits allowed (loadJobs h).
Proof. unfold loadJobs. em. apply allowed_loadStats. Qed.

Lemma allowed_saveJob (jobData : JobData) : emits allowed (saveJob h jobData).
Proof.
  unfold saveJob. apply em_bind; [em|]. intros id. cbv zeta.
  destruct (truthy id); em.
Qed.

Lemma allowed_sortTable (column : string) : emits allowed (sortTable h column).
Proof.
  intros s. rewrite sortTable_eq.
  destruct (marked column (resorted column s)) as [s2|] eqn:Em; [|constructor].
  destruct (marked_sort_state _ _ _ Em) as [_ [_ [_ [Hl _]]]].
  change (log s) with (log (resorted column s)). rewrite <- Hl.
  apply allowed_loadJobs.
Qed.

Lemma allowed_exportToCSV (now : string) : emits allowed (exportToCSV h now).
Proof.
  unfold exportToCSV. em. apply em_emit. apply prefix_app_self.
Qed.

Lemma allowed_openModal (now : string) (arg : jsval) : emits allowed (openModal h now arg).
Proof. unfold openModal, populateForm, fill. em. Qed.

Lemma allowed_handler (a : action) : emits allowed (handler h a).
Proof.
  destruct a; cbn [handler].
  - unfold onDOMContentLoaded, checkAuth. em;
      first [apply allowed_loadJobs | apply allowed_loadStats].
  - apply allowed_loadStats.
  - em.
  - unfold handleFormSubmit, read_form, closeModal. em;
      first [apply allowed_saveJob | apply allowed_loadJobs].
  - apply allowed_openModal.
  - unfold closeModal. em.
  - unfold deleteJob, deleteJobById. em. apply allowed_loadJobs.
  - apply allowed_sortTable.
  - unfold clearFilters. em. apply allowed_loadJobs.
  - apply allowed_loadJobs.
  - apply allowed_exportToCSV.
  - unfold logout. em.
  - unfold onKeydown, closeModal. em;
      first [apply allowed_openModal | apply allowed_exportToCSV].
  - unfold onWindowClick, closeModal. em.
Qed.

Lemma run_grows (P : Event -> bool) (actions : list action) (s : State) :
  (forall a, emits P (handler h a)) -> grows P (log s) (log (run h actions s)).
Proof.
  intros Hh. induction actions as [|a actions IH] using rev_ind; [constructor|].
  rewrite run_snoc. eapply grows_trans; [exact IH|apply Hh].
Qed.

Lemma grows_from_nil (P : Event -> bool) (l : list Event) (e : Event) :
  grows P [] l -> In e l -> P e = true.
Proof.
  intros G. remember [] as l0 eqn:E0. induction G as [|x l' Hx G IH]; intros Hin.
  - subst. contradiction.
  - destruct Hin as [<-|Hin]; [exact Hx|now apply IH].
Qed.

Lemma run_allowed (d : slot -> string) (ths : list (list string))
    (actions : list action) (e : Event) :
  In e (log (run h actions (initial d ths))) -> allowed e = true.
Proof.
  apply grows_from_nil. exact (run_grows allowed actions (initial d ths) allowed_handler).
Qed.

(** X26. Whatever happens to the page, the script navigates nowhere but
    to the landing route. *)
Theorem run_navigates_home_only (d : slot -> string) (ths : list (list string))
    (actions : list action) (href : string) :
  In (Navigate href) (log (run h actions (initial d ths))) -> href = "/".
Proof.
  intros Hin. apply run_allowed in Hin. now apply String.eqb_eq.
Qed.

(** X27. Whatever happens to the page, every request of the script,
    through apiRequest or by a bare fetch, goes to a path below /api/. *)
Theorem run_requests_below_api (d : slot -> string) (ths : list (list string))
    (actions : list action) (r : Request) :
  In (Fetch r) (log (run h actions (initial d ths))) ->
  String.prefix "/api/" (req_url r) = true.
Proof. intros Hin. exact (run_allowed d ths actions _ Hin). Qed.

(** X28. Whatever happens to the page, the dialogs of the script are its
    four alerts and the confirmation of a deletion, and a download is
    named job_applications_ and what follows. *)
Theorem run_dialogs_are_fixed (d : slot -> string) (ths : list (list string))
    (actions : list action) :
  (forall message, In (Alert message) (log (run h actions (initial d ths))) ->
     In message alert_messages)
  /\ (forall message, In (Confirm message) (log (run h actions (initial d ths))) ->
        message = "Are you sure you want to delete this application?")
  /\ (forall filename content,
        In (Download filename content) (log (run h actions (initial d ths))) ->
        exists rest, filename = "job_applications_" ++ rest).
Proof.
  split; [|split].
  - intros message Hin. apply run_allowed in Hin. cbn [allowed] in Hin.
    apply existsb_exists in Hin as [x [Hx Hm]]. apply String.eqb_eq in Hm. now subst.
  - intros message Hin. apply run_allowed in Hin. now apply String.eqb_eq.
  - intros filename content Hin. apply run_allowed in Hin. cbn [allowed] in Hin.
    exact (prefix_split _ _ Hin).
Qed.

Lemma readonly_loadStats : emits no_mutation (loadStats h).
Proof. unfold loadStats. em. Qed.

Lemma readonly_loadJobs : emits no_mutation (loadJobs h).
Proof. unfold loadJobs. em. apply readonly_loadStats. Qed.

Lemma readonly_exportToCSV (now : string) : emits no_mutation (exportToCSV h now).
Proof. unfold exportToCSV. em. Qed.

Lemma readonly_openModal (now : string) (arg : jsval) :
  emits no_mutation (openModal h now arg).
Proof. unfold openModal, populateForm, fill. em. Qed.

Lemma grows_no_mutation (l l' : list Event) :
  grows no_mutation l l' -> mutations l' = mutations l.
Proof.
  unfold mutations. induction 1 as [|e l' He _ IH]; [reflexivity|].
  destruct e; cbn [requests]; try exact IH.
  cbn [filter]. cbn [no_mutation] in He. apply negb_true_iff in He. now rewrite He.
Qed.

(** X29. Only submitting the form, deleting and logging out send a
    request that changes data: every other entry point of the script,
    loading, the timer, sorting, filtering, opening and closing the modal,
    the export and the keyboard among them, leaves the POST, PUT and
    DELETE requests made so far as they are. *)
Theorem reading_actions_never_mutate (a : action) (s : State)
    (Hread : reads_only a = true) :
  mutations (log (step h a s)) = mutations (log s).
Proof.
  apply grows_no_mutation. unfold step. revert s.
  change (emits no_mutation (handler h a)).
  destruct a; try discriminate Hread; cbn [handler].
  - unfold onDOMContentLoaded, checkAuth. em;
      first [apply readonly_loadJobs | apply readonly_loadStats].
  - apply readonly_loadStats.
  - em.
  - apply readonly_openModal.
  - unfold closeModal. em.
  - intros s. rewrite sortTable_eq.
    destruct (marked column (resorted column s)) as [s2|] eqn:Em; [|constructor].
    destruct (marked_sort_state _ _ _ Em) as [_ [_ [_ [Hl _]]]].
    change (log s) with (log (resorted column s)). rewrite <- Hl.
    apply readonly_loadJobs.
  - unfold clearFilters. em. apply readonly_loadJobs.
  - apply readonly_loadJobs.
  - apply readonly_exportToCSV.
  - unfold onKeydown, closeModal. em;
      first [apply readonly_openModal | apply readonly_exportToCSV].
  - unfold onWindowClick, closeModal. em.
Qed.

End Confined.

Section SubmitMore.

Variable h : Host.

Lemma handleFormSubmit_body_emits :
  emits (fun _ => true)
    (try_catch
       (jobData <- read_form ;;
        if (jd_company jobData =? "") || (jd_position jobData =? "") then
          alert "Company and Position are required fields"
        else
          _ <- saveJob h jobData ;;
          loadJobs h ;;
          closeModal)
       (fun error =>
          console_error "Failed to save job:" error ;;
          alert "Failed to save application. Please try again.")).
Proof. unfold read_form, saveJob, loadJobs, loadStats, closeModal. em. Qed.

(** X22. [handleFormSubmit] never throws. Whatever happens in it, a
    rejected form, a failed save or a completed one, the first things it
    does are to prevent the default action of the event and to put the
    save button in its busy state (disabled, label hidden, busy text
    shown), and the last things it does are the three writes that undo
    this: it ends with the button enabled, its label shown and its busy
    text hidden. *)
Theorem handleFormSubmit_restores_button (s : State) :
  exists s' middle,
    handleFormSubmit h s = (Normal tt, s')
    /\ log s' = (submit_finally ++ middle ++ submit_prelude ++ log s)%list
    /\ dom s' saveButton_disabled = "false"
    /\ dom s' btnText_display = "inline"
    /\ dom s' btnLoading_display = "none".
Proof.
  unfold handleFormSubmit, bind at 1 2 3 4. cbn [emit set_prop].
  unfold try_finally.
  match goal with |- context [try_catch ?b ?hd ?st] =>
    set (body := b); set (hd0 := hd); set (s0 := st)
  end.
  assert (Hb : fst (try_catch body hd0 s0) = Normal tt).
  { unfold try_catch. destruct (body s0) as [[[]|e] s1]; [reflexivity|].
    unfold hd0, bind, console_error, alert, emit. reflexivity. }
  destruct (grows_split _ _ _ (handleFormSubmit_body_emits s0)) as [middle Hm].
  fold body hd0 in Hm.
  destruct (try_catch body hd0 s0) as [r s1].
  cbn [fst snd] in Hb, Hm. subst r.
  eexists. exists middle. split; [reflexivity|]. cbn [log dom].
  split; [rewrite Hm; reflexivity|]. repeat split.
Qed.

End SubmitMore.

Lemma run_navigates_home_only_witness :
  In (Navigate "/")
     (log (run (host_answering (reply 401 (RawBody "Unauthorized"))) [Tick] page0))
  /\ "/" = "/".
Proof.
  assert (Hin : In (Navigate "/")
                  (log (run (host_answering (reply 401 (RawBody "Unauthorized")))
                          [Tick] (initial blank_page five_headers))))
    by (vm_compute; repeat (first [left; reflexivity | right])).
  split; [exact Hin|].
  exact (run_navigates_home_only _ blank_page five_headers [Tick] "/" Hin).
Defined.

Lemma run_requests_below_api_witness :
  In (Fetch stats_request) (log (run host_empty [Tick] page0))
  /\ String.prefix "/api/" (req_url stats_request) = true.
Proof.
  assert (Hin : In (Fetch stats_request)
                  (log (run host_empty [Tick] (initial blank_page five_headers))))
    by (vm_compute; repeat (first [left; reflexivity | right])).
  split; [exact Hin|].
  exact (run_requests_below_api _ blank_page five_headers [Tick] stats_request Hin).
Defined.

Lemma run_dialogs_are_fixed_witness :
  In (Alert "Failed to export data. Please try again.")
     (log (run (host_answering (Failed "offline"))
             [CallExportToCSV "2024-03-09T18:25:43.511Z"] page0))
  /\ In "Failed to export data. Please try again." alert_messages.
Proof.
  assert (Hin : In (Alert "Failed to export data. Please try again.")
                  (log (run (host_answering (Failed "offline"))
                          [CallExportToCSV "2024-03-09T18:25:43.511Z"]
                          (initial blank_page five_headers))))
    by (vm_compute; repeat (first [left; reflexivity | right])).
  split; [exact Hin|].
  exact (proj1 (run_dialogs_are_fixed _ blank_page five_headers
                  [CallExportToCSV "2024-03-09T18:25:43.511Z"]) _ Hin).
Defined.

Lemma reading_actions_never_mutate_witness :
  reads_only (CallSortTable "company") = true
  /\ mutations (log (step host_empty (CallSortTable "company") editing_zero))
     = mutations (log editing_zero).
Proof.
  split; [reflexivity|].
  exact (reading_actions_never_mutate host_empty (CallSortTable "company") editing_zero eq_refl).
Defined.


Lemma loadStats_writes_counters_only_witness :
  exists s',
    loadStats (host_answering (Failed "Failed to fetch")) listed_seven = (Normal tt, s')
    /\ dom s' totalApps_text = dom listed_seven totalApps_text
    /\ dom s' jobTableBody_html = dom listed_seven jobTableBody_html.
Proof.
  destruct (loadStats_writes_counters_only (host_answering (Failed "Failed to fetch"))
              listed_seven)
    as [s' [E [_ [_ [_ [_ [F K]]]]]]].
  exists s'. split; [exact E|]. split.
  - exact (proj1 (K (TypeError "Failed to fetch") eq_refl)).
  - exact (F jobTableBody_html eq_refl).
Defined.
